(** * Attacker personas: a shallow embedding of the simulation core

    The development follows the Python sources file by file:
    - [Py]        : the fragment of Python's string, list and random
                    library the sources call;
    - [Persona]   : attacker_personas/persona.py;
    - [Stix]      : threat_intelligence/mitre_stix_client.py;
    - [Generator] : attacker_personas/persona_generator.py;
    - [Library]   : attacker_personas/persona_library.py;
    - [Agent]     : agents/red_team_agent_v2.py.

    The modules after [Agent] cover the rest of these files:
    - [StixQueries]    : the indexes and the queries of the client;
    - [PyMore]         : key errors, division by zero and sorting;
    - [Inference]      : the heuristics of the persona generator;
    - [Campaigns]      : the bookkeeping of an executed campaign;
    - [LibraryQueries] : the queries and custom personas of the library;
    - [PersonaData]    : the construction of a persona from MITRE data.

    Python dictionaries read with fixed keys are records whose fields are
    options ([None] is an absent key), strings are UTF-8 text whose
    length is counted in characters, dictionaries used as maps are
    [gmap]s, Python floats are the kernel's binary64 floats, and the
    global random generator is an explicit stream of draws threaded
    through every call that consumes one. *)

From Stdlib Require Import ZArith Floats Ascii String.
From stdpp Require Import gmap strings list pretty.

Open Scope string_scope.
Open Scope list_scope.

(* Decimal literals denote the nearest binary64 value, as in Python. *)
Set Warnings "-inexact-float".

(** ** Python library fragment *)
Module Py.

(** Strings are the UTF-8 encoding of Python's text.

    [str.lower] on ASCII text: the letters A to Z are folded and every
    other byte is kept, which is what Python does when the text is ASCII
    ([isascii] below). *)
Definition lower_ascii (c : ascii) : ascii :=
  let n := nat_of_ascii c in
  if (65 <=? n)%nat && (n <=? 90)%nat then ascii_of_nat (n + 32) else c.

Fixpoint lower (s : string) : string :=
  match s with
  | EmptyString => EmptyString
  | String c s' => String (lower_ascii c) (lower s')
  end.

(** [needle in hay] for two strings. *)
Fixpoint contains (needle hay : string) : bool :=
  String.prefix needle hay ||
  match hay with
  | EmptyString => false
  | String _ hay' => contains needle hay'
  end.

(** [sep.join(l)]. *)
Fixpoint join (sep : string) (l : list string) : string :=
  match l with
  | [] => ""
  | [x] => x
  | x :: rest => x +:+ sep +:+ join sep rest
  end.

(** [s.isascii()]. *)
Definition isascii (s : string) : bool :=
  forallb (fun c => (nat_of_ascii c <? 128)%nat) (list_ascii_of_string s).

(** A byte [10xxxxxx] continues the character that an earlier byte began. *)
Definition continuation (c : ascii) : bool :=
  let n := nat_of_ascii c in (128 <=? n)%nat && (n <? 192)%nat.

(** [len(s)]: the number of characters, not of bytes. *)
Fixpoint len (s : string) : nat :=
  match s with
  | EmptyString => 0
  | String c s' => if continuation c then len s' else S (len s')
  end.

(** [s[:n]]: the first [n] characters, each with all of its bytes. *)
Fixpoint slice_to (n : nat) (s : string) : string :=
  match s with
  | EmptyString => EmptyString
  | String c s' =>
      if continuation c then String c (slice_to n s')
      else
        match n with
        | 0 => EmptyString
        | S n' => String c (slice_to n' s')
        end
  end.

(** [x in l] for a list of strings; [x] may be [None]. *)
Definition str_in (x : string) (l : list string) : bool :=
  bool_decide (x ∈ l).

Definition opt_in (x : option string) (l : list string) : bool :=
  match x with
  | Some s => str_in s l
  | None => false
  end.

(** [d.get(k, default)]. *)
Definition get_or {A} (x : option A) (default : A) : A :=
  match x with
  | Some v => v
  | None => default
  end.

(** Exceptions the modelled code can raise, and the outcome of a call. *)
Inductive Exception :=
  | ValueError (msg : string)
  | OverflowError (msg : string)
  | TypeError (msg : string).

Inductive result (A : Type) :=
  | Ok (a : A)
  | Raise (e : Exception).
Arguments Ok {A} a.
Arguments Raise {A} e.

Definition bind {A B} (x : result A) (f : A -> result B) : result B :=
  match x with
  | Ok a => f a
  | Raise e => Raise e
  end.

(** [x ← e; k] runs [k] unless [e] raised. *)
Global Instance result_bind : MBind result := fun A B f x => bind x f.
Global Instance result_ret : MRet result := fun A a => Ok a.

(** The global generator of the [random] module: an unbounded stream of
    raw draws and the position of the next one. *)
Record Rng := { draws : nat -> N; pos : nat }.

Definition next (r : Rng) : N * Rng :=
  (draws r (pos r), {| draws := draws r; pos := S (pos r) |}).

(** [random._randbelow(n)] for [n > 0]. *)
Definition randbelow (n : nat) (r : Rng) : nat * Rng :=
  let '(k, r') := next r in (N.to_nat (k mod N.of_nat n), r').

Lemma randbelow_lt n r : n ≠ 0 → (randbelow n r).1 < n.
Proof.
  intros Hn. unfold randbelow. destruct (next r) as [k r']. simpl.
  pose proof (N.mod_upper_bound k (N.of_nat n)). lia.
Qed.

(** [random.choice(l)] on the non-empty list [x :: l]. *)
Definition choice {A} (x : A) (l : list A) (r : Rng) : A * Rng :=
  let '(i, r') := randbelow (length (x :: l)) r in (nth i (x :: l) x, r').

(** [random.randint(a, b)] with [a <= b]. *)
Definition randint (a b : Z) (r : Rng) : Z * Rng :=
  let '(k, r') := randbelow (Z.to_nat (b - a + 1)) r in (a + Z.of_nat k, r')%Z.

End Py.

(** ** Python floats

    A Python float is a binary64 value: the kernel's [float], whose
    operations are specified by [SpecFloat]. The lemmas of this module bound
    results of the primitive operations by powers of two, which is what
    shows that [int(x)] is defined and in range where the sources call it. *)
Module PyFloat.
Import Py.
Local Open Scope Z_scope.

(** [float(n)] for an integer [0 <= n < 2^63]. *)
Definition float_of_int (n : Z) : float := of_uint63 (Uint63.of_Z n).

(** [int(x)]: truncation towards zero, an error on NaN and infinities. *)
Definition int_of_float (x : float) : result Z :=
  match Prim2SF x with
  | S754_zero _ => Ok 0
  | S754_finite s m e =>
      Ok (cond_Zopp s (match e with
                       | Zneg p => Zpos m / 2 ^ Zpos p
                       | _ => Zpos m * 2 ^ e
                       end))
  | S754_infinity _ =>
      Raise (OverflowError "cannot convert float infinity to integer")
  | S754_nan => Raise (ValueError "cannot convert float NaN to integer")
  end.

(** [min(x, y)] on floats: [y] when [y < x], else [x]. *)
Definition min_float (x y : float) : float := if (y <? x)%float then y else x.

(** [a / b] for integers [0 <= a, 0 < b], both below [2^53] (the quotient
    of the two exactly converted operands is the correctly rounded result
    that Python computes). *)
Definition true_div (a b : Z) : float := (float_of_int a / float_of_int b)%float.

(** [random.random()]: 53 random bits scaled by [2^-53]. *)
Definition random (r : Rng) : float * Rng :=
  let '(k, r') := next r in
  ((float_of_int (Z.of_N k mod 2 ^ 53) * 0x1p-53)%float, r').

(** [random.uniform(a, b)]. *)
Definition uniform (a b : float) (r : Rng) : float * Rng :=
  let '(x, r') := random r in ((a + (b - a) * x)%float, r').

(** [0 <= x <= 1], as the comparisons of the language decide it. *)
Definition in_unit (x : float) : Prop :=
  (0 <=? x)%float = true ∧ (x <=? 1)%float = true.

Abbreviation fexp := (SpecFloat.fexp prec emax).
Abbreviation bra := (binary_round_aux prec emax).

(** [0 <= x <= 2^k] and [0 <= x < 2^k] on the specification side. *)
Definition le_pow2 (k : Z) (x : spec_float) : Prop :=
  match x with
  | S754_zero _ => True
  | S754_finite false m e => e <= k ∧ Zpos m <= 2 ^ (k - e)
  | _ => False
  end.

Definition lt_pow2 (k : Z) (x : spec_float) : Prop :=
  match x with
  | S754_zero _ => True
  | S754_finite false m e => e <= k ∧ Zpos m < 2 ^ (k - e)
  | _ => False
  end.

(** [lia] after hiding the powers of two it would otherwise expand. *)
Ltac forget_pow2 :=
  repeat match goal with
         | |- context [Z.pow 2 ?e] =>
             let x := fresh "pw" in set (x := Z.pow 2 e) in *; clearbody x
         | H : context [Z.pow 2 ?e] |- _ =>
             let x := fresh "pw" in set (x := Z.pow 2 e) in *; clearbody x
         end.
Ltac plia := forget_pow2; lia.

Lemma digits2_pos_bounds m :
  2 ^ (Zpos (digits2_pos m) - 1) <= Zpos m < 2 ^ Zpos (digits2_pos m).
Proof.
  induction m as [p IH|p IH|]; simpl digits2_pos.
  - rewrite Pos2Z.inj_succ. change (Zpos p~1) with (2 * Zpos p + 1).
    replace (Z.succ (Zpos (digits2_pos p)) - 1) with (Z.succ (Zpos (digits2_pos p) - 1)) by lia.
    rewrite !Z.pow_succ_r by lia. plia.
  - rewrite Pos2Z.inj_succ. change (Zpos p~0) with (2 * Zpos p).
    replace (Z.succ (Zpos (digits2_pos p)) - 1) with (Z.succ (Zpos (digits2_pos p) - 1)) by lia.
    rewrite !Z.pow_succ_r by lia. plia.
  - simpl. lia.
Qed.

Lemma Zdigits2_lt m k : 0 <= m < 2 ^ k -> 0 <= k -> Zdigits2 m <= k.
Proof.
  intros [H0 Hlt] Hk. destruct m as [|p|p]; simpl; [lia| |lia].
  pose proof (digits2_pos_bounds p) as [Hlo _].
  assert (2 ^ (Zpos (digits2_pos p) - 1) < 2 ^ k) as Hp by lia.
  apply Z.pow_lt_mono_r_iff in Hp; lia.
Qed.

Lemma Zdigits2_le m k : 0 <= m <= 2 ^ k -> 0 <= k -> Zdigits2 m <= k + 1.
Proof.
  intros [H0 Hle] Hk. apply Zdigits2_lt; [|lia].
  rewrite Z.pow_add_r by lia. change (2 ^ 1) with 2.
  pose proof (Z.pow_pos_nonneg 2 k). plia.
Qed.

Lemma shr_1_m mrs : 0 <= shr_m mrs -> shr_m (shr_1 mrs) = shr_m mrs / 2.
Proof.
  destruct mrs as [m r s]. cbn [shr_m]. intros Hm.
  destruct m as [|[p|p|]|p]; cbn [shr_1 shr_m]; [done| | |done|lia].
  - change (Zpos p~1) with (2 * Zpos p + 1).
    apply Z.div_unique with 1; lia.
  - change (Zpos p~0) with (2 * Zpos p).
    apply Z.div_unique with 0; lia.
Qed.

Lemma iter_pos_shr_1 p mrs :
  0 <= shr_m mrs ->
  shr_m (SpecFloat.iter_pos shr_1 p mrs) = shr_m mrs / 2 ^ Zpos p.
Proof.
  revert mrs. induction p as [p IH|p IH|]; intros mrs Hm; cbn [SpecFloat.iter_pos].
  - assert (0 <= shr_m (shr_1 mrs)) by (rewrite shr_1_m by done; apply Z.div_pos; lia).
    assert (0 <= shr_m (SpecFloat.iter_pos shr_1 p (shr_1 mrs))).
    { rewrite IH by done. apply Z.div_pos; [done|]. apply Z.pow_pos_nonneg; lia. }
    rewrite !IH, shr_1_m by done.
    rewrite !Z.div_div by (try apply Z.pow_pos_nonneg; lia).
    f_equal. change (Zpos p~1) with (2 * Zpos p + 1).
    replace (2 * Zpos p + 1) with (1 + Zpos p + Zpos p) by lia.
    rewrite !Z.pow_add_r by lia. lia.
  - assert (0 <= shr_m (SpecFloat.iter_pos shr_1 p mrs)).
    { rewrite IH by done. apply Z.div_pos; [done|]. apply Z.pow_pos_nonneg; lia. }
    rewrite !IH by done.
    rewrite !Z.div_div by (try apply Z.pow_pos_nonneg; lia).
    f_equal. change (Zpos p~0) with (2 * Zpos p).
    replace (2 * Zpos p) with (Zpos p + Zpos p) by lia.
    rewrite !Z.pow_add_r by lia. lia.
  - rewrite shr_1_m by done. done.
Qed.

Lemma shr_m_record_of_loc m l : shr_m (shr_record_of_loc m l) = m.
Proof. by destruct l as [|[]]. Qed.

Lemma shr_spec mrs e n mrs' e' :
  0 <= shr_m mrs -> shr mrs e n = (mrs', e') ->
  (n <= 0 ∧ mrs' = mrs ∧ e' = e) ∨
  (0 < n ∧ shr_m mrs' = shr_m mrs / 2 ^ n ∧ e' = e + n).
Proof.
  intros Hm. destruct n as [|p|p]; cbn [shr]; intros [= <- <-].
  - left. done.
  - right. split; [lia|]. split; [|done]. by apply iter_pos_shr_1.
  - left. split; [lia|done].
Qed.

Lemma fexp_eq x : fexp x = Z.max (x - 53) (-1074).
Proof. reflexivity. Qed.

(** One normalising shift keeps a bound by a power of two. *)
Lemma shr_fexp_le m e l k mrs' e' :
  0 <= m <= 2 ^ (k - e) -> e <= k -> -1074 <= k ->
  shr_fexp prec emax m e l = (mrs', e') ->
  0 <= shr_m mrs' <= 2 ^ (k - e') ∧ e' <= k.
Proof.
  intros [Hm0 Hm] He Hk. unfold shr_fexp. intros Hshr.
  apply shr_spec in Hshr; [|by rewrite shr_m_record_of_loc].
  rewrite shr_m_record_of_loc in Hshr.
  destruct Hshr as [(_ & -> & ->)|(Hn & -> & ->)].
  - by rewrite shr_m_record_of_loc.
  - pose proof (Zdigits2_le m (k - e)) as Hd. rewrite fexp_eq in *.
    assert (He' : e + (Z.max (Zdigits2 m + e - 53) (-1074) - e) <= k) by lia.
    split; [|done]. split.
    + apply Z.div_pos; [done|]. apply Z.pow_pos_nonneg; lia.
    + apply Z.div_le_upper_bound; [apply Z.pow_pos_nonneg; lia|].
      rewrite <- Z.pow_add_r by lia.
      replace (Z.max (Zdigits2 m + e - 53) (-1074) - e +
               (k - (e + (Z.max (Zdigits2 m + e - 53) (-1074) - e))))
        with (k - e) by lia.
      done.
Qed.

Lemma shr_fexp_lt m e l k mrs' e' :
  0 <= m < 2 ^ (k - e) -> e <= k -> -1074 <= k ->
  shr_fexp prec emax m e l = (mrs', e') ->
  0 <= shr_m mrs' < 2 ^ (k - e') ∧ e' <= k.
Proof.
  intros [Hm0 Hm] He Hk. unfold shr_fexp. intros Hshr.
  apply shr_spec in Hshr; [|by rewrite shr_m_record_of_loc].
  rewrite shr_m_record_of_loc in Hshr.
  destruct Hshr as [(_ & -> & ->)|(Hn & -> & ->)].
  - by rewrite shr_m_record_of_loc.
  - pose proof (Zdigits2_lt m (k - e)) as Hd. rewrite fexp_eq in *.
    assert (He' : e + (Z.max (Zdigits2 m + e - 53) (-1074) - e) <= k) by lia.
    split; [|done]. split.
    + apply Z.div_pos; [done|]. apply Z.pow_pos_nonneg; lia.
    + apply Z.div_lt_upper_bound; [apply Z.pow_pos_nonneg; lia|].
      rewrite <- Z.pow_add_r by lia.
      replace (Z.max (Zdigits2 m + e - 53) (-1074) - e +
               (k - (e + (Z.max (Zdigits2 m + e - 53) (-1074) - e))))
        with (k - e) by lia.
      done.
Qed.

Lemma round_nearest_even_bounds m l :
  m <= round_nearest_even m l <= m + 1.
Proof.
  destruct l as [|[]]; cbn [round_nearest_even]; try lia.
  destruct (Z.even m); lia.
Qed.

(** Rounding a non-negative value below [2^k] gives a float in
    [[0, 2^k]]: neither a NaN nor an infinity, and never negative. *)
Lemma bra_le_pow2 M E l k :
  0 <= M < 2 ^ (k - E) -> E <= k -> -1074 <= k <= 971 ->
  le_pow2 k (bra false M E l).
Proof.
  intros HM HE Hk. unfold binary_round_aux.
  destruct (shr_fexp prec emax M E l) as [mrs1 e1] eqn:H1.
  apply (shr_fexp_lt _ _ _ k) in H1 as [Hm1 He1]; [|done|done|lia].
  pose proof (round_nearest_even_bounds (shr_m mrs1) (loc_of_shr_record mrs1))
    as Hr.
  destruct (shr_fexp prec emax
              (round_nearest_even (shr_m mrs1) (loc_of_shr_record mrs1))
              e1 loc_Exact) as [mrs2 e2] eqn:H2.
  apply (shr_fexp_le _ _ _ k) in H2 as [Hm2 He2]; [|lia|done|lia].
  destruct (shr_m mrs2) as [|p|p] eqn:Hp; [done| |lia].
  replace (e2 <=? emax - prec) with true; [cbn [le_pow2]; plia|].
  symmetry. apply Z.leb_le. change (emax - prec) with 971. lia.
Qed.

Lemma iter_xO m d : Zpos (Pos.iter xO m d) = Zpos m * 2 ^ Zpos d.
Proof.
  induction d as [|d IH] using Pos.peano_ind.
  - simpl. lia.
  - rewrite Pos.iter_succ, Pos2Z.inj_succ, Z.pow_succ_r by lia.
    change (Zpos (Pos.iter xO m d)~0) with (2 * Zpos (Pos.iter xO m d)).
    rewrite IH. lia.
Qed.

Lemma shl_align_spec mx ex ex' mz ez :
  shl_align mx ex ex' = (mz, ez) ->
  ez = Z.min ex ex' ∧ Zpos mz = Zpos mx * 2 ^ (ex - ez).
Proof.
  unfold shl_align. destruct (ex' - ex) as [|d|d] eqn:Hd; intros [= <- <-].
  - rewrite Z.sub_diag. simpl. lia.
  - rewrite Z.sub_diag. simpl. lia.
  - split; [lia|]. rewrite iter_xO. f_equal. f_equal. lia.
Qed.

Lemma binary_round_le_pow2 m e k :
  Zpos m < 2 ^ (k - e) -> e <= k -> -1074 <= k <= 971 ->
  le_pow2 k (binary_round prec emax false m e).
Proof.
  intros Hm He Hk. unfold binary_round.
  destruct (shl_align m e (fexp (Zpos (digits2_pos m) + e))) as [mz ez] eqn:Hs.
  apply shl_align_spec in Hs as [Hez Hmz].
  assert (ez <= e) by lia.
  apply bra_le_pow2; [|lia|done]. split; [lia|].
  rewrite Hmz. replace (k - ez) with ((k - e) + (e - ez)) by lia.
  rewrite Z.pow_add_r by lia.
  apply Z.mul_lt_mono_pos_r; [apply Z.pow_pos_nonneg; lia|done].
Qed.

Lemma binary_normalize_le_pow2 M E k :
  0 <= M < 2 ^ (k - E) -> E <= k -> -1074 <= k <= 971 ->
  le_pow2 k (binary_normalize prec emax M E false).
Proof.
  intros [HM0 HM] HE Hk. destruct M as [|m|m]; cbn [binary_normalize];
    [done| |lia].
  by apply binary_round_le_pow2.
Qed.

Lemma le_pow2_weaken k k' x : le_pow2 k x -> k <= k' -> le_pow2 k' x.
Proof.
  destruct x as [[]|[]| |[] m e]; cbn [le_pow2]; try done.
  intros [He Hm] Hk. split; [lia|].
  etrans; [exact Hm|]. apply Z.pow_le_mono_r; lia.
Qed.

Lemma lt_pow2_le k x : lt_pow2 k x -> le_pow2 k x.
Proof.
  destruct x as [[]|[]| |[] m e]; cbn [le_pow2 lt_pow2]; try done. lia.
Qed.

Lemma le_pow2_lt k x : le_pow2 k x -> lt_pow2 (k + 1) x.
Proof.
  destruct x as [[]|[]| |[] m e]; cbn [le_pow2 lt_pow2]; try done.
  intros [He Hm]. split; [lia|].
  replace (k + 1 - e) with ((k - e) + 1) by lia.
  rewrite Z.pow_add_r by lia. change (2 ^ 1) with 2.
  pose proof (Z.pow_pos_nonneg 2 (k - e)). plia.
Qed.

(** Product of a value in [[0, 2^k1]] and one in [[0, 2^k2)]. *)
Lemma SFmul_le_lt k1 k2 x y :
  le_pow2 k1 x -> lt_pow2 k2 y -> -1074 <= k1 + k2 <= 971 ->
  le_pow2 (k1 + k2) (SF64mul x y).
Proof.
  destruct x as [[]|[]| |[] mx ex]; cbn [le_pow2]; try done;
    destruct y as [[]|[]| |[] my ey]; cbn [lt_pow2]; try done.
  intros [Hex Hmx] [Hey Hmy] Hk. unfold SF64mul, SFmul. cbn [xorb].
  apply bra_le_pow2; [|lia|done]. split; [lia|].
  rewrite Pos2Z.inj_mul.
  replace (k1 + k2 - (ex + ey)) with ((k1 - ex) + (k2 - ey)) by lia.
  rewrite Z.pow_add_r by lia.
  pose proof (Z.pow_pos_nonneg 2 (k1 - ex)). 
  apply Z.le_lt_trans with (2 ^ (k1 - ex) * Zpos my).
  - apply Z.mul_le_mono_nonneg_r; lia.
  - apply Z.mul_lt_mono_pos_l; lia.
Qed.

Lemma SFmul_lt_le k1 k2 x y :
  lt_pow2 k1 x -> le_pow2 k2 y -> -1074 <= k1 + k2 <= 971 ->
  le_pow2 (k1 + k2) (SF64mul x y).
Proof.
  destruct x as [[]|[]| |[] mx ex]; cbn [lt_pow2]; try done;
    destruct y as [[]|[]| |[] my ey]; cbn [le_pow2]; try done.
  intros [Hex Hmx] [Hey Hmy] Hk. unfold SF64mul, SFmul. cbn [xorb].
  apply bra_le_pow2; [|lia|done]. split; [lia|].
  rewrite Pos2Z.inj_mul.
  replace (k1 + k2 - (ex + ey)) with ((k1 - ex) + (k2 - ey)) by lia.
  rewrite Z.pow_add_r by lia.
  pose proof (Z.pow_pos_nonneg 2 (k2 - ey)).
  apply Z.lt_le_trans with (2 ^ (k1 - ex) * Zpos my).
  - apply Z.mul_lt_mono_pos_r; lia.
  - apply Z.mul_le_mono_nonneg_l; [|lia]. apply Z.pow_nonneg. lia.
Qed.

Lemma lt_pow2_weaken k k' x : lt_pow2 k x -> k <= k' -> lt_pow2 k' x.
Proof.
  destruct x as [[]|[]| |[] m e]; cbn [lt_pow2]; try done.
  intros [He Hm] Hk. split; [lia|].
  eapply Z.lt_le_trans; [exact Hm|]. apply Z.pow_le_mono_r; lia.
Qed.

(** Sum of a value in [[0, 2^k)] and one in [[0, 2^k]]. *)
Lemma SFadd_lt_le k x y :
  lt_pow2 k x -> le_pow2 k y -> -1074 <= k + 1 <= 971 ->
  le_pow2 (k + 1) (SF64add x y).
Proof.
  intros Hx Hy Hk.
  destruct x as [[]|[]| |[] mx ex]; cbn [lt_pow2] in Hx; try done;
    destruct y as [[]|[]| |[] my ey]; cbn [le_pow2] in Hy; try done;
    try (apply (le_pow2_weaken k); [done|lia]);
    try (apply (le_pow2_weaken k); [by apply lt_pow2_le|lia]).
  destruct Hx as [Hex Hmx], Hy as [Hey Hmy].
  unfold SF64add, SFadd. cbn [cond_Zopp].
  destruct (shl_align mx ex (Z.min ex ey)) as [m1 e1] eqn:H1.
  destruct (shl_align my ey (Z.min ex ey)) as [m2 e2] eqn:H2.
  apply shl_align_spec in H1 as [He1 Hm1], H2 as [He2 Hm2]. cbn [fst].
  apply binary_normalize_le_pow2; [|lia|done]. split; [lia|].
  rewrite Hm1, Hm2.
  replace (k + 1 - Z.min ex ey) with (1 + (k - Z.min ex ey)) by lia.
  rewrite Z.pow_add_r by lia. change (2 ^ 1) with 2.
  assert (Zpos mx * 2 ^ (ex - e1) < 2 ^ (k - Z.min ex ey)).
  { replace (k - Z.min ex ey) with ((k - ex) + (ex - e1)) by lia.
    rewrite Z.pow_add_r by lia.
    apply Z.mul_lt_mono_pos_r; [apply Z.pow_pos_nonneg; lia|done]. }
  assert (Zpos my * 2 ^ (ey - e2) <= 2 ^ (k - Z.min ex ey)).
  { replace (k - Z.min ex ey) with ((k - ey) + (ey - e2)) by lia.
    rewrite Z.pow_add_r by lia.
    apply Z.mul_le_mono_nonneg_r; [apply Z.pow_nonneg; lia|done]. }
  lia.
Qed.

Definition one_sf : spec_float := S754_finite false 4503599627370496 (-52).

(** [1 - y] for [y] in [[0, 1]]. *)
Lemma SFsub_one_le_pow2 y :
  le_pow2 0 y -> le_pow2 0 (SF64sub one_sf y).
Proof.
  intros Hy.
  destruct y as [[]|[]| |[] my ey]; cbn [le_pow2] in Hy; try done.
  destruct Hy as [Hey Hmy].
  unfold SF64sub, SFsub, one_sf. cbn [cond_Zopp].
  destruct (shl_align 4503599627370496 (-52) (Z.min (-52) ey))
    as [m1 e1] eqn:H1.
  destruct (shl_align my ey (Z.min (-52) ey)) as [m2 e2] eqn:H2.
  apply shl_align_spec in H1 as [He1 Hm1], H2 as [He2 Hm2]. cbn [fst].
  assert (Hone : Zpos m1 = 2 ^ (0 - Z.min (-52) ey)).
  { rewrite Hm1. change (Zpos 4503599627370496) with (2 ^ 52).
    rewrite <- Z.pow_add_r by lia. f_equal. lia. }
  assert (Hy : Zpos m2 <= 2 ^ (0 - Z.min (-52) ey)).
  { rewrite Hm2.
    replace (0 - Z.min (-52) ey) with ((0 - ey) + (ey - e2)) by lia.
    rewrite Z.pow_add_r by lia.
    apply Z.mul_le_mono_nonneg_r; [apply Z.pow_nonneg; lia|done]. }
  apply binary_normalize_le_pow2; [|lia|lia]. lia.
Qed.

(** [x / y] when [x <= y], both positive. *)
Lemma SFdiv_le_pow2 mx ex my ey :
  ex <= ey -> Zpos mx <= Zpos my * 2 ^ (ey - ex) ->
  le_pow2 1 (SF64div (S754_finite false mx ex) (S754_finite false my ey)).
Proof.
  intros He Hm. unfold SF64div, SFdiv, SFdiv_core_binary. cbn [xorb].
  set (e' := Z.min _ (ex - ey)).
  assert (He' : e' <= ex - ey) by apply Z.le_min_r.
  set (m' := match ex - ey - e' with
             | 0 => Zpos mx
             | Zpos _ => Z.shiftl (Zpos mx) (ex - ey - e')
             | Zneg _ => 0
             end).
  assert (Hm' : m' = Zpos mx * 2 ^ (ex - ey - e')).
  { subst m'. destruct (ex - ey - e') as [|s|s] eqn:Hs.
    - simpl. lia.
    - by rewrite Z.shiftl_mul_pow2.
    - lia. }
  pose proof (Z.div_eucl_eq m' (Zpos my)) as Hdiv.
  pose proof (Z.mod_pos_bound m' (Zpos my)) as Hmod. unfold Z.modulo in Hmod.
  destruct (Z.div_eucl m' (Zpos my)) as [q r].
  assert (Hq : 0 <= q < 2 ^ (1 - e')).
  { assert (Hmy : 0 < Zpos my) by lia. specialize (Hdiv ltac:(lia)).
    specialize (Hmod Hmy).
    assert (Hup : m' < Zpos my * 2 ^ (1 - e')).
    { rewrite Hm'.
      apply Z.le_lt_trans with (Zpos my * 2 ^ (ey - ex) * 2 ^ (ex - ey - e')).
      - apply Z.mul_le_mono_nonneg_r; [apply Z.pow_nonneg; lia|done].
      - rewrite <- Z.mul_assoc, <- Z.pow_add_r by lia.
        apply Z.mul_lt_mono_pos_l; [done|].
        apply Z.pow_lt_mono_r; lia. }
    assert (0 <= m') by (rewrite Hm'; apply Z.mul_nonneg_nonneg;
                         [lia|apply Z.pow_nonneg; lia]).
    pose proof (Z.pow_pos_nonneg 2 (1 - e')).
    split; nia. }
  apply bra_le_pow2; [done|lia|lia].
Qed.

Lemma digits2_pos_unique m d :
  2 ^ (d - 1) <= Zpos m < 2 ^ d -> Zpos (digits2_pos m) = d.
Proof.
  intros [Hlo Hhi]. pose proof (digits2_pos_bounds m) as [Hlo' Hhi'].
  assert (0 < d).
  { destruct (Z.lt_trichotomy d 0) as [Hd|[->|Hd]]; [|simpl in Hhi; lia|done].
    rewrite Z.pow_neg_r in Hhi by done. lia. }
  assert (H1 : 2 ^ (d - 1) < 2 ^ Zpos (digits2_pos m)) by plia.
  assert (H2 : 2 ^ (Zpos (digits2_pos m) - 1) < 2 ^ d) by plia.
  apply Z.pow_lt_mono_r_iff in H1, H2; lia.
Qed.

Lemma Zdigits2_mono a b : 0 < a <= b -> Zdigits2 a <= Zdigits2 b.
Proof.
  intros [Ha Hab]. destruct a as [|a|a], b as [|b|b]; try lia. simpl.
  pose proof (digits2_pos_bounds a) as [Hlo _].
  pose proof (digits2_pos_bounds b) as [_ Hhi].
  assert (H : 2 ^ (Zpos (digits2_pos a) - 1) < 2 ^ Zpos (digits2_pos b)) by plia.
  apply Z.pow_lt_mono_r_iff in H; lia.
Qed.

(** Rounding a value that is already in canonical form changes nothing. *)
Lemma bra_exact m e :
  fexp (Zpos (digits2_pos m) + e) = e -> e <= 971 ->
  bra false (Zpos m) e loc_Exact = S754_finite false m e.
Proof.
  intros Hcanon He. unfold binary_round_aux, shr_fexp. cbn [Zdigits2].
  rewrite Hcanon, Z.sub_diag.
  cbn [shr shr_record_of_loc shr_m loc_of_shr_record round_nearest_even Zdigits2].
  rewrite Hcanon, Z.sub_diag. cbn [shr shr_record_of_loc shr_m].
  replace (e <=? emax - prec) with true; [done|].
  symmetry. apply Z.leb_le. change (emax - prec) with 971. lia.
Qed.

(** [float(n)] is exact for [0 < n < 2^53]. *)
Lemma binary_normalize_int n :
  0 < n < 2 ^ 53 ->
  ∃ m, binary_normalize prec emax n 0 false
         = S754_finite false m (Zdigits2 n - 53) ∧
       Zpos m = n * 2 ^ (53 - Zdigits2 n).
Proof.
  intros [Hn0 Hn]. destruct n as [|p|p]; try lia.
  cbn [binary_normalize Zdigits2]. unfold binary_round.
  pose proof (digits2_pos_bounds p) as [Hlo Hhi].
  assert (HD : 1 <= Zpos (digits2_pos p) <= 53).
  { split; [lia|]. apply (Zdigits2_lt (Zpos p) 53); lia. }
  destruct (shl_align p 0 (fexp (Zpos (digits2_pos p) + 0))) as [mz ez] eqn:Hs.
  apply shl_align_spec in Hs as [Hez Hmz]. rewrite fexp_eq in Hez.
  assert (Hez' : ez = Zpos (digits2_pos p) - 53) by lia. clear Hez. subst ez.
  replace (0 - (Zpos (digits2_pos p) - 53)) with (53 - Zpos (digits2_pos p))
    in Hmz by lia.
  exists mz. split; [|done]. apply bra_exact; [|lia].
  rewrite (digits2_pos_unique mz 53); [rewrite fexp_eq; lia|].
  rewrite Hmz. split.
  - replace (53 - 1) with ((Zpos (digits2_pos p) - 1) + (53 - Zpos (digits2_pos p)))
      by lia.
    rewrite Z.pow_add_r by lia.
    apply Z.mul_le_mono_nonneg_r; [apply Z.pow_nonneg; lia|done].
  - replace 53 with (Zpos (digits2_pos p) + (53 - Zpos (digits2_pos p))) at 2
      by lia.
    rewrite Z.pow_add_r by lia.
    apply Z.mul_lt_mono_pos_r; [apply Z.pow_pos_nonneg; lia|done].
Qed.

(** [d / t] for integers [0 <= d <= t < 2^53] is at most [2]. *)
Lemma div_ints_le_pow2 d t :
  0 <= d <= t -> 0 < t < 2 ^ 53 ->
  le_pow2 1 (SF64div (binary_normalize prec emax d 0 false)
                     (binary_normalize prec emax t 0 false)).
Proof.
  intros [Hd0 Hdt] Ht.
  destruct (binary_normalize_int t Ht) as (mt & -> & Hmt).
  destruct (Z.eq_dec d 0) as [->|Hd].
  { done. }
  destruct (binary_normalize_int d ltac:(lia)) as (md & -> & Hmd).
  pose proof (Zdigits2_mono d t ltac:(lia)) as Hmono.
  assert (1 <= Zdigits2 d) by (destruct d; simpl; lia).
  assert (Zdigits2 t <= 53) by (apply Zdigits2_lt; lia).
  apply SFdiv_le_pow2; [lia|]. rewrite Hmd, Hmt.
  rewrite <- Z.mul_assoc, <- Z.pow_add_r by lia.
  replace (53 - Zdigits2 t + (Zdigits2 t - 53 - (Zdigits2 d - 53)))
    with (53 - Zdigits2 d) by lia.
  apply Z.mul_le_mono_nonneg_r; [apply Z.pow_nonneg; lia|done].
Qed.

(** *** Bounds on the primitive operations *)

Definition within (k : Z) (x : float) : Prop := le_pow2 k (Prim2SF x).
Definition below (k : Z) (x : float) : Prop := lt_pow2 k (Prim2SF x).

Lemma float_of_int_spec n :
  0 <= n < 2 ^ 63 ->
  Prim2SF (float_of_int n) = binary_normalize prec emax n 0 false.
Proof.
  intros Hn. unfold float_of_int.
  rewrite of_uint63_spec, Uint63.of_Z_spec, Z.mod_small; [done|].
  exact Hn.
Qed.

Lemma float_of_int_within n k :
  0 <= n < 2 ^ k -> 0 <= k <= 63 -> within k (float_of_int n).
Proof.
  intros Hn Hk. unfold within. rewrite float_of_int_spec.
  - apply binary_normalize_le_pow2; [|lia|lia]. by rewrite Z.sub_0_r.
  - split; [lia|]. eapply Z.lt_le_trans; [apply Hn|].
    apply Z.pow_le_mono_r; lia.
Qed.

Lemma within_weaken k k' x : within k x -> k <= k' -> within k' x.
Proof. apply le_pow2_weaken. Qed.

Lemma below_weaken k k' x : below k x -> k <= k' -> below k' x.
Proof. apply lt_pow2_weaken. Qed.

Lemma within_below k x : within k x -> below (k + 1) x.
Proof. apply le_pow2_lt. Qed.

Lemma below_within k x : below k x -> within k x.
Proof. apply lt_pow2_le. Qed.

Lemma mul_within_below k1 k2 x y :
  within k1 x -> below k2 y -> -1074 <= k1 + k2 <= 971 ->
  within (k1 + k2) (x * y)%float.
Proof. unfold within, below. rewrite mul_spec. apply SFmul_le_lt. Qed.

Lemma mul_below_within k1 k2 x y :
  below k1 x -> within k2 y -> -1074 <= k1 + k2 <= 971 ->
  within (k1 + k2) (x * y)%float.
Proof. unfold within, below. rewrite mul_spec. apply SFmul_lt_le. Qed.

Lemma add_below_within k x y :
  below k x -> within k y -> -1074 <= k + 1 <= 971 ->
  within (k + 1) (x + y)%float.
Proof. unfold within, below. rewrite add_spec. apply SFadd_lt_le. Qed.

Lemma one_sub_within y : within 0 y -> within 0 (1 - y)%float.
Proof.
  unfold within. rewrite sub_spec.
  change (Prim2SF 1) with one_sf. apply SFsub_one_le_pow2.
Qed.

Lemma true_div_within d t :
  0 <= d <= t -> 0 < t < 2 ^ 53 -> within 1 (true_div d t).
Proof.
  intros Hd Ht. unfold within, true_div.
  assert (2 ^ 53 < 2 ^ 63) by (by apply Z.pow_lt_mono_r).
  rewrite div_spec, !float_of_int_spec by lia.
  by apply div_ints_le_pow2.
Qed.

(** [int(x)] succeeds on a bounded value. *)
Lemma int_of_float_within k x :
  0 <= k -> within k x -> ∃ n, int_of_float x = Ok n ∧ 0 <= n <= 2 ^ k.
Proof.
  unfold within, int_of_float. intros Hk Hx.
  destruct (Prim2SF x) as [s|s| |s m e]; cbn [le_pow2] in Hx; try done.
  - exists 0. split; [done|]. pose proof (Z.pow_pos_nonneg 2 k). lia.
  - destruct s; [done|].
    destruct Hx as [He Hm]. eexists. split; [done|]. cbn [cond_Zopp].
    destruct e as [|e|e].
    + rewrite Z.sub_0_r in Hm. simpl. lia.
    + split; [lia|].
      replace k with ((k - Zpos e) + Zpos e) at 1 by lia.
      rewrite Z.pow_add_r by lia.
      apply Z.mul_le_mono_nonneg_r; [apply Z.pow_nonneg; lia|done].
    + split; [apply Z.div_pos; [lia|apply Z.pow_pos_nonneg; lia]|].
      apply Z.div_le_upper_bound; [apply Z.pow_pos_nonneg; lia|].
      rewrite <- Z.pow_add_r by lia.
      replace (Zpos e + k) with (k - Zneg e) by lia. done.
Qed.

(** Bounds of float literals, by evaluation. *)
Ltac float_const :=
  unfold within, below;
  match goal with
  | |- ?P ?k (Prim2SF ?c) =>
      let v := eval vm_compute in (Prim2SF c) in
      change (P k v); cbn [le_pow2 lt_pow2];
      split; [lia | first [by apply Z.ltb_lt | by apply Z.leb_le]]
  end.

Example below_three_tenths : below (-1) 0.3.
Proof. float_const. Qed.

(** *** Sign and cap *)

(** Not a NaN and not negative. *)
Definition nonneg (x : spec_float) : Prop :=
  match x with
  | S754_zero _ | S754_infinity false | S754_finite false _ _ => True
  | _ => False
  end.

Lemma leb_zero_nonneg x : (0 <=? x)%float = true -> nonneg (Prim2SF x).
Proof.
  rewrite leb_spec. change (Prim2SF 0) with (S754_zero false).
  by destruct (Prim2SF x) as [[]|[]| |[] m e].
Qed.

Lemma nonneg_leb_zero x : nonneg (Prim2SF x) -> (0 <=? x)%float = true.
Proof.
  rewrite leb_spec. change (Prim2SF 0) with (S754_zero false).
  by destruct (Prim2SF x) as [[]|[]| |[] m e].
Qed.

Lemma shr_fexp_nonneg m e l mrs' e' :
  0 <= m -> shr_fexp prec emax m e l = (mrs', e') -> 0 <= shr_m mrs'.
Proof.
  intros Hm. unfold shr_fexp. intros Hshr.
  apply shr_spec in Hshr; [|by rewrite shr_m_record_of_loc].
  rewrite shr_m_record_of_loc in Hshr.
  destruct Hshr as [(_ & -> & _)|(Hn & -> & _)].
  - by rewrite shr_m_record_of_loc.
  - apply Z.div_pos; [done|]. apply Z.pow_pos_nonneg; lia.
Qed.

Lemma bra_nonneg M E l : 0 <= M -> nonneg (bra false M E l).
Proof.
  intros HM. unfold binary_round_aux.
  destruct (shr_fexp prec emax M E l) as [mrs1 e1] eqn:H1.
  apply shr_fexp_nonneg in H1; [|done].
  pose proof (round_nearest_even_bounds (shr_m mrs1) (loc_of_shr_record mrs1))
    as Hr.
  destruct (shr_fexp prec emax
              (round_nearest_even (shr_m mrs1) (loc_of_shr_record mrs1))
              e1 loc_Exact) as [mrs2 e2] eqn:H2.
  apply shr_fexp_nonneg in H2; [|lia].
  destruct (shr_m mrs2) as [|p|p]; [done| |lia].
  by destruct (e2 <=? emax - prec).
Qed.

(** Multiplying by a positive finite constant keeps the sign. *)
Lemma mul_nonneg x c m e :
  Prim2SF c = S754_finite false m e ->
  nonneg (Prim2SF x) -> nonneg (Prim2SF (x * c)%float).
Proof.
  intros Hc Hx. rewrite mul_spec, Hc. unfold SF64mul, SFmul.
  destruct (Prim2SF x) as [[]|[]| |[] mx ex]; try done.
  cbn [xorb]. by apply bra_nonneg.
Qed.

(** Capping a non-negative value at a constant [c < 1] whose exponent is
    below that of [1] lands in [[0, 1]]. *)
Lemma min_float_in_unit x c m e :
  Prim2SF c = S754_finite false m e -> e < -52 ->
  nonneg (Prim2SF x) -> in_unit (min_float x c).
Proof.
  intros Hc He Hx. unfold in_unit, min_float.
  destruct (c <? x)%float eqn:Hlt.
  - rewrite !leb_spec, Hc. change (Prim2SF 0) with (S754_zero false).
    change (Prim2SF 1) with one_sf. unfold one_sf, SFleb, SFcompare.
    split; [done|]. by rewrite (proj2 (Z.compare_lt_iff e (-52))) by lia.
  - split; [by apply nonneg_leb_zero|].
    rewrite ltb_spec, Hc in Hlt. rewrite leb_spec.
    change (Prim2SF 1) with one_sf.
    destruct (Prim2SF x) as [[]|[]| |[] mx ex]; try done.
    unfold one_sf, SFleb, SFltb, SFcompare in *.
    destruct (Z.compare_spec e ex) as [Heq|Hlt'|Hgt]; try done.
    + subst ex. by rewrite (proj2 (Z.compare_lt_iff e (-52))) by lia.
    + by rewrite (proj2 (Z.compare_lt_iff ex (-52))) by lia.
Qed.

(** A valid float that compares within [[0, 1]] is bounded by [2^0]. *)
Lemma SFleb_one_le_pow2 s :
  SpecFloat.valid_binary prec emax s = true ->
  SFleb (S754_zero false) s = true -> SFleb s one_sf = true ->
  le_pow2 0 s.
Proof.
  intros Hv H0 H1.
  destruct s as [s|[]| |[] m e]; try done.
  cbn [le_pow2]. unfold one_sf, SFleb, SFcompare in H1.
  unfold SpecFloat.valid_binary, bounded, canonical_mantissa in Hv.
  apply andb_true_iff in Hv as [Hc _]. apply Z.eqb_eq in Hc.
  rewrite fexp_eq in Hc. clear H0.
  pose proof (digits2_pos_bounds m) as [_ Hhi].
  destruct (Z.compare_spec e (-52)) as [->|Hlt|Hgt]; [| |done].
  - split; [lia|].
    assert (Hp : 2 ^ (0 - -52) = Zpos 4503599627370496) by (by vm_compute).
    rewrite Hp. unfold Z.le. cbn [Z.compare]. unfold Pos.compare.
    by destruct (Pos.compare_cont Eq m 4503599627370496).
  - split; [lia|]. apply Z.lt_le_incl. eapply Z.lt_le_trans; [exact Hhi|].
    apply Z.pow_le_mono_r; lia.
Qed.

Lemma in_unit_within x : in_unit x -> within 0 x.
Proof.
  intros [H0 H1]. unfold within. rewrite leb_spec in H0, H1.
  apply SFleb_one_le_pow2; [apply Prim2SF_valid|exact H0|exact H1].
Qed.

End PyFloat.

(** ** threat_intelligence/mitre_stix_client.py *)
Module Stix.
Import Py.

(** One entry of a technique's [kill_chain_phases]. *)
Record KillChainPhase := {
  kill_chain_name : option string;
  phase_name : option string
}.

(** One entry of an object's [external_references]. *)
Record ExternalReference := {
  source_name : option string;
  ref_external_id : option string
}.

(** An object of the STIX bundle, restricted to the keys the sources read.
    The values of the keys are strings (lists for [aliases],
    [external_references] and [kill_chain_phases]); [o_external_id] is the
    key ["external_id"] that the queries add to their results, whose
    value is a string or Python's [None]: [Some None] is the key with the
    value [None], which is not the absent key. *)
Record StixObject := {
  o_type : option string;
  o_id : option string;
  o_name : option string;
  o_aliases : option (list string);
  o_description : option string;
  o_external_references : option (list ExternalReference);
  o_kill_chain_phases : option (list KillChainPhase);
  o_relationship_type : option string;
  o_source_ref : option string;
  o_target_ref : option string;
  o_external_id : option (option string)
}.

(** Truth value of the dictionary: it has at least one key. *)
Definition truthy (o : StixObject) : bool :=
  bool_decide (is_Some (o_type o)) || bool_decide (is_Some (o_id o)) ||
  bool_decide (is_Some (o_name o)) || bool_decide (is_Some (o_aliases o)) ||
  bool_decide (is_Some (o_description o)) ||
  bool_decide (is_Some (o_external_references o)) ||
  bool_decide (is_Some (o_kill_chain_phases o)) ||
  bool_decide (is_Some (o_relationship_type o)) ||
  bool_decide (is_Some (o_source_ref o)) ||
  bool_decide (is_Some (o_target_ref o)) ||
  bool_decide (is_Some (o_external_id o)).

(** [obj['external_id'] = v]. *)
Definition set_external_id (v : option string) (o : StixObject) : StixObject :=
  {| o_type := o_type o; o_id := o_id o; o_name := o_name o;
     o_aliases := o_aliases o; o_description := o_description o;
     o_external_references := o_external_references o;
     o_kill_chain_phases := o_kill_chain_phases o;
     o_relationship_type := o_relationship_type o;
     o_source_ref := o_source_ref o; o_target_ref := o_target_ref o;
     o_external_id := Some v |}.

(** The indexes of [MITREStixClient]. *)
Record MITREStixClient := {
  _objects_by_type : gmap (option string) (list StixObject);
  _objects_by_id : gmap string StixObject;
  _relationships : list StixObject
}.

Definition empty_client : MITREStixClient :=
  {| _objects_by_type := ∅; _objects_by_id := ∅; _relationships := [] |}.

(** One iteration of the indexing loop of [_parse_stix_data]. *)
Definition index_object (c : MITREStixClient) (obj : StixObject) : MITREStixClient :=
  let obj_type := o_type obj in
  let obj_id := o_id obj in
  {| _objects_by_type :=
       <[obj_type := get_or (_objects_by_type c !! obj_type) [] ++ [obj]]>
         (_objects_by_type c);
     _objects_by_id :=
       match obj_id with
       | Some i => if bool_decide (i = "") then _objects_by_id c
                   else <[i := obj]> (_objects_by_id c)
       | None => _objects_by_id c
       end;
     _relationships :=
       if bool_decide (obj_type = Some "relationship")
       then _relationships c ++ [obj]
       else _relationships c |}.

(** [_parse_stix_data] on the bundle's [objects] list: the indexes are
    cleared and rebuilt. *)
Definition parse_stix_data (objects : list StixObject) : MITREStixClient :=
  foldl index_object empty_client objects.

(** The loop over [external_references] that stores
    [ref.get('external_id')] of the first ["mitre-attack"] reference in the
    result: the id, or [None] when that reference has none. *)
Fixpoint attach_external_id (refs : list ExternalReference) (o : StixObject)
    : StixObject :=
  match refs with
  | [] => o
  | ref :: rest =>
      if bool_decide (source_name ref = Some "mitre-attack")
      then set_external_id (ref_external_id ref) o
      else attach_external_id rest o
  end.

Definition with_external_id (target : StixObject) : StixObject :=
  attach_external_id (get_or (o_external_references target) []) target.

(** [self._objects_by_id.get(target_ref)]. *)
Definition lookup_ref (c : MITREStixClient) (target_ref : option string)
    : option StixObject :=
  match target_ref with
  | Some i => _objects_by_id c !! i
  | None => None
  end.

(** The body of the loop of [get_techniques_for_group] for one
    relationship. *)
Definition techniques_step (c : MITREStixClient) (group_id : string)
    (techniques : list StixObject) (rel : StixObject) : list StixObject :=
  if bool_decide (o_source_ref rel = Some group_id) &&
     bool_decide (o_relationship_type rel = Some "uses")
  then
    match lookup_ref c (o_target_ref rel) with
    | Some target =>
        if truthy target && bool_decide (o_type target = Some "attack-pattern")
        then techniques ++ [with_external_id target]
        else techniques
    | None => techniques
    end
  else techniques.

Definition get_techniques_for_group (c : MITREStixClient) (group_id : string)
    : list StixObject :=
  foldl (techniques_step c group_id) [] (_relationships c).

(** The body of the loop of [get_software_for_group]. *)
Definition software_step (c : MITREStixClient) (group_id : string)
    (software : list StixObject) (rel : StixObject) : list StixObject :=
  if bool_decide (o_source_ref rel = Some group_id) &&
     bool_decide (o_relationship_type rel = Some "uses")
  then
    match lookup_ref c (o_target_ref rel) with
    | Some target =>
        if truthy target &&
           opt_in (o_type target) ["malware"; "tool"]
        then software ++ [with_external_id target]
        else software
    | None => software
    end
  else software.

Definition get_software_for_group (c : MITREStixClient) (group_id : string)
    : list StixObject :=
  foldl (software_step c group_id) [] (_relationships c).

(** The loop of [get_group_by_name] over the intrusion sets. *)
Fixpoint find_group (name : string) (intrusion_sets : list StixObject)
    : option StixObject :=
  match intrusion_sets with
  | [] => None
  | group :: rest =>
      if bool_decide (lower (get_or (o_name group) "") = lower name)
      then Some group
      else if existsb (fun alias => bool_decide (lower alias = lower name))
                      (get_or (o_aliases group) [])
      then Some group
      else find_group name rest
  end.

Definition get_group_by_name (c : MITREStixClient) (name : string)
    : option StixObject :=
  find_group name (get_or (_objects_by_type c !! Some "intrusion-set") []).

(** The inner loop of [get_technique_by_id] over one pattern's references.
    The requested id is the value the caller passes, a string or [None];
    [ref.get('external_id') == technique_id] holds for [None] when the
    reference has no id. *)
Definition has_attack_id (technique_id : option string) (pattern : StixObject)
    : bool :=
  existsb (fun ref =>
             bool_decide (source_name ref = Some "mitre-attack") &&
             bool_decide (ref_external_id ref = technique_id))
          (get_or (o_external_references pattern) []).

Fixpoint find_technique (technique_id : option string)
    (patterns : list StixObject) : option StixObject :=
  match patterns with
  | [] => None
  | pattern :: rest =>
      if has_attack_id technique_id pattern
      then Some (set_external_id technique_id pattern)
      else find_technique technique_id rest
  end.

Definition get_technique_by_id (c : MITREStixClient)
    (technique_id : option string) : option StixObject :=
  find_technique technique_id
    (get_or (_objects_by_type c !! Some "attack-pattern") []).

(** *** Soundness of the traversal *)

Lemma parse_stix_data_snoc objects obj :
  parse_stix_data (objects ++ [obj]) = index_object (parse_stix_data objects) obj.
Proof. unfold parse_stix_data. by rewrite foldl_app. Qed.

(** [_relationships] holds exactly the relationship objects of the bundle. *)
Lemma relationships_parse objects rel :
  rel ∈ _relationships (parse_stix_data objects) ↔
  rel ∈ objects ∧ o_type rel = Some "relationship".
Proof.
  induction objects as [|obj objects IH] using rev_ind.
  - split; [intros H|intros [H _]]; by apply elem_of_nil in H.
  - rewrite parse_stix_data_snoc, elem_of_app, list_elem_of_singleton. simpl.
    case_bool_decide as Hty.
    + rewrite elem_of_app, list_elem_of_singleton, IH.
      split; [intros [[? ?]| ->]|intros [[?| ->] ?]]; auto.
    + rewrite IH. split; [intros [? ?]|intros [[?| ->] ?]]; auto. done.
Qed.

(** An id that is indexed resolves to an object of the bundle carrying it. *)
Lemma objects_by_id_parse objects i o :
  _objects_by_id (parse_stix_data objects) !! i = Some o →
  o ∈ objects ∧ o_id o = Some i.
Proof.
  induction objects as [|obj objects IH] using rev_ind.
  - intros H. simpl in H. by rewrite lookup_empty in H.
  - rewrite parse_stix_data_snoc, elem_of_app, list_elem_of_singleton. simpl.
    destruct (o_id obj) as [j|] eqn:Hid; [case_bool_decide as Hempty|].
    + intros H. apply IH in H as [? ?]. auto.
    + destruct (decide (j = i)) as [->|Hne].
      * rewrite lookup_insert_eq. intros [= <-]. auto.
      * rewrite lookup_insert_ne by done. intros H. apply IH in H as [? ?]. auto.
    + intros H. apply IH in H as [? ?]. auto.
Qed.

(** An id that no object of the bundle carries is not indexed. *)
Lemma objects_by_id_missing objects i :
  (∀ o, o ∈ objects → o_id o ≠ Some i) →
  _objects_by_id (parse_stix_data objects) !! i = None.
Proof.
  intros Hno.
  destruct (_objects_by_id (parse_stix_data objects) !! i) as [o|] eqn:H; [|done].
  apply objects_by_id_parse in H as [Hin Hid]. by apply Hno in Hin.
Qed.

(** What the loop of [get_techniques_for_group] appends. *)
Lemma techniques_loop_spec c group_id rels acc t :
  t ∈ foldl (techniques_step c group_id) acc rels →
  t ∈ acc ∨
  ∃ rel target, rel ∈ rels ∧
    o_source_ref rel = Some group_id ∧ o_relationship_type rel = Some "uses" ∧
    lookup_ref c (o_target_ref rel) = Some target ∧
    o_type target = Some "attack-pattern" ∧ t = with_external_id target.
Proof.
  revert acc. induction rels as [|rel rels IH]; intros acc; simpl; [by left|].
  intros H. apply IH in H as [H|(rel' & target & Hin & H)].
  - unfold techniques_step in H.
    destruct (bool_decide (o_source_ref rel = Some group_id)) eqn:Hsrc;
      [|by left].
    destruct (bool_decide (o_relationship_type rel = Some "uses")) eqn:Huses;
      [|by left].
    simpl in H.
    destruct (lookup_ref c (o_target_ref rel)) as [target|] eqn:Hlook; [|by left].
    destruct (truthy target); [|by left].
    destruct (bool_decide (o_type target = Some "attack-pattern")) eqn:Hty;
      [|by left].
    simpl in H. apply elem_of_app in H as [H|H]; [by left|].
    apply list_elem_of_singleton in H as ->. right. exists rel, target.
    apply bool_decide_eq_true in Hsrc, Huses, Hty.
    split; [left|done].
  - right. exists rel', target. split; [by right|done].
Qed.

(** C5. Every technique returned by [get_techniques_for_group] is the
    target of a relationship object of the bundle whose source is the group
    and whose type is "uses", and that target is an attack-pattern object
    of the bundle (returned with its ATT&CK id attached); a "uses" edge
    whose target id no object of the bundle carries adds nothing to the
    result, and the loop goes on without an error. *)
Theorem get_techniques_for_group_sound
    (objects : list StixObject) (group_id : string) :
  (∀ t, t ∈ get_techniques_for_group (parse_stix_data objects) group_id →
     ∃ rel target tid,
       rel ∈ objects ∧ o_type rel = Some "relationship" ∧
       o_source_ref rel = Some group_id ∧
       o_relationship_type rel = Some "uses" ∧
       o_target_ref rel = Some tid ∧
       target ∈ objects ∧ o_id target = Some tid ∧
       o_type target = Some "attack-pattern" ∧
       t = with_external_id target) ∧
  (∀ rel techniques,
     (∀ tid, o_target_ref rel = Some tid →
             ∀ o, o ∈ objects → o_id o ≠ Some tid) →
     techniques_step (parse_stix_data objects) group_id techniques rel
       = techniques).
Proof.
  split.
  - intros t Ht. unfold get_techniques_for_group in Ht.
    apply techniques_loop_spec in Ht
      as [Ht|(rel & target & Hin & Hsrc & Huses & Hlook & Hty & ->)];
      [by apply elem_of_nil in Ht|].
    apply relationships_parse in Hin as [Hin Hrel].
    unfold lookup_ref in Hlook.
    destruct (o_target_ref rel) as [tid|] eqn:Href; [|done].
    apply objects_by_id_parse in Hlook as [Htin Htid].
    exists rel, target, tid. done.
  - intros rel techniques Hdangling. unfold techniques_step.
    destruct (bool_decide _ && bool_decide _); [|done].
    unfold lookup_ref. destruct (o_target_ref rel) as [tid|]; [|done].
    by rewrite objects_by_id_missing by eauto.
Qed.

(** *** The sample bundle of the test-suite, with one dangling edge *)

Definition stix_object (type id name : string) (attack_id : string)
    (phase : option string) : StixObject :=
  {| o_type := Some type; o_id := Some id; o_name := Some name;
     o_aliases := None; o_description := None;
     o_external_references :=
       Some [ {| source_name := Some "mitre-attack";
                 ref_external_id := Some attack_id |} ];
     o_kill_chain_phases :=
       match phase with
       | Some ph => Some [ {| kill_chain_name := Some "mitre-attack";
                              phase_name := Some ph |} ]
       | None => None
       end;
     o_relationship_type := None; o_source_ref := None; o_target_ref := None;
     o_external_id := None |}.

Definition uses (id source target : string) : StixObject :=
  {| o_type := Some "relationship"; o_id := Some id; o_name := None;
     o_aliases := None; o_description := None;
     o_external_references := None; o_kill_chain_phases := None;
     o_relationship_type := Some "uses"; o_source_ref := Some source;
     o_target_ref := Some target; o_external_id := None |}.

Definition SAMPLE_STIX_DATA : list StixObject :=
  [ stix_object "intrusion-set" "intrusion-set--899ce53f" "APT29" "G0016" None;
    stix_object "attack-pattern" "attack-pattern--2b742742"
      "Spearphishing Link" "T1566.002" (Some "initial-access");
    stix_object "malware" "malware--b42378e0" "Cobalt Strike" "S0154" None;
    uses "relationship--12345" "intrusion-set--899ce53f"
      "attack-pattern--2b742742";
    uses "relationship--67890" "intrusion-set--899ce53f" "malware--b42378e0";
    uses "relationship--00000" "intrusion-set--899ce53f"
      "attack-pattern--missing" ].

(** test_get_techniques_for_group: one technique, with its ATT&CK id; the
    edges to the malware object and to the missing object add nothing. *)
Example test_get_techniques_for_group :
  map (λ t, (o_name t, o_external_id t))
    (get_techniques_for_group (parse_stix_data SAMPLE_STIX_DATA)
       "intrusion-set--899ce53f")
  = [(Some "Spearphishing Link", Some (Some "T1566.002"))].
Proof. by vm_compute. Qed.

End Stix.

(** ** attacker_personas/persona.py *)
Module Persona.
Import Py.
Import PyFloat.
Export Stix.

Inductive SophisticationLevel := LOW | MEDIUM | HIGH | ADVANCED.
Inductive StealthLevel := NOISY | BALANCED | STEALTHY.
Inductive AttackSpeed := SLOW | MODERATE | FAST | AGGRESSIVE.

(** The technique and software dictionaries of a persona are the objects
    returned by the client's queries. *)
Abbreviation Technique := StixObject.

Record AttackerPersona := {
  stix_id : string;
  mitre_id : string;
  name : string;
  aliases : list string;
  description : string;
  tactics : list string;
  techniques : list Technique;
  software : list Technique;
  sophistication_level : SophisticationLevel;
  stealth_preference : StealthLevel;
  attack_speed : AttackSpeed;
  target_industries : list string;
  target_regions : list string;
  motivations : list string;
  preferred_tools : list string;
  max_techniques_per_phase : Z;
  technique_success_rate : float;
  detection_sensitivity : float;
  persistence_priority : float;
  data_exfiltration_priority : float
}.

(** [AttackerPersona(stix_id, mitre_id, name)] with the defaults of the
    data class for every other field. *)
Definition new_persona (stix_id mitre_id name : string) : AttackerPersona :=
  {| stix_id := stix_id; mitre_id := mitre_id; name := name;
     aliases := []; description := ""; tactics := []; techniques := [];
     software := [];
     sophistication_level := MEDIUM; stealth_preference := BALANCED;
     attack_speed := MODERATE;
     target_industries := []; target_regions := []; motivations := [];
     preferred_tools := [];
     max_techniques_per_phase := 3;
     technique_success_rate := 0.7;
     detection_sensitivity := 0.5;
     persistence_priority := 0.8;
     data_exfiltration_priority := 0.6 |}.

(** The test of the inner loop of [select_technique_for_tactic]. *)
Definition phase_matches (tactic : string) (ph : KillChainPhase) : bool :=
  bool_decide (kill_chain_name ph = Some "mitre-attack") &&
  bool_decide (phase_name ph = Some tactic).

(** [tech.get('external_id') not in exclude]: the value is [None] when
    the key is absent, and the list may hold [None]. *)
Definition excluded (exclude : list (option string)) (tech : Technique) : bool :=
  bool_decide (get_or (o_external_id tech) None ∈ exclude).

(** The inner loop over one technique's phases: at the first phase of the
    tactic the technique is appended unless excluded, and the loop breaks. *)
Fixpoint scan_phases (tech : Technique) (phases : list KillChainPhase)
    (tactic : string) (exclude : list (option string))
    (matching : list Technique) : list Technique :=
  match phases with
  | [] => matching
  | ph :: rest =>
      if phase_matches tactic ph then
        if negb (excluded exclude tech)
        then matching ++ [tech]
        else matching
      else scan_phases tech rest tactic exclude matching
  end.

(** The outer loop, accumulating [matching]. *)
Fixpoint collect_matching (techs : list Technique) (tactic : string)
    (exclude : list (option string)) (matching : list Technique)
    : list Technique :=
  match techs with
  | [] => matching
  | tech :: rest =>
      collect_matching rest tactic exclude
        (scan_phases tech (get_or (o_kill_chain_phases tech) []) tactic exclude matching)
  end.

Definition select_technique_for_tactic (self : AttackerPersona) (tactic : string)
    (exclude : option (list (option string))) (rng : Rng)
    : option Technique * Rng :=
  let exclude := get_or exclude [] in
  let matching := collect_matching (techniques self) tactic exclude [] in
  match matching with
  | [] => (None, rng)
  | first :: others =>
      match sophistication_level self with
      | ADVANCED => let '(t, rng') := choice first others rng in (Some t, rng')
      | _ => (Some first, rng)
      end
  end.

Definition full_chain_order : list string :=
  [ "reconnaissance"; "initial-access"; "execution"; "persistence";
    "privilege-escalation"; "defense-evasion"; "credential-access";
    "discovery"; "lateral-movement"; "collection"; "command-and-control";
    "exfiltration"; "impact" ].

Definition ransomware_order : list string :=
  [ "initial-access"; "execution"; "privilege-escalation"; "defense-evasion";
    "discovery"; "lateral-movement"; "impact" ].

Definition data_theft_order : list string :=
  [ "initial-access"; "execution"; "persistence"; "credential-access";
    "discovery"; "collection"; "exfiltration" ].

Definition tactic_order (self : AttackerPersona) (scenario : string) : list string :=
  if bool_decide (scenario = "full_chain") then full_chain_order
  else if bool_decide (scenario = "ransomware") then ransomware_order
  else if bool_decide (scenario = "data_theft") then data_theft_order
  else tactics self.

(** One dictionary of the attack chain; the technique id is [None] when
    the technique's [external_id] is. *)
Record ChainEntry := {
  ce_tactic : string;
  ce_technique_id : option string;
  ce_technique_name : string;
  ce_description : string
}.

Definition chain_entry (tactic : string) (technique : Technique) : ChainEntry :=
  {| ce_tactic := tactic;
     ce_technique_id := get_or (o_external_id technique) (Some "");
     ce_technique_name := get_or (o_name technique) "";
     ce_description := slice_to 200 (get_or (o_description technique) "") +:+ "..." |}.

(** The loop of [get_attack_chain] over [tactic_order]. *)
Fixpoint build_chain (self : AttackerPersona) (order : list string)
    (chain : list ChainEntry) (rng : Rng) : list ChainEntry * Rng :=
  match order with
  | [] => (chain, rng)
  | tactic :: rest =>
      if negb (str_in tactic (tactics self)) then build_chain self rest chain rng
      else
        let '(technique, rng') := select_technique_for_tactic self tactic None rng in
        match technique with
        | Some t =>
            if truthy t
            then build_chain self rest (chain ++ [chain_entry tactic t]) rng'
            else build_chain self rest chain rng'
        | None => build_chain self rest chain rng'
        end
  end.

Definition get_attack_chain (self : AttackerPersona) (scenario : string)
    (rng : Rng) : list ChainEntry * Rng :=
  build_chain self (tactic_order self scenario) [] rng.

Definition should_use_stealth_technique (self : AttackerPersona) (rng : Rng)
    : bool * Rng :=
  let '(x, rng') := random rng in
  match stealth_preference self with
  | STEALTHY => ((x <? 0.9)%float, rng')
  | BALANCED => ((x <? 0.5)%float, rng')
  | NOISY => ((x <? 0.1)%float, rng')
  end.

(** [get_dwell_time]: the product with the stealth factor is a float, and
    [int] of it may in principle raise. *)
Definition get_dwell_time (self : AttackerPersona) : result Z :=
  let dwell :=
    match sophistication_level self with
    | LOW => 30 | MEDIUM => 90 | HIGH => 180 | ADVANCED => 365
    end%Z in
  match stealth_preference self with
  | STEALTHY => int_of_float (float_of_int dwell * 1.5)
  | NOISY => int_of_float (float_of_int dwell * 0.5)
  | BALANCED => Ok dwell
  end.

(** The [value] of the enumeration members. *)
Definition sophistication_value (l : SophisticationLevel) : string :=
  match l with
  | LOW => "low" | MEDIUM => "medium" | HIGH => "high" | ADVANCED => "advanced"
  end.

Definition stealth_value (l : StealthLevel) : string :=
  match l with
  | NOISY => "noisy" | BALANCED => "balanced" | STEALTHY => "stealthy"
  end.

Definition attack_speed_value (l : AttackSpeed) : string :=
  match l with
  | SLOW => "slow" | MODERATE => "moderate" | FAST => "fast"
  | AGGRESSIVE => "aggressive"
  end.

(** The dictionary returned by [to_dict]. *)
Record PersonaDict := {
  d_stix_id : string;
  d_mitre_id : string;
  d_name : string;
  d_aliases : list string;
  d_description : string;
  d_tactics : list string;
  d_technique_count : nat;
  d_technique_ids : list (option string);
  d_software_count : nat;
  d_software_names : list string;
  d_sophistication : string;
  d_stealth : string;
  d_attack_speed : string;
  d_target_industries : list string;
  d_target_regions : list string;
  d_motivations : list string;
  d_expected_dwell_time : Z
}.

Definition to_dict (self : AttackerPersona) : result PersonaDict :=
  dwell ← get_dwell_time self;
  mret
    {| d_stix_id := stix_id self; d_mitre_id := mitre_id self;
       d_name := name self; d_aliases := aliases self;
       d_description := slice_to 500 (description self);
       d_tactics := tactics self;
       d_technique_count := length (techniques self);
       d_technique_ids :=
         map (fun t => get_or (o_external_id t) (Some ""))
             (take 10 (techniques self));
       d_software_count := length (software self);
       d_software_names :=
         map (fun s => get_or (o_name s) "") (take 5 (software self));
       d_sophistication := sophistication_value (sophistication_level self);
       d_stealth := stealth_value (stealth_preference self);
       d_attack_speed := attack_speed_value (attack_speed self);
       d_target_industries := target_industries self;
       d_target_regions := target_regions self;
       d_motivations := motivations self;
       d_expected_dwell_time := dwell |}.

(** *** Properties of technique selection *)

(** A technique is classified under a tactic when one of its kill-chain
    phases names the tactic in the ATT&CK kill chain. *)
Definition classified_under (tactic : string) (t : Technique) : Prop :=
  ∃ ph, ph ∈ get_or (o_kill_chain_phases t) [] ∧
        kill_chain_name ph = Some "mitre-attack" ∧ phase_name ph = Some tactic.

(** The external id of a technique ([None] when it has none) is not in
    the exclude list. *)
Definition not_excluded (exclude : list (option string)) (t : Technique)
    : Prop :=
  get_or (o_external_id t) None ∉ exclude.

Definition eligible (self : AttackerPersona) (tactic : string)
    (exclude : list (option string)) (t : Technique) : Prop :=
  t ∈ techniques self ∧ classified_under tactic t ∧ not_excluded exclude t.

Lemma phase_matches_spec tactic ph :
  phase_matches tactic ph = true ↔
  kill_chain_name ph = Some "mitre-attack" ∧ phase_name ph = Some tactic.
Proof.
  unfold phase_matches. rewrite andb_true_iff, !bool_decide_eq_true. done.
Qed.

Lemma excluded_false exclude t :
  excluded exclude t = false ↔ not_excluded exclude t.
Proof. unfold excluded, not_excluded. by rewrite bool_decide_eq_false. Qed.

(** What one run of the inner loop adds to [matching]. *)
Lemma scan_phases_spec tech phases tactic exclude matching :
  (scan_phases tech phases tactic exclude matching = matching ++ [tech] ∧
   (∃ ph, ph ∈ phases ∧ phase_matches tactic ph = true) ∧
   excluded exclude tech = false)
  ∨
  (scan_phases tech phases tactic exclude matching = matching ∧
   ((∀ ph, ph ∈ phases → phase_matches tactic ph = false) ∨
    excluded exclude tech = true)).
Proof.
  induction phases as [|ph rest IH]; simpl.
  - right. split; [done|]. left. intros ph H. by apply elem_of_nil in H.
  - destruct (phase_matches tactic ph) eqn:Hm.
    + destruct (excluded exclude tech) eqn:Hx; simpl.
      * right. split; [done|]. by right.
      * left. split; [done|]. split; [|done]. exists ph. split; [left|done].
    + destruct IH as [(-> & (ph' & Hin & Hph') & Hx) | (-> & Hno)].
      * left. split; [done|]. split; [|done]. exists ph'. split; [by right|done].
      * right. split; [done|]. destruct Hno as [Hno|Hx]; [left|by right].
        intros ph' Hin. apply elem_of_cons in Hin as [->|Hin]; [done|by apply Hno].
Qed.

Lemma scan_phases_eligible tech tactic exclude matching :
  (scan_phases tech (get_or (o_kill_chain_phases tech) []) tactic exclude matching
     = matching ++ [tech] ∧
   classified_under tactic tech ∧ not_excluded exclude tech)
  ∨
  (scan_phases tech (get_or (o_kill_chain_phases tech) []) tactic exclude matching
     = matching ∧
   ¬ (classified_under tactic tech ∧ not_excluded exclude tech)).
Proof.
  destruct (scan_phases_spec tech (get_or (o_kill_chain_phases tech) []) tactic
              exclude matching) as [(-> & (ph & Hin & Hm) & Hx) | (-> & Hno)].
  - left. split; [done|]. split.
    + exists ph. split; [done|]. by apply phase_matches_spec.
    + by apply excluded_false.
  - right. split; [done|]. intros [(ph & Hin & Hm) Hx]. destruct Hno as [Hno|Hin'].
    + apply phase_matches_spec in Hm. rewrite (Hno ph Hin) in Hm. done.
    + apply excluded_false in Hx. congruence.
Qed.

(** [matching] is the sub-list of eligible techniques, in stored order. *)
Lemma collect_matching_spec techs tactic exclude matching t :
  t ∈ collect_matching techs tactic exclude matching ↔
  t ∈ matching ∨ (t ∈ techs ∧ classified_under tactic t ∧ not_excluded exclude t).
Proof.
  revert matching. induction techs as [|tech rest IH]; intros matching; simpl.
  - split; [by left|]. intros [H|[H _]]; [done|]. by apply elem_of_nil in H.
  - rewrite IH.
    destruct (scan_phases_eligible tech tactic exclude matching)
      as [(-> & Hc & Hx) | (-> & Hno)].
    + rewrite elem_of_app, list_elem_of_singleton. split.
      * intros [[H| ->]|(H & Hc' & Hx')]; [by left| |].
        -- right. split; [left|done].
        -- right. split; [by right|done].
      * intros [H|(H & Hc' & Hx')]; [by left; left|].
        apply elem_of_cons in H as [->|H]; [left; by right|].
        right. done.
    + split.
      * intros [H|(H & Hc' & Hx')]; [by left|]. right. split; [by right|done].
      * intros [H|(H & Hc' & Hx')]; [by left|].
        apply elem_of_cons in H as [->|H]; [|by right].
        exfalso. by apply Hno.
Qed.

Lemma choice_elem {A} (x : A) (l : list A) rng :
  (choice x l rng).1 ∈ x :: l.
Proof.
  unfold choice.
  pose proof (randbelow_lt (length (x :: l)) rng ltac:(done)) as Hlt.
  destruct (randbelow (length (x :: l)) rng) as [i r']. cbn [fst] in *.
  revert Hlt. generalize (x :: l). intros xs Hlt.
  by apply list_elem_of_In, nth_In.
Qed.

(** C1. Every technique returned by [select_technique_for_tactic] belongs
    to the persona's technique set, has a kill-chain phase classifying it
    under the requested tactic, and has an external id outside the exclude
    list; when no technique of the persona meets both conditions the call
    returns [None] (and consumes no random draw) instead of failing. *)
Theorem select_technique_for_tactic_sound
    (self : AttackerPersona) (tactic : string)
    (exclude : option (list (option string))) (rng : Rng) :
  (∀ t, (select_technique_for_tactic self tactic exclude rng).1 = Some t →
        t ∈ techniques self ∧ classified_under tactic t ∧
        not_excluded (get_or exclude []) t) ∧
  ((∀ t, t ∈ techniques self →
         ¬ (classified_under tactic t ∧ not_excluded (get_or exclude []) t)) →
   select_technique_for_tactic self tactic exclude rng = (None, rng)).
Proof.
  unfold select_technique_for_tactic.
  pose proof (collect_matching_spec (techniques self) tactic (get_or exclude []) [])
    as Hspec.
  destruct (collect_matching (techniques self) tactic (get_or exclude []) [])
    as [|first others] eqn:Hm.
  - split; [intros t [=]|done].
  - split.
    + intros t Ht.
      assert (Hin : t ∈ first :: others).
      { destruct (sophistication_level self);
          [injection Ht as <-; left ..|].
        pose proof (choice_elem first others rng) as Hc.
        destruct (choice first others rng) as [t' r']. simpl in Ht, Hc.
        by injection Ht as <-. }
      apply Hspec in Hin as [Hin|Hin]; [by apply elem_of_nil in Hin|done].
    + intros Hnone. exfalso.
      assert (Hin : first ∈ first :: others) by left.
      apply Hspec in Hin as [Hin|(Hin & Hc & Hx)]; [by apply elem_of_nil in Hin|].
      by apply (Hnone first).
Qed.

(** A selected technique is a non-empty dictionary, so the [if technique:]
    test of its callers only filters [None]. *)
Lemma classified_truthy tactic t : classified_under tactic t → truthy t = true.
Proof.
  intros (ph & Hin & _). unfold truthy.
  destruct (o_kill_chain_phases t) as [phs|]; simpl in Hin.
  - rewrite (bool_decide_true (is_Some (Some phs))) by eauto.
    by rewrite orb_true_r.
  - by apply elem_of_nil in Hin.
Qed.

(** *** Properties of the attack chain *)

(** What every entry appended by [build_chain] satisfies. *)
Definition entry_ok (self : AttackerPersona) (e : ChainEntry) : Prop :=
  ce_tactic e ∈ tactics self ∧
  ∃ t, t ∈ techniques self ∧ classified_under (ce_tactic e) t ∧
       e = chain_entry (ce_tactic e) t.

Lemma build_chain_entries self order chain rng e :
  e ∈ (build_chain self order chain rng).1 →
  e ∈ chain ∨ (ce_tactic e ∈ order ∧ entry_ok self e).
Proof.
  revert chain rng. induction order as [|tactic rest IH]; intros chain rng; simpl.
  - by left.
  - assert (Hrest : ∀ chain' rng',
      e ∈ (build_chain self rest chain' rng').1 →
      (∀ x, x ∈ chain' → x ∈ chain ∨ (ce_tactic x = tactic ∧ entry_ok self x)) →
      e ∈ chain ∨ (ce_tactic e ∈ tactic :: rest ∧ entry_ok self e)).
    { intros chain' rng' He Hsub. apply IH in He as [He|[He Hok]].
      - apply Hsub in He as [He|[<- Hok]]; [by left|]. right. split; [left|done].
      - right. split; [by right|done]. }
    destruct (str_in tactic (tactics self)) eqn:Hin; simpl.
    + pose proof (select_technique_for_tactic_sound self tactic None rng) as [Hs _].
      destruct (select_technique_for_tactic self tactic None rng) as [[t|] rng'].
      * destruct (Hs t eq_refl) as (Ht & Hc & _).
        rewrite (classified_truthy tactic t Hc).
        intros He. apply (Hrest _ _ He). intros x Hx.
        apply elem_of_app in Hx as [Hx|Hx]; [by left|].
        apply list_elem_of_singleton in Hx as ->. right. split; [done|].
        split; [by apply bool_decide_eq_true in Hin|]. by exists t.
      * intros He. apply (Hrest _ _ He). by left.
    + intros He. apply (Hrest _ _ He). by left.
Qed.

Lemma build_chain_no_techniques self order chain rng :
  techniques self = [] → build_chain self order chain rng = (chain, rng).
Proof.
  intros Hnil. revert chain rng.
  induction order as [|tactic rest IH]; intros chain rng; simpl; [done|].
  destruct (str_in tactic (tactics self)); simpl; [|apply IH].
  unfold select_technique_for_tactic. rewrite Hnil. simpl. apply IH.
Qed.

(** C2. Every entry of [get_attack_chain] names a tactic of the persona's
    tactics list and is built from a technique of the persona's own
    technique set classified under that tactic; a persona without
    techniques gets the empty chain; and the ransomware chain of a persona
    whose tactics lack "impact" has no "impact" entry. *)
Theorem get_attack_chain_sound
    (self : AttackerPersona) (scenario : string) (rng : Rng) :
  (∀ e, e ∈ (get_attack_chain self scenario rng).1 →
        ce_tactic e ∈ tactics self ∧
        ∃ t, t ∈ techniques self ∧ classified_under (ce_tactic e) t ∧
             ce_technique_id e = get_or (o_external_id t) (Some "") ∧
             ce_technique_name e = get_or (o_name t) "" ∧
             ce_description e =
               slice_to 200 (get_or (o_description t) "") +:+ "...") ∧
  (techniques self = [] → (get_attack_chain self scenario rng).1 = []) ∧
  ("impact" ∉ tactics self →
   ∀ e, e ∈ (get_attack_chain self "ransomware" rng).1 → ce_tactic e ≠ "impact").
Proof.
  assert (Hall : ∀ sc e, e ∈ (get_attack_chain self sc rng).1 → entry_ok self e).
  { intros sc e He. apply build_chain_entries in He as [He|[_ He]]; [|done].
    by apply elem_of_nil in He. }
  split; [|split].
  - intros e He. destruct (Hall _ _ He) as (Htac & t & Ht & Hc & ->).
    split; [done|]. exists t. done.
  - intros Hnil. unfold get_attack_chain. by rewrite build_chain_no_techniques.
  - intros Hno e He Heq. destruct (Hall _ _ He) as [Htac _].
    rewrite Heq in Htac. done.
Qed.

(** *** The per-phase technique cap *)

(** Two personas that agree on every field but [max_techniques_per_phase]. *)
Definition same_except_cap (p q : AttackerPersona) : Prop :=
  stix_id p = stix_id q ∧ mitre_id p = mitre_id q ∧ name p = name q ∧
  aliases p = aliases q ∧ description p = description q ∧
  tactics p = tactics q ∧ techniques p = techniques q ∧
  software p = software q ∧
  sophistication_level p = sophistication_level q ∧
  stealth_preference p = stealth_preference q ∧
  attack_speed p = attack_speed q ∧
  target_industries p = target_industries q ∧
  target_regions p = target_regions q ∧ motivations p = motivations q ∧
  preferred_tools p = preferred_tools q ∧
  technique_success_rate p = technique_success_rate q ∧
  detection_sensitivity p = detection_sensitivity q ∧
  persistence_priority p = persistence_priority q ∧
  data_exfiltration_priority p = data_exfiltration_priority q.

Lemma select_technique_for_tactic_ext p q tactic exclude rng :
  techniques p = techniques q →
  sophistication_level p = sophistication_level q →
  select_technique_for_tactic p tactic exclude rng =
  select_technique_for_tactic q tactic exclude rng.
Proof. intros Ht Hs. unfold select_technique_for_tactic. by rewrite Ht, Hs. Qed.

Lemma build_chain_ext p q order chain rng :
  tactics p = tactics q → techniques p = techniques q →
  sophistication_level p = sophistication_level q →
  build_chain p order chain rng = build_chain q order chain rng.
Proof.
  intros Hta Hte Hs. revert chain rng.
  induction order as [|tactic rest IH]; intros chain rng; simpl; [done|].
  rewrite Hta, (select_technique_for_tactic_ext p q) by done.
  destruct (str_in tactic (tactics q)); simpl; [|apply IH].
  destruct (select_technique_for_tactic q tactic None rng) as [[t|] rng'];
    [destruct (truthy t)|]; apply IH.
Qed.

(** C10. Technique selection and chain assembly never consult the
    per-phase technique cap: on two personas that differ at most in
    [max_techniques_per_phase], and from the same state of the random
    generator, both return the same result and leave the generator in the
    same state. *)
Theorem max_techniques_per_phase_not_consulted
    (p q : AttackerPersona) (tactic scenario : string)
    (exclude : option (list (option string))) (rng : Rng) :
  same_except_cap p q →
  select_technique_for_tactic p tactic exclude rng =
    select_technique_for_tactic q tactic exclude rng ∧
  get_attack_chain p scenario rng = get_attack_chain q scenario rng.
Proof.
  intros (_ & _ & _ & _ & _ & Hta & Hte & _ & Hs & _). split.
  - by apply select_technique_for_tactic_ext.
  - unfold get_attack_chain, tactic_order. rewrite Hta.
    by apply build_chain_ext.
Qed.

(** *** The sample persona of the test suite *)

Definition spearphishing_link : Technique :=
  {| o_type := None; o_id := Some "attack-pattern--123";
     o_name := Some "Spearphishing Link";
     o_aliases := None;
     o_description := Some "Adversaries may send spearphishing emails...";
     o_external_references := None;
     o_kill_chain_phases :=
       Some [ {| kill_chain_name := Some "mitre-attack";
                 phase_name := Some "initial-access" |} ];
     o_relationship_type := None; o_source_ref := None; o_target_ref := None;
     o_external_id := Some (Some "T1566.002") |}.

Definition registry_run_keys : Technique :=
  {| o_type := None; o_id := Some "attack-pattern--456";
     o_name := Some "Registry Run Keys";
     o_aliases := None;
     o_description := Some "Adversaries may achieve persistence...";
     o_external_references := None;
     o_kill_chain_phases :=
       Some [ {| kill_chain_name := Some "mitre-attack";
                 phase_name := Some "persistence" |} ];
     o_relationship_type := None; o_source_ref := None; o_target_ref := None;
     o_external_id := Some (Some "T1547.001") |}.

Definition sample_persona (cap : Z) : AttackerPersona :=
  {| stix_id := "intrusion-set--test-123"; mitre_id := "G0001";
     name := "Test APT"; aliases := ["Test Group"; "APT Test"];
     description := "A test threat group";
     tactics := ["initial-access"; "persistence"; "exfiltration"];
     techniques := [spearphishing_link; registry_run_keys];
     software := [];
     sophistication_level := HIGH; stealth_preference := STEALTHY;
     attack_speed := MODERATE;
     target_industries := ["Technology"; "Government"];
     target_regions := ["North America"]; motivations := ["espionage"];
     preferred_tools := [];
     max_techniques_per_phase := cap;
     technique_success_rate := 0.7;
     detection_sensitivity := 0.5;
     persistence_priority := 0.8;
     data_exfiltration_priority := 0.6 |}.

(** A generator whose every raw draw is [k]. *)
Definition constant_rng (k : N) : Rng := {| draws := fun _ => k; pos := 0 |}.

(** test_select_technique_for_tactic, test_select_technique_with_exclusions
    and test_select_technique_for_tactic_not_found. *)
Example test_select_technique_for_tactic :
  (select_technique_for_tactic (sample_persona 3) "initial-access" None
     (constant_rng 0)).1 = Some spearphishing_link ∧
  (select_technique_for_tactic (sample_persona 3) "initial-access"
     (Some [Some "T1566.002"]) (constant_rng 0)).1 = None ∧
  (select_technique_for_tactic (sample_persona 3) "impact" None
     (constant_rng 0)).1 = None.
Proof. by vm_compute. Qed.

(** test_get_attack_chain_full: two entries, in kill-chain order. *)
Example test_get_attack_chain_full :
  map ce_tactic (get_attack_chain (sample_persona 3) "full_chain"
                   (constant_rng 0)).1
  = ["initial-access"; "persistence"].
Proof. by vm_compute. Qed.

Lemma max_techniques_per_phase_not_consulted_witness :
  same_except_cap (sample_persona 3) (sample_persona 7) ∧
  select_technique_for_tactic (sample_persona 3) "initial-access" None
      (constant_rng 0) =
    select_technique_for_tactic (sample_persona 7) "initial-access" None
      (constant_rng 0) ∧
  get_attack_chain (sample_persona 3) "full_chain" (constant_rng 0) =
    get_attack_chain (sample_persona 7) "full_chain" (constant_rng 0).
Proof.
  assert (H : same_except_cap (sample_persona 3) (sample_persona 7)).
  { repeat split. }
  split; [exact H|].
  exact (max_techniques_per_phase_not_consulted (sample_persona 3)
           (sample_persona 7) "initial-access" "full_chain" None
           (constant_rng 0) H).
Defined.

End Persona.

(** ** attacker_personas/persona_generator.py *)
Module Generator.
Import Py.

(** [_load_industry_keywords]: the table in insertion order, which is the
    order [dict.items()] iterates in. *)
Definition industry_keywords : list (string * list string) :=
  [ ("Government", ["government"; "military"; "defense"; "embassy";
                    "diplomatic"; "ministry"; "agency"]);
    ("Financial", ["bank"; "financial"; "finance"; "payment"; "credit";
                   "monetary"; "treasury"]);
    ("Technology", ["technology"; "software"; "tech"; "IT"; "computer";
                    "semiconductor"; "cloud"]);
    ("Healthcare", ["healthcare"; "hospital"; "medical"; "pharmaceutical";
                    "health"; "patient"]);
    ("Energy", ["energy"; "oil"; "gas"; "electric"; "power"; "utility";
                "petroleum"; "nuclear"]);
    ("Telecommunications", ["telecom"; "telecommunication"; "mobile";
                            "cellular"; "phone"; "network"]);
    ("Manufacturing", ["manufacturing"; "industrial"; "factory";
                       "production"; "automotive"]);
    ("Education", ["education"; "university"; "school"; "academic";
                   "research"; "student"]);
    ("Media", ["media"; "journalism"; "news"; "broadcast"; "television";
               "radio"; "press"]);
    ("Retail", ["retail"; "shopping"; "store"; "commerce"; "sales";
                "consumer"]);
    ("Aviation", ["aviation"; "airline"; "aircraft"; "aerospace"; "flight"]);
    ("Maritime", ["maritime"; "shipping"; "port"; "naval"; "ocean"]);
    ("Critical Infrastructure", ["infrastructure"; "critical";
                                 "transportation"; "water"; "dam"]) ].

(** [f"{description} {' '.join(aliases)}".lower()]. *)
Definition combined_text (description : string) (aliases : list string) : string :=
  lower (description +:+ " " +:+ join " " aliases).

(** [any(keyword in combined_text for keyword in keywords)]. *)
Definition any_keyword_in (keywords : list string) (text : string) : bool :=
  existsb (fun keyword => contains keyword text) keywords.

(** The loop of [_infer_target_industries] over the table. *)
Fixpoint detect_industries (table : list (string * list string)) (text : string)
    (detected_industries : list string) : list string :=
  match table with
  | [] => detected_industries
  | (industry, keywords) :: rest =>
      detect_industries rest text
        (if any_keyword_in keywords text
         then detected_industries ++ [industry]
         else detected_industries)
  end.

Definition _infer_target_industries (description : string)
    (aliases : list string) : list string :=
  let detected_industries :=
    detect_industries industry_keywords (combined_text description aliases) [] in
  match detected_industries with
  | [] => ["Technology"; "Government"]
  | _ => detected_industries
  end.

(** No keyword of the table occurs in the group's text. *)
Definition no_keyword_matches (description : string) (aliases : list string) : Prop :=
  ∀ industry keywords keyword,
    (industry, keywords) ∈ industry_keywords → keyword ∈ keywords →
    contains keyword (combined_text description aliases) = false.

Lemma any_keyword_in_false keywords text :
  (∀ keyword, keyword ∈ keywords → contains keyword text = false) →
  any_keyword_in keywords text = false.
Proof.
  intros H. unfold any_keyword_in. apply not_true_is_false.
  intros (keyword & Hin & Hc)%existsb_exists.
  apply list_elem_of_In, H in Hin. congruence.
Qed.

Lemma detect_industries_none table text detected :
  (∀ industry keywords keyword,
     (industry, keywords) ∈ table → keyword ∈ keywords →
     contains keyword text = false) →
  detect_industries table text detected = detected.
Proof.
  revert detected. induction table as [|[industry keywords] rest IH];
    intros detected H; simpl; [done|].
  rewrite any_keyword_in_false.
  - apply IH. intros i ks k Hin. apply (H i ks k). by right.
  - intros k Hk. apply (H industry keywords); [left|done].
Qed.

(** The condition can be checked by running the table. *)
Lemma no_keyword_matches_check description aliases :
  forallb (fun entry => negb (any_keyword_in entry.2
                                (combined_text description aliases)))
          industry_keywords = true →
  no_keyword_matches description aliases.
Proof.
  intros Hall industry keywords keyword Hin Hk.
  rewrite forallb_forall in Hall.
  apply list_elem_of_In, Hall in Hin. simpl in Hin.
  apply negb_true_iff in Hin. apply not_true_is_false. intros Hc.
  assert (any_keyword_in keywords (combined_text description aliases) = true);
    [|congruence].
  apply existsb_exists. exists keyword. by rewrite <- list_elem_of_In.
Qed.

(** C7, as stated, fails: for a group without description and aliases no
    keyword matches, yet the result is not a one-element list. *)
Lemma infer_target_industries_default_not_single :
  ¬ (∀ description aliases,
       no_keyword_matches description aliases →
       ∃ bucket, _infer_target_industries description aliases = [bucket]).
Proof.
  intros H. destruct (H "" []) as [bucket Hb].
  - by apply no_keyword_matches_check.
  - vm_compute in Hb. discriminate Hb.
Qed.

(** C7 (amended). [_infer_target_industries] is a total function, and when
    no keyword of the table occurs in the lower-cased description and
    aliases it returns the fixed default list of the two buckets
    "Technology" and "Government". *)
Theorem infer_target_industries_default
    (description : string) (aliases : list string) :
  no_keyword_matches description aliases →
  _infer_target_industries description aliases = ["Technology"; "Government"].
Proof.
  intros H. unfold _infer_target_industries.
  by rewrite detect_industries_none.
Qed.

Lemma infer_target_industries_default_witness :
  no_keyword_matches "A test threat group" ["Test Group"] ∧
  _infer_target_industries "A test threat group" ["Test Group"]
    = ["Technology"; "Government"].
Proof.
  assert (Hno : no_keyword_matches "A test threat group" ["Test Group"]).
  { by apply no_keyword_matches_check. }
  split; [exact Hno|].
  exact (infer_target_industries_default "A test threat group" ["Test Group"] Hno).
Defined.

End Generator.

(** ** attacker_personas/persona_library.py *)
Module Library.
Import Py.
Import Persona.

(** The keyword arguments a configuration passes to
    [AttackerPersona.from_mitre_data], with [description_override]. *)
Record PersonaConfig := {
  cfg_sophistication_level : SophisticationLevel;
  cfg_stealth_preference : StealthLevel;
  cfg_attack_speed : AttackSpeed;
  cfg_target_industries : list string;
  cfg_target_regions : list string;
  cfg_motivations : list string;
  cfg_preferred_tools : list string;
  cfg_description_override : option string;
  cfg_detection_sensitivity : float;
  cfg_persistence_priority : float;
  cfg_data_exfiltration_priority : float;
  cfg_max_techniques_per_phase : Z;
  cfg_technique_success_rate : option float
}.

Definition config (soph : SophisticationLevel) (stealth : StealthLevel)
    (speed : AttackSpeed) (industries regions motivations tools : list string)
    (description_override : string) (detection persistence exfiltration : float)
    (max_techniques : Z) : PersonaConfig :=
  {| cfg_sophistication_level := soph; cfg_stealth_preference := stealth;
     cfg_attack_speed := speed; cfg_target_industries := industries;
     cfg_target_regions := regions; cfg_motivations := motivations;
     cfg_preferred_tools := tools;
     cfg_description_override := Some description_override;
     cfg_detection_sensitivity := detection;
     cfg_persistence_priority := persistence;
     cfg_data_exfiltration_priority := exfiltration;
     cfg_max_techniques_per_phase := max_techniques;
     cfg_technique_success_rate := None |}.

(** The table of pre-configured groups, in source order. *)
Definition PERSONA_CONFIGS : list (string * PersonaConfig) :=
  [ ("APT29",
     config ADVANCED STEALTHY SLOW
       ["Government"; "Technology"; "Energy"; "Healthcare"; "Think Tanks"]
       ["North America"; "Europe"; "Asia"]
       ["espionage"; "intelligence_gathering"]
       ["PowerShell Empire"; "Cobalt Strike"; "Custom Malware"]
       "Russian state-sponsored group (SVR) known for sophisticated, stealthy operations"
       0.9 0.95 0.9 5);
    ("APT28",
     config ADVANCED BALANCED MODERATE
       ["Government"; "Defense"; "Aerospace"; "Media"; "Think Tanks"]
       ["Europe"; "North America"; "Middle East"; "Asia"]
       ["espionage"; "information_warfare"; "disruption"]
       ["Sofacy"; "X-Agent"; "X-Tunnel"; "Mimikatz"]
       "Russian military intelligence (GRU) with aggressive operational style"
       0.6 0.8 0.7 4);
    ("Lazarus Group",
     config ADVANCED NOISY FAST
       ["Financial"; "Cryptocurrency"; "Defense"; "Technology"; "Media"]
       ["Global"]
       ["financial"; "disruption"; "espionage"; "destruction"]
       ["Custom Malware"; "DTrack"; "Bankshot"; "WannaCry"]
       "North Korean state-sponsored group known for destructive attacks and financial theft"
       0.3 0.7 0.8 6);
    ("FIN7",
     config HIGH STEALTHY MODERATE
       ["Retail"; "Hospitality"; "Restaurant"; "Financial Services"]
       ["North America"; "Europe"; "Asia"]
       ["financial"]
       ["Carbanak"; "Cobalt Strike"; "PowerShell"; "Mimikatz"]
       "Financially motivated cybercriminal group targeting payment card data"
       0.8 0.85 0.95 4);
    ("APT1",
     config HIGH BALANCED MODERATE
       ["Technology"; "Financial"; "Manufacturing"; "Energy"; "Healthcare"]
       ["North America"; "Europe"; "Asia Pacific"]
       ["espionage"; "intellectual_property_theft"]
       ["WEBC2"; "BISCUIT"; "SEASALT"; "Custom Tools"]
       "Chinese military unit focused on intellectual property theft"
       0.5 0.9 0.85 3);
    ("Carbanak",
     config HIGH STEALTHY SLOW
       ["Financial"; "Hospitality"; "Retail"]
       ["Global"]
       ["financial"]
       ["Carbanak Malware"; "Cobalt Strike"; "Mimikatz"; "Metasploit"]
       "Cybercriminal group specializing in financial institution theft"
       0.85 0.8 0.9 3);
    ("APT33",
     config HIGH BALANCED MODERATE
       ["Aviation"; "Energy"; "Government"; "Defense"]
       ["Middle East"; "North America"; "Europe"]
       ["espionage"; "disruption"]
       ["DROPSHOT"; "SHAPESHIFT"; "TURNEDUP"; "Custom Malware"]
       "Iranian group targeting aviation and energy sectors"
       0.6 0.75 0.7 4);
    ("Equation",
     config ADVANCED STEALTHY SLOW
       ["Government"; "Technology"; "Telecommunications"; "Defense"; "Research"]
       ["Global"]
       ["espionage"; "intelligence_gathering"]
       ["EQUATIONDRUG"; "GRAYFISH"; "FANNY"; "Custom Implants"]
       "Highly sophisticated group with advanced persistent capabilities"
       0.95 0.98 0.85 7);
    ("DarkHydrus",
     config MEDIUM BALANCED MODERATE
       ["Government"; "Critical Infrastructure"; "Energy"]
       ["Middle East"]
       ["espionage"]
       ["RogueRobin"; "PowerShell"; "Custom Scripts"]
       "Middle Eastern group targeting government entities"
       0.5 0.7 0.75 3);
    ("Sandworm Team",
     config ADVANCED NOISY FAST
       ["Energy"; "Critical Infrastructure"; "Government"; "Media"]
       ["Europe"; "North America"; "Asia"]
       ["disruption"; "destruction"; "espionage"]
       ["NotPetya"; "BlackEnergy"; "Industroyer"; "Custom Malware"]
       "Russian group known for destructive attacks on critical infrastructure"
       0.2 0.6 0.4 5) ].

(** [PERSONA_CONFIGS[name]], [None] when [name not in PERSONA_CONFIGS]. *)
Fixpoint lookup_config (table : list (string * PersonaConfig)) (name : string)
    : option PersonaConfig :=
  match table with
  | [] => None
  | (n, cfg) :: rest =>
      if bool_decide (n = name) then Some cfg else lookup_config rest name
  end.

(** Persona objects live in the interpreter's heap; a reference is the
    position of the object, and two references are the same object exactly
    when they are equal. *)
Definition Ref := nat.

Record PersonaLibrary := {
  mitre_client : MITREStixClient;
  _personas_cache : option (gmap string Ref);
  _custom_personas : gmap string Ref;
  _auto_generate : bool
}.

Record State := {
  heap : list AttackerPersona;
  library : PersonaLibrary
}.

(** [PersonaLibrary(mitre_client, cache_personas, auto_generate)]. *)
Definition new_library (client : MITREStixClient)
    (cache_personas auto_generate : bool) : PersonaLibrary :=
  {| mitre_client := client;
     _personas_cache := if cache_personas then Some ∅ else None;
     _custom_personas := ∅;
     _auto_generate := auto_generate |}.

Definition set_description (d : string) (p : AttackerPersona) : AttackerPersona :=
  {| stix_id := stix_id p; mitre_id := mitre_id p; name := name p;
     aliases := aliases p; description := d; tactics := tactics p;
     techniques := techniques p; software := software p;
     sophistication_level := sophistication_level p;
     stealth_preference := stealth_preference p;
     attack_speed := attack_speed p;
     target_industries := target_industries p;
     target_regions := target_regions p; motivations := motivations p;
     preferred_tools := preferred_tools p;
     max_techniques_per_phase := max_techniques_per_phase p;
     technique_success_rate := technique_success_rate p;
     detection_sensitivity := detection_sensitivity p;
     persistence_priority := persistence_priority p;
     data_exfiltration_priority := data_exfiltration_priority p |}.

(** [if description_override: persona.description = description_override]. *)
Definition override_description (cfg : PersonaConfig) (p : AttackerPersona)
    : AttackerPersona :=
  match cfg_description_override cfg with
  | Some d => if bool_decide (d = "") then p else set_description d p
  | None => p
  end.

Section GetPersona.

(** The construction of the persona object is a parameter of the library
    model: [from_mitre_data client name kwargs] is
    [AttackerPersona.from_mitre_data(client, name, **kwargs)], which returns
    a new persona or raises, and [generate_persona_config client group] is
    [PersonaGenerator(client).generate_persona_config(group)]. *)
Variable from_mitre_data :
  MITREStixClient -> string -> option PersonaConfig -> result AttackerPersona.
Variable generate_persona_config : MITREStixClient -> StixObject -> PersonaConfig.

(** The persona that [get_persona] builds when the name is neither cached
    nor custom. *)
Definition build_persona (lib : PersonaLibrary) (name : string)
    : result AttackerPersona :=
  match lookup_config PERSONA_CONFIGS name with
  | None =>
      match get_group_by_name (mitre_client lib) name with
      | None => Raise (ValueError "Unknown persona")
      | Some group =>
          if negb (truthy group) then Raise (ValueError "Unknown persona")
          else if _auto_generate lib then
            let cfg := generate_persona_config (mitre_client lib) group in
            bind (from_mitre_data (mitre_client lib) name (Some cfg))
                 (fun persona => Ok (override_description cfg persona))
          else from_mitre_data (mitre_client lib) name None
      end
  | Some cfg =>
      bind (from_mitre_data (mitre_client lib) name (Some cfg))
           (fun persona => Ok (override_description cfg persona))
  end.

(** [self._personas_cache[name] = persona], when caching is enabled. *)
Definition cache_store (name : string) (r : Ref) (lib : PersonaLibrary)
    : PersonaLibrary :=
  {| mitre_client := mitre_client lib;
     _personas_cache :=
       match _personas_cache lib with
       | Some cache => Some (<[name := r]> cache)
       | None => None
       end;
     _custom_personas := _custom_personas lib;
     _auto_generate := _auto_generate lib |}.

Definition cache_lookup (lib : PersonaLibrary) (name : string) : option Ref :=
  match _personas_cache lib with
  | Some cache => cache !! name
  | None => None
  end.

Definition get_persona (name : string) (st : State) : result Ref * State :=
  match cache_lookup (library st) name with
  | Some r => (Ok r, st)
  | None =>
      match _custom_personas (library st) !! name with
      | Some r => (Ok r, st)
      | None =>
          match build_persona (library st) name with
          | Raise e => (Raise e, st)
          | Ok persona =>
              let r := length (heap st) in
              (Ok r, {| heap := heap st ++ [persona];
                        library := cache_store name r (library st) |})
          end
      end
  end.

Definition clear_cache (st : State) : State :=
  {| heap := heap st;
     library :=
       {| mitre_client := mitre_client (library st);
          _personas_cache :=
            match _personas_cache (library st) with
            | Some _ => Some ∅
            | None => None
            end;
          _custom_personas := _custom_personas (library st);
          _auto_generate := _auto_generate (library st) |} |}.

(** A run of [get_persona] calls whose results are dropped. *)
Fixpoint get_personas (names : list string) (st : State) : State :=
  match names with
  | [] => st
  | n :: rest => get_personas rest (get_persona n st).2
  end.

Definition cache_enabled (st : State) : Prop :=
  is_Some (_personas_cache (library st)).

(** *** The cache as a memo table *)

(** [name] resolves to the stored object [r] without construction: it is
    cached, or it is a custom persona that the cache does not shadow. *)
Definition resolves (st : State) (name : string) (r : Ref) : Prop :=
  cache_lookup (library st) name = Some r ∨
  (cache_lookup (library st) name = None ∧
   _custom_personas (library st) !! name = Some r).

Lemma get_persona_resolved st name r :
  resolves st name r → get_persona name st = (Ok r, st).
Proof.
  unfold get_persona. intros [-> | [-> ->]]; done.
Qed.

Lemma cache_lookup_store lib name r n :
  cache_lookup (cache_store name r lib) n =
  match _personas_cache lib with
  | Some cache => if decide (name = n) then Some r else cache !! n
  | None => None
  end.
Proof.
  unfold cache_lookup, cache_store. simpl.
  destruct (_personas_cache lib) as [cache|]; [|done].
  by rewrite lookup_insert.
Qed.

(** A successful call leaves the name resolved to the returned object. *)
Lemma get_persona_resolves st name r st' :
  cache_enabled st → get_persona name st = (Ok r, st') → resolves st' name r.
Proof.
  intros [cache Hc]. unfold get_persona.
  destruct (cache_lookup (library st) name) as [r0|] eqn:Hlook.
  { intros [= <- <-]. by left. }
  destruct (_custom_personas (library st) !! name) as [r0|] eqn:Hcustom.
  { intros [= <- <-]. by right. }
  destruct (build_persona (library st) name) as [persona|e]; [|done].
  intros [= <- <-]. left. simpl. rewrite cache_lookup_store, Hc.
  by rewrite decide_True.
Qed.

(** Calls for any name keep a resolved name resolved to the same object. *)
Lemma get_persona_keeps_resolved st n name r :
  resolves st name r → resolves (get_persona n st).2 name r.
Proof.
  intros Hres. unfold get_persona.
  destruct (cache_lookup (library st) n) as [r0|] eqn:Hlook; [done|].
  destruct (_custom_personas (library st) !! n) as [r0|] eqn:Hcustom; [done|].
  destruct (build_persona (library st) n) as [persona|e]; [|done].
  assert (Hne : n ≠ name).
  { intros ->. destruct Hres as [H|[_ H]]; congruence. }
  unfold resolves in *. simpl. rewrite cache_lookup_store.
  unfold cache_lookup in Hres.
  destruct (_personas_cache (library st)) as [cache|]; [|done].
  by rewrite decide_False.
Qed.

Lemma get_personas_keep_resolved names st name r :
  resolves st name r → resolves (get_personas names st) name r.
Proof.
  revert st. induction names as [|n rest IH]; intros st Hres; simpl; [done|].
  by apply IH, get_persona_keeps_resolved.
Qed.

(** C9. With caching enabled, once [get_persona name] has returned an
    object, every later call for that name returns the identical object
    and changes nothing (no persona is constructed), whatever other names
    are requested in between; and when the name was neither cached nor
    custom, the first call constructed the object and stored it in the
    cache. *)
Theorem get_persona_returns_cached_instance
    (name : string) (st st' : State) (r : Ref) :
  cache_enabled st →
  get_persona name st = (Ok r, st') →
  (∀ later, get_persona name (get_personas later st')
              = (Ok r, get_personas later st')) ∧
  (cache_lookup (library st) name = None →
   _custom_personas (library st) !! name = None →
   ∃ persona, build_persona (library st) name = Ok persona ∧
              r = length (heap st) ∧ heap st' = heap st ++ [persona] ∧
              cache_lookup (library st') name = Some r).
Proof.
  intros Hen Hget. split.
  - intros later. apply get_persona_resolved, get_personas_keep_resolved.
    by apply (get_persona_resolves st).
  - intros Hlook Hcustom. unfold get_persona in Hget.
    rewrite Hlook, Hcustom in Hget.
    destruct (build_persona (library st) name) as [persona|e]; [|done].
    injection Hget as <- <-. exists persona. simpl.
    repeat split; try done.
    destruct Hen as [cache Hc]. rewrite cache_lookup_store, Hc.
    by rewrite decide_True.
Qed.

Lemma build_persona_ext lib lib' name :
  mitre_client lib = mitre_client lib' →
  _auto_generate lib = _auto_generate lib' →
  build_persona lib name = build_persona lib' name.
Proof. intros Hc Ha. unfold build_persona. by rewrite Hc, Ha. Qed.

(** [clear_cache] ends the guarantee: the next call for a name that is not
    custom constructs a new object. *)
Lemma get_persona_after_clear_cache name st st' r :
  cache_enabled st →
  cache_lookup (library st) name = None →
  _custom_personas (library st) !! name = None →
  get_persona name st = (Ok r, st') →
  ∃ r2 st2, get_persona name (clear_cache st') = (Ok r2, st2) ∧ r2 ≠ r.
Proof.
  intros [cache Hc] Hlook Hcustom Hget. unfold get_persona in *.
  rewrite Hlook, Hcustom in Hget.
  destruct (build_persona (library st) name) as [persona|e] eqn:Hb; [|done].
  injection Hget as <- <-.
  unfold cache_lookup. simpl. rewrite Hc, lookup_empty, Hcustom.
  rewrite (build_persona_ext _ (library st)), Hb by done.
  eexists _, _. split; [done|]. rewrite length_app. simpl. lia.
Qed.

(** Without a cache every call constructs a new object. *)
Lemma get_persona_uncached_fresh name st st' r :
  _personas_cache (library st) = None →
  _custom_personas (library st) !! name = None →
  get_persona name st = (Ok r, st') →
  ∃ r2 st2, get_persona name st' = (Ok r2, st2) ∧ r2 ≠ r.
Proof.
  intros Hc Hcustom Hget. unfold get_persona, cache_lookup in *.
  rewrite Hc, Hcustom in Hget.
  destruct (build_persona (library st) name) as [persona|e] eqn:Hb; [|done].
  injection Hget as <- <-. simpl. rewrite Hc, Hcustom.
  rewrite (build_persona_ext _ (library st)), Hb by done.
  eexists _, _. split; [done|]. rewrite length_app. simpl. lia.
Qed.

End GetPersona.

(** A constructor and a generator to run the library on: the persona is
    the data class with its defaults and the configured overrides. *)
Definition sample_from_mitre_data (client : MITREStixClient) (name : string)
    (kwargs : option PersonaConfig) : result AttackerPersona :=
  match get_group_by_name client name with
  | None => Raise (ValueError "Group not found in MITRE data")
  | Some group =>
      Ok (new_persona (get_or (o_id group) "") "" (get_or (o_name group) ""))
  end.

Definition sample_generate_persona_config (client : MITREStixClient)
    (group : StixObject) : PersonaConfig :=
  config MEDIUM BALANCED MODERATE [] [] [] [] "" 0.5 0.7 0.5 4.

Definition sample_group : StixObject :=
  {| o_type := Some "intrusion-set";
     o_id := Some "intrusion-set--899ce53f-13a0-479b-a0e4-67d46e241542";
     o_name := Some "APT29";
     o_aliases := Some ["YTTRIUM"; "The Dukes"; "Cozy Bear"];
     o_description := Some "APT29 is a threat group...";
     o_external_references :=
       Some [ {| source_name := Some "mitre-attack";
                 ref_external_id := Some "G0016" |} ];
     o_kill_chain_phases := None; o_relationship_type := None;
     o_source_ref := None; o_target_ref := None; o_external_id := None |}.

Definition sample_state : State :=
  {| heap := [];
     library := new_library (parse_stix_data [sample_group]) true true |}.

Lemma get_persona_returns_cached_instance_witness :
  let get := get_persona sample_from_mitre_data sample_generate_persona_config in
  cache_enabled sample_state ∧
  (get "APT29" sample_state).1 = Ok 0 ∧
  (get "APT29" (get "APT29" sample_state).2).1 = Ok 0 ∧
  length (heap (get "APT29" (get "APT29" sample_state).2).2) = 1.
Proof.
  cbv zeta.
  assert (Hen : cache_enabled sample_state) by (by eexists).
  assert (Hget : get_persona sample_from_mitre_data
                   sample_generate_persona_config "APT29" sample_state
                 = (Ok 0, (get_persona sample_from_mitre_data
                   sample_generate_persona_config "APT29" sample_state).2)).
  { by vm_compute. }
  destruct (get_persona_returns_cached_instance sample_from_mitre_data
              sample_generate_persona_config "APT29" sample_state _ 0 Hen Hget)
    as [Hlater _].
  specialize (Hlater []). simpl in Hlater.
  split; [exact Hen|]. split; [by rewrite Hget|].
  rewrite Hlater. split; [done|]. by vm_compute.
Defined.

End Library.

(** ** agents/red_team_agent_v2.py *)
Module Agent.
Import Py.
Import PyFloat.
Import Persona.
Local Open Scope Z_scope.

(** Computations that draw from the random generator and may raise. *)
Definition Sim (A : Type) : Type := Rng -> result (A * Rng).

Global Instance sim_ret : MRet Sim := fun A a rng => Ok (a, rng).
Global Instance sim_bind : MBind Sim := fun A B f m rng =>
  match m rng with
  | Ok (a, rng') => f a rng'
  | Raise e => Raise e
  end.

(** A call of the [random] module or of a persona method that draws. *)
Definition draw {A} (f : Rng -> A * Rng) : Sim A := fun rng => Ok (f rng).

(** A call that may raise and draws nothing. *)
Definition lift {A} (x : result A) : Sim A := fun rng =>
  match x with
  | Ok a => Ok (a, rng)
  | Raise e => Raise e
  end.

Inductive AttackStatus :=
  PLANNED | IN_PROGRESS | SUCCESS | FAILED | BLOCKED | ABANDONED.

Global Instance AttackStatus_eq_dec : EqDecision AttackStatus.
Proof. solve_decision. Defined.

(** A phase of the attack plan; the technique id is the chain entry's, a
    string or [None]. *)
Record Phase := {
  tactic : string;
  technique_id : option string;
  technique_name : string;
  phase_description : string;
  expected_delay_minutes : Z;
  stealth_mode : bool;
  priority : Z
}.

Record Artifact := {
  artifact_type : string;
  artifact_description : string;
  ioc : string
}.

(** The result dictionary of [_execute_phase]; the phase id and the
    timestamps, which come from the clock, are left out. *)
Record PhaseResult := {
  result_tactic : string;
  result_technique_id : option string;
  result_technique_name : string;
  result_target : string;
  result_status : AttackStatus;
  result_detected : bool;
  artifacts : list Artifact;
  indicators : list string;
  mitigation_suggestions : list string
}.

(** An element of the campaign's [phases]: a planned phase
    [{'phase': phase, 'status': PLANNED}] or the result of an executed one. *)
Inductive PhaseEntry :=
  | Planned (phase : Phase)
  | Executed (result : PhaseResult).

(** [p.get('status')] and [p.get('detected', False)]. *)
Definition entry_status (p : PhaseEntry) : AttackStatus :=
  match p with
  | Planned _ => PLANNED
  | Executed r => result_status r
  end.

Definition entry_detected (p : PhaseEntry) : bool :=
  match p with
  | Planned _ => false
  | Executed r => result_detected r
  end.

Record DetectionEvent := {
  event_phase : string;
  event_technique : option string;
  severity : string
}.

Record Objectives := {
  initial_access : bool;
  persistence : bool;
  data_theft : bool;
  lateral_movement : bool
}.

(** The campaign dictionary; the identifier and the timestamps, which come
    from the clock, are left out, and the four metrics are absent until
    the campaign is finalized. *)
Record Campaign := {
  campaign_persona : PersonaDict;
  campaign_target : string;
  campaign_scenario : string;
  max_duration_hours : Z;
  campaign_status : string;
  phases : list PhaseEntry;
  techniques_used : list (option string);
  objectives_completed : list string;
  detection_events : list DetectionEvent;
  data_exfiltrated : Z;
  attack_plan : list Phase;
  success_rate : option float;
  detection_rate : option float;
  objectives_achieved : option Objectives;
  risk_score : option Z
}.

Record RedTeamAgent := {
  agent_mitre_client : MITREStixClient;
  persona : option AttackerPersona;
  attack_history : list Campaign;
  current_campaign : option Campaign
}.

(** In-place updates of the campaign dictionary. *)
Definition set_phases (v : list PhaseEntry) (c : Campaign) : Campaign :=
  {| campaign_persona := campaign_persona c;
     campaign_target := campaign_target c;
     campaign_scenario := campaign_scenario c;
     max_duration_hours := max_duration_hours c;
     campaign_status := campaign_status c; phases := v;
     techniques_used := techniques_used c;
     objectives_completed := objectives_completed c;
     detection_events := detection_events c;
     data_exfiltrated := data_exfiltrated c; attack_plan := attack_plan c;
     success_rate := success_rate c; detection_rate := detection_rate c;
     objectives_achieved := objectives_achieved c;
     risk_score := risk_score c |}.

Definition set_techniques_used (v : list (option string)) (c : Campaign)
    : Campaign :=
  {| campaign_persona := campaign_persona c;
     campaign_target := campaign_target c;
     campaign_scenario := campaign_scenario c;
     max_duration_hours := max_duration_hours c;
     campaign_status := campaign_status c; phases := phases c;
     techniques_used := v;
     objectives_completed := objectives_completed c;
     detection_events := detection_events c;
     data_exfiltrated := data_exfiltrated c; attack_plan := attack_plan c;
     success_rate := success_rate c; detection_rate := detection_rate c;
     objectives_achieved := objectives_achieved c;
     risk_score := risk_score c |}.

Definition set_objectives_completed (v : list string) (c : Campaign) : Campaign :=
  {| campaign_persona := campaign_persona c;
     campaign_target := campaign_target c;
     campaign_scenario := campaign_scenario c;
     max_duration_hours := max_duration_hours c;
     campaign_status := campaign_status c; phases := phases c;
     techniques_used := techniques_used c;
     objectives_completed := v;
     detection_events := detection_events c;
     data_exfiltrated := data_exfiltrated c; attack_plan := attack_plan c;
     success_rate := success_rate c; detection_rate := detection_rate c;
     objectives_achieved := objectives_achieved c;
     risk_score := risk_score c |}.

Definition set_detection_events (v : list DetectionEvent) (c : Campaign) : Campaign :=
  {| campaign_persona := campaign_persona c;
     campaign_target := campaign_target c;
     campaign_scenario := campaign_scenario c;
     max_duration_hours := max_duration_hours c;
     campaign_status := campaign_status c; phases := phases c;
     techniques_used := techniques_used c;
     objectives_completed := objectives_completed c;
     detection_events := v;
     data_exfiltrated := data_exfiltrated c; attack_plan := attack_plan c;
     success_rate := success_rate c; detection_rate := detection_rate c;
     objectives_achieved := objectives_achieved c;
     risk_score := risk_score c |}.

Definition set_data_exfiltrated (v : Z) (c : Campaign) : Campaign :=
  {| campaign_persona := campaign_persona c;
     campaign_target := campaign_target c;
     campaign_scenario := campaign_scenario c;
     max_duration_hours := max_duration_hours c;
     campaign_status := campaign_status c; phases := phases c;
     techniques_used := techniques_used c;
     objectives_completed := objectives_completed c;
     detection_events := detection_events c;
     data_exfiltrated := v; attack_plan := attack_plan c;
     success_rate := success_rate c; detection_rate := detection_rate c;
     objectives_achieved := objectives_achieved c;
     risk_score := risk_score c |}.

Definition set_attack_plan (v : list Phase) (c : Campaign) : Campaign :=
  {| campaign_persona := campaign_persona c;
     campaign_target := campaign_target c;
     campaign_scenario := campaign_scenario c;
     max_duration_hours := max_duration_hours c;
     campaign_status := campaign_status c; phases := phases c;
     techniques_used := techniques_used c;
     objectives_completed := objectives_completed c;
     detection_events := detection_events c;
     data_exfiltrated := data_exfiltrated c; attack_plan := v;
     success_rate := success_rate c; detection_rate := detection_rate c;
     objectives_achieved := objectives_achieved c;
     risk_score := risk_score c |}.

Definition set_status (v : string) (c : Campaign) : Campaign :=
  {| campaign_persona := campaign_persona c;
     campaign_target := campaign_target c;
     campaign_scenario := campaign_scenario c;
     max_duration_hours := max_duration_hours c;
     campaign_status := v; phases := phases c;
     techniques_used := techniques_used c;
     objectives_completed := objectives_completed c;
     detection_events := detection_events c;
     data_exfiltrated := data_exfiltrated c; attack_plan := attack_plan c;
     success_rate := success_rate c; detection_rate := detection_rate c;
     objectives_achieved := objectives_achieved c;
     risk_score := risk_score c |}.

Definition set_metrics (sr dr : float) (o : Objectives) (risk : Z)
    (c : Campaign) : Campaign :=
  {| campaign_persona := campaign_persona c;
     campaign_target := campaign_target c;
     campaign_scenario := campaign_scenario c;
     max_duration_hours := max_duration_hours c;
     campaign_status := campaign_status c; phases := phases c;
     techniques_used := techniques_used c;
     objectives_completed := objectives_completed c;
     detection_events := detection_events c;
     data_exfiltrated := data_exfiltrated c; attack_plan := attack_plan c;
     success_rate := Some sr; detection_rate := Some dr;
     objectives_achieved := Some o;
     risk_score := Some risk |}.

(** [self.current_campaign['phases'].append(entry)]. *)
Definition append_phase (entry : PhaseEntry) (c : Campaign) : Campaign :=
  set_phases (phases c ++ [entry]) c.

(** [_calculate_phase_delay]: the dictionary literal draws the four
    candidate delays in order before one is chosen by the attack speed. *)
Definition _calculate_phase_delay (p : AttackerPersona) : Sim Z :=
  slow ← draw (randint 60 240);
  moderate ← draw (randint 15 60);
  fast ← draw (randint 1 15);
  aggressive ← draw (randint 0 2);
  let delay :=
    match attack_speed p with
    | SLOW => slow
    | MODERATE => moderate
    | FAST => fast
    | AGGRESSIVE => aggressive
    end in
  match stealth_preference p with
  | STEALTHY =>
      u ← draw (uniform 1.5 2.5);
      lift (int_of_float (float_of_int delay * u))
  | _ => mret delay
  end.

Definition difficult_tactics : list string :=
  ["privilege-escalation"; "defense-evasion"; "persistence"].

Definition sophistication_modifier (l : SophisticationLevel) : float :=
  match l with
  | LOW => 0.8
  | MEDIUM => 0.9
  | HIGH => 1.0
  | ADVANCED => 1.1
  end.

Definition _calculate_success_probability (p : AttackerPersona)
    (phase : Phase) : float :=
  let base_prob := technique_success_rate p in
  let base_prob := (base_prob * sophistication_modifier (sophistication_level p))%float in
  let base_prob :=
    if str_in (tactic phase) difficult_tactics
    then (base_prob * 0.85)%float else base_prob in
  min_float base_prob 0.95.

Definition high_visibility : list string :=
  ["impact"; "exfiltration"; "lateral-movement"].

Definition _calculate_detection_probability (p : AttackerPersona)
    (phase : Phase) : float :=
  let base_detection := 0.3%float in
  let base_detection :=
    if bool_decide (stealth_value (stealth_preference p) = "stealthy")
    then (base_detection * 0.5)%float
    else if bool_decide (stealth_value (stealth_preference p) = "noisy")
    then (base_detection * 1.5)%float
    else base_detection in
  let base_detection :=
    if str_in (tactic phase) high_visibility
    then (base_detection * 1.3)%float else base_detection in
  let base_detection :=
    if stealth_mode phase then (base_detection * 0.6)%float
    else base_detection in
  min_float base_detection 0.9.

(** [priority_map.get(tactic, 5)]. *)
Definition _get_tactic_priority (p : AttackerPersona) (tactic : string) : Z :=
  if bool_decide (tactic = "initial-access") then 10
  else if bool_decide (tactic = "execution") then 9
  else if bool_decide (tactic = "persistence")
  then (if (0.7 <? persistence_priority p)%float then 8 else 5)
  else if bool_decide (tactic = "privilege-escalation") then 7
  else if bool_decide (tactic = "defense-evasion")
  then (if bool_decide (stealth_value (stealth_preference p) = "stealthy")
        then 8 else 4)
  else if bool_decide (tactic = "credential-access") then 6
  else if bool_decide (tactic = "discovery") then 5
  else if bool_decide (tactic = "lateral-movement") then 6
  else if bool_decide (tactic = "collection")
  then (if (0.7 <? data_exfiltration_priority p)%float then 7 else 3)
  else if bool_decide (tactic = "command-and-control") then 6
  else if bool_decide (tactic = "exfiltration")
  then (if (0.7 <? data_exfiltration_priority p)%float then 8 else 3)
  else if bool_decide (tactic = "impact") then 4
  else 5.

(** The loop of [_generate_persona_attack_plan] over the attack chain. *)
Fixpoint plan_loop (p : AttackerPersona) (attack_chain : list ChainEntry)
    (plan : list Phase) : Sim (list Phase) :=
  match attack_chain with
  | [] => mret plan
  | phase :: rest =>
      delay ← _calculate_phase_delay p;
      stealth ← draw (should_use_stealth_technique p);
      plan_loop p rest
        (plan ++ [ {| tactic := ce_tactic phase;
                      technique_id := ce_technique_id phase;
                      technique_name := ce_technique_name phase;
                      phase_description := ce_description phase;
                      expected_delay_minutes := delay;
                      stealth_mode := stealth;
                      priority := _get_tactic_priority p (ce_tactic phase) |} ])
  end.

Definition _generate_persona_attack_plan (p : AttackerPersona)
    (scenario : string) : Sim (list Phase) :=
  attack_chain ← draw (get_attack_chain p scenario);
  plan_loop p attack_chain [].

Definition _generate_attack_artifacts (phase : Phase) : Sim (list Artifact) :=
  if bool_decide (tactic phase = "initial-access") then
    a ← draw (randint 1 255);
    b ← draw (randint 1 255);
    c ← draw (randint 1 255);
    mret [ {| artifact_type := "network";
              artifact_description := "Suspicious external connection";
              ioc := "185." +:+ pretty a +:+ "." +:+ pretty b +:+ "."
                     +:+ pretty c |} ]
  else if bool_decide (tactic phase = "execution") then
    exe ← draw (choice "powershell.exe" ["cmd.exe"; "wscript.exe"]);
    mret [ {| artifact_type := "process";
              artifact_description := "Suspicious process execution";
              ioc := exe |} ]
  else if bool_decide (tactic phase = "persistence") then
    mret [ {| artifact_type := "registry";
              artifact_description := "Registry key modification";
              ioc := "HKLM\Software\Microsoft\Windows\CurrentVersion\Run" |} ]
  else if bool_decide (tactic phase = "exfiltration") then
    n ← draw (randint 10 500);
    mret [ {| artifact_type := "network";
              artifact_description := "Large data transfer";
              ioc := pretty n +:+ " MB uploaded" |} ]
  else mret [].

(** [_generate_indicators]: the first test, ['T1566' in technique_id],
    raises a [TypeError] when the technique id is [None]. *)
Definition _generate_indicators (phase : Phase) : result (list string) :=
  match technique_id phase with
  | None => Raise (TypeError "argument of type 'NoneType' is not iterable")
  | Some technique_id =>
      Ok (if contains "T1566" technique_id then
            ["Suspicious email with attachment"; "User clicked on external link"]
          else if contains "T1055" technique_id then
            ["Process memory modification detected"; "Unusual process behavior"]
          else if contains "T1003" technique_id then
            ["lsass.exe access detected"; "Suspicious credential access"]
          else if contains "T1041" technique_id then
            ["Unusual outbound traffic volume";
             "Connection to known C2 infrastructure"]
          else [])
  end.

(** The loop of [_get_mitigation_suggestions] over the technique's phases. *)
Fixpoint collect_mitigations (phases : list KillChainPhase)
    (mitigations : list string) : list string :=
  match phases with
  | [] => mitigations
  | phase :: rest =>
      let tactic := phase_name phase in
      collect_mitigations rest
        (if bool_decide (tactic = Some "initial-access") then
           mitigations ++ ["Implement email filtering and sandboxing";
                           "User security awareness training";
                           "Network segmentation"]
         else if bool_decide (tactic = Some "execution") then
           mitigations ++ ["Application whitelisting";
                           "Disable unnecessary scripting engines";
                           "Monitor process creation"]
         else if bool_decide (tactic = Some "persistence") then
           mitigations ++ ["Regular system audits";
                           "Monitor autostart locations";
                           "Implement least privilege"]
         else if bool_decide (tactic = Some "exfiltration") then
           mitigations ++ ["Data loss prevention (DLP)";
                           "Network traffic monitoring";
                           "Encrypt sensitive data"]
         else mitigations)
  end.

(** [list(set(mitigations))[:3]]: the order in which a set of strings is
    listed is not fixed by the language; the model lists first
    occurrences in order. *)
Definition _get_mitigation_suggestions (client : MITREStixClient)
    (technique_id : option string) : list string :=
  match get_technique_by_id client technique_id with
  | None => ["Implement defense-in-depth strategy"]
  | Some technique =>
      if negb (truthy technique) then ["Implement defense-in-depth strategy"]
      else take 3 (remove_dups
                     (collect_mitigations
                        (get_or (o_kill_chain_phases technique) []) []))
  end.

(** [_execute_phase]: the draws are, in order, the success draw, the
    detection draw, the draws of the artifacts, the block draw when the
    phase is detected, and the volume when an exfiltration succeeds. The
    result dictionary is built, with its artifacts, indicators and
    mitigation suggestions, before the detection is handled, so a
    [TypeError] of [_generate_indicators] leaves the campaign as it was. *)
Definition _execute_phase (p : AttackerPersona) (client : MITREStixClient)
    (phase : Phase) (target : string) (campaign : Campaign)
    : Sim (PhaseResult * Campaign) :=
  let success_probability := _calculate_success_probability p phase in
  let detection_probability := _calculate_detection_probability p phase in
  x ← draw random;
  let success := (x <? success_probability)%float in
  y ← draw random;
  let detected := (y <? detection_probability)%float in
  generated ← _generate_attack_artifacts phase;
  found ← lift (_generate_indicators phase);
  let suggestions := _get_mitigation_suggestions client (technique_id phase) in
  let status := if success then SUCCESS else FAILED in
  '(status, campaign) ←
    (if detected then
       let campaign :=
         set_detection_events
           (detection_events campaign ++
            [ {| event_phase := tactic phase;
                 event_technique := technique_id phase;
                 severity := if str_in (tactic phase) ["impact"; "exfiltration"]
                             then "high" else "medium" |} ])
           campaign in
       z ← draw random;
       mret (if (z <? 0.3)%float then BLOCKED else status, campaign)
     else mret (status, campaign));
  campaign ←
    (if bool_decide (status = SUCCESS) then
       let campaign :=
         set_techniques_used (techniques_used campaign ++ [technique_id phase])
           campaign in
       if bool_decide (tactic phase = "initial-access") then
         mret (set_objectives_completed
                 (objectives_completed campaign ++ ["initial_access"]) campaign)
       else if bool_decide (tactic phase = "persistence") then
         mret (set_objectives_completed
                 (objectives_completed campaign ++ ["persistence_established"])
                 campaign)
       else if bool_decide (tactic phase = "exfiltration") then
         let campaign :=
           set_objectives_completed
             (objectives_completed campaign ++ ["data_exfiltrated"]) campaign in
         mb ← draw (randint 1 100);
         mret (set_data_exfiltrated (data_exfiltrated campaign + mb) campaign)
       else mret campaign
     else mret campaign);
  mret ({| result_tactic := tactic phase;
           result_technique_id := technique_id phase;
           result_technique_name := technique_name phase;
           result_target := target;
           result_status := status;
           result_detected := detected;
           artifacts := generated;
           indicators := found;
           mitigation_suggestions := suggestions |},
        campaign).

Definition _get_alternative_technique (p : AttackerPersona)
    (original_phase : Phase) : Sim (option Phase) :=
  alternative ←
    draw (select_technique_for_tactic p (tactic original_phase)
            (Some [technique_id original_phase]));
  match alternative with
  | Some alt =>
      if truthy alt then
        delay ← _calculate_phase_delay p;
        mret (Some {| tactic := tactic original_phase;
                      technique_id := get_or (o_external_id alt) (Some "");
                      technique_name := get_or (o_name alt) "";
                      phase_description :=
                        slice_to 200 (get_or (o_description alt) "");
                      expected_delay_minutes := delay;
                      stealth_mode := true;
                      priority := priority original_phase |})
      else mret None
  | None => mret None
  end.

(** The loop of [execute_attack_campaign] over the attack plan. *)
Fixpoint campaign_loop (p : AttackerPersona) (client : MITREStixClient)
    (target : string) (auto_execute : bool) (plan : list Phase)
    (campaign : Campaign) : Sim Campaign :=
  match plan with
  | [] => mret campaign
  | phase :: rest =>
      if auto_execute then
        '(phase_result, campaign) ← _execute_phase p client phase target campaign;
        let campaign := append_phase (Executed phase_result) campaign in
        campaign ←
          (if bool_decide (result_status phase_result ∈ [BLOCKED; FAILED]) then
             stealth ← draw (should_use_stealth_technique p);
             if stealth : bool then
               alt_phase ← _get_alternative_technique p phase;
               match alt_phase with
               | Some alt_phase =>
                   '(alt_result, campaign) ←
                     _execute_phase p client alt_phase target campaign;
                   mret (append_phase (Executed alt_result) campaign)
               | None => mret campaign
               end
             else mret campaign
           else mret campaign) : Sim Campaign;
        campaign_loop p client target auto_execute rest campaign
      else
        campaign_loop p client target auto_execute rest
          (append_phase (Planned phase) campaign)
  end.

(** [sum(1 for p in phases if ...)]. *)
Definition count_phases (f : PhaseEntry -> bool) (l : list PhaseEntry) : Z :=
  Z.of_nat (length (List.filter f l)).

(** The points of the achieved objectives, accumulated in source order. *)
Definition objective_points (o : Objectives) : Z :=
  let risk_score := 0 in
  let risk_score := if initial_access o then risk_score + 20 else risk_score in
  let risk_score := if persistence o then risk_score + 25 else risk_score in
  let risk_score := if data_theft o then risk_score + 30 else risk_score in
  let risk_score := if lateral_movement o then risk_score + 25 else risk_score in
  risk_score.

(** [risk_score *= (1 - detection_rate * 0.3)] followed by
    [min(int(risk_score), 100)]. *)
Definition discounted_risk (o : Objectives) (detection_rate : float) : result Z :=
  let risk_score :=
    (float_of_int (objective_points o) * (1 - detection_rate * 0.3))%float in
  n ← int_of_float risk_score;
  mret (Z.min n 100).

(** Success of an entry, for which [p['tactic']] is then read. *)
Definition successful_lateral_movement (p : PhaseEntry) : bool :=
  match p with
  | Planned _ => false
  | Executed r =>
      bool_decide (result_status r = SUCCESS) &&
      contains "lateral-movement" (result_tactic r)
  end.

(** The [objectives] dictionary of [_calculate_campaign_metrics]. *)
Definition achieved_objectives (c : Campaign) : Objectives :=
  {| initial_access := str_in "initial_access" (objectives_completed c);
     persistence := str_in "persistence_established" (objectives_completed c);
     data_theft := str_in "data_exfiltrated" (objectives_completed c);
     lateral_movement := existsb successful_lateral_movement (phases c) |}.

Definition _calculate_campaign_metrics (c : Campaign) : result Campaign :=
  let total_phases := Z.of_nat (length (phases c)) in
  let successful_phases :=
    count_phases (fun p => bool_decide (entry_status p = SUCCESS)) (phases c) in
  let success_rate :=
    if (0 <? total_phases)%Z then true_div successful_phases total_phases
    else 0%float in
  let detected_phases := count_phases entry_detected (phases c) in
  let detection_rate :=
    if (0 <? total_phases)%Z then true_div detected_phases total_phases
    else 0%float in
  let objectives := achieved_objectives c in
  risk ← discounted_risk objectives detection_rate;
  mret (set_metrics success_rate detection_rate objectives risk c).

Definition new_campaign (persona_dict : PersonaDict) (target scenario : string)
    (max_duration_hours : Z) : Campaign :=
  {| campaign_persona := persona_dict; campaign_target := target;
     campaign_scenario := scenario; max_duration_hours := max_duration_hours;
     campaign_status := "active"; phases := []; techniques_used := [];
     objectives_completed := []; detection_events := [];
     data_exfiltrated := 0; attack_plan := [];
     success_rate := None; detection_rate := None;
     objectives_achieved := None; risk_score := None |}.

(** [execute_attack_campaign]: the finalized campaign is returned with the
    agent, whose current campaign and history hold it. When the call
    raises, the state it leaves is not modelled. *)
Definition execute_attack_campaign (self : RedTeamAgent) (target scenario : string)
    (max_duration_hours : Z) (auto_execute : bool)
    : Sim (Campaign * RedTeamAgent) :=
  match persona self with
  | None => lift (Raise (ValueError "No persona set. Use set_persona() first."))
  | Some p =>
      persona_dict ← lift (to_dict p);
      let campaign := new_campaign persona_dict target scenario max_duration_hours in
      plan ← _generate_persona_attack_plan p scenario;
      let campaign := set_attack_plan plan campaign in
      campaign ←
        campaign_loop p (agent_mitre_client self) target auto_execute plan campaign;
      let campaign := set_status "completed" campaign in
      campaign ← lift (_calculate_campaign_metrics campaign);
      mret (campaign,
            {| agent_mitre_client := agent_mitre_client self;
               persona := persona self;
               attack_history := attack_history self ++ [campaign];
               current_campaign := Some campaign |})
  end.

(** *** Outcome probabilities *)

(** The success probability as the specification words it. *)
Definition spec_success_probability (base_rate : float)
    (level : SophisticationLevel) (tactic : string) : float :=
  let multiplier :=
    match level with
    | LOW => 0.8 | MEDIUM => 0.9 | HIGH => 1.0 | ADVANCED => 1.1
    end%float in
  let product := (base_rate * multiplier)%float in
  let product :=
    if bool_decide (tactic = "privilege-escalation" ∨
                    tactic = "defense-evasion" ∨ tactic = "persistence")
    then (product * 0.85)%float else product in
  if (0.95 <? product)%float then 0.95%float else product.

(** The detection probability as the specification words it. *)
Definition spec_detection_probability (stealth : StealthLevel)
    (tactic : string) (in_stealth_mode : bool) : float :=
  let d := 0.3%float in
  let d :=
    match stealth with
    | STEALTHY => (d * 0.5)%float
    | NOISY => (d * 1.5)%float
    | BALANCED => d
    end in
  let d :=
    if bool_decide (tactic = "impact" ∨ tactic = "exfiltration" ∨
                    tactic = "lateral-movement")
    then (d * 1.3)%float else d in
  let d := if in_stealth_mode then (d * 0.6)%float else d in
  if (0.9 <? d)%float then 0.9%float else d.

Lemma str_in_three x a b c :
  str_in x [a; b; c] = bool_decide (x = a ∨ x = b ∨ x = c).
Proof.
  unfold str_in. apply bool_decide_ext.
  rewrite !elem_of_cons, elem_of_nil. tauto.
Qed.

Lemma success_probability_spec p phase :
  _calculate_success_probability p phase =
  spec_success_probability (technique_success_rate p)
    (sophistication_level p) (tactic phase).
Proof.
  unfold _calculate_success_probability, spec_success_probability,
    difficult_tactics, min_float.
  rewrite str_in_three. by destruct (sophistication_level p).
Qed.

Lemma detection_probability_spec p phase :
  _calculate_detection_probability p phase =
  spec_detection_probability (stealth_preference p) (tactic phase)
    (stealth_mode phase).
Proof.
  unfold _calculate_detection_probability, spec_detection_probability,
    high_visibility, min_float.
  rewrite str_in_three. by destruct (stealth_preference p).
Qed.

Lemma success_probability_in_unit p phase :
  in_unit (technique_success_rate p) →
  in_unit (_calculate_success_probability p phase).
Proof.
  intros [Hrate _]. apply leb_zero_nonneg in Hrate.
  unfold _calculate_success_probability.
  assert (Hmod : nonneg (Prim2SF (technique_success_rate p *
                   sophistication_modifier (sophistication_level p))%float)).
  { destruct (sophistication_level p);
      (eapply mul_nonneg; [reflexivity|exact Hrate]). }
  destruct (str_in (tactic phase) difficult_tactics).
  - eapply (min_float_in_unit _ 0.95); [reflexivity|done|].
    eapply mul_nonneg; [reflexivity|exact Hmod].
  - by eapply (min_float_in_unit _ 0.95); [reflexivity|done|].
Qed.

Lemma detection_probability_in_unit p phase :
  in_unit (_calculate_detection_probability p phase).
Proof.
  unfold _calculate_detection_probability, in_unit.
  destruct (stealth_preference p), (str_in (tactic phase) high_visibility),
    (stealth_mode phase); by vm_compute.
Qed.

(** C3. For a persona whose base success rate lies in [[0, 1]] and any
    phase, the success probability is the base rate times the
    sophistication multiplier (0.8, 0.9, 1.0, 1.1), times 0.85 for the
    three difficult tactics, capped at 0.95; the detection probability is
    0.3, halved for a stealthy persona or multiplied by 1.5 for a noisy
    one, by 1.3 for the three high-visibility tactics and by 0.6 in
    stealth mode, capped at 0.9; and both lie in [[0, 1]], in binary64
    arithmetic. *)
Theorem success_and_detection_probabilities
    (p : AttackerPersona) (phase : Phase) :
  in_unit (technique_success_rate p) →
  _calculate_success_probability p phase =
    spec_success_probability (technique_success_rate p)
      (sophistication_level p) (tactic phase) ∧
  _calculate_detection_probability p phase =
    spec_detection_probability (stealth_preference p) (tactic phase)
      (stealth_mode phase) ∧
  in_unit (_calculate_success_probability p phase) ∧
  in_unit (_calculate_detection_probability p phase).
Proof.
  intros Hrate. split; [apply success_probability_spec|].
  split; [apply detection_probability_spec|].
  split; [by apply success_probability_in_unit|].
  apply detection_probability_in_unit.
Qed.

(** *** Campaign metrics *)

(** The risk score as the specification words it: the points of the
    achieved objectives, discounted by the detection rate, truncated and
    clamped at 100. *)
Definition spec_risk_score (o : Objectives) (detection_rate : float) : result Z :=
  let points :=
    (if initial_access o then 20 else 0) + (if persistence o then 25 else 0) +
    (if data_theft o then 30 else 0) + (if lateral_movement o then 25 else 0) in
  n ← int_of_float (float_of_int points * (1 - detection_rate * 0.3));
  mret (Z.min n 100).

(** The detection rate as the specification words it: the fraction of the
    phases flagged detected. *)
Definition spec_detection_rate (l : list PhaseEntry) : float :=
  if (0 <? Z.of_nat (length l))%Z
  then true_div (count_phases entry_detected l) (Z.of_nat (length l))
  else 0%float.

Lemma objective_points_spec o :
  objective_points o =
  (if initial_access o then 20 else 0) + (if persistence o then 25 else 0) +
  (if data_theft o then 30 else 0) + (if lateral_movement o then 25 else 0).
Proof.
  unfold objective_points.
  by destruct (initial_access o), (persistence o), (data_theft o),
    (lateral_movement o).
Qed.

Lemma objective_points_range o : 0 <= objective_points o <= 100.
Proof.
  rewrite objective_points_spec.
  destruct (initial_access o), (persistence o), (data_theft o),
    (lateral_movement o); lia.
Qed.

Lemma discounted_risk_spec o dr : discounted_risk o dr = spec_risk_score o dr.
Proof. unfold discounted_risk, spec_risk_score. by rewrite objective_points_spec. Qed.

(** The risk score is defined and in range for any detection rate up to 2. *)
Lemma discounted_risk_range o dr :
  within 1 dr → ∃ n, discounted_risk o dr = Ok n ∧ 0 <= n <= 100.
Proof.
  intros Hdr. unfold discounted_risk.
  assert (H1 : within 0 (dr * 0.3)%float).
  { apply (mul_within_below 1 (-1)); [done|float_const|lia]. }
  apply one_sub_within in H1.
  assert (H2 : below 8 (float_of_int (objective_points o))).
  { apply (within_below 7), float_of_int_within; [|lia].
    pose proof (objective_points_range o). change (2 ^ 7) with 128. lia. }
  pose proof (mul_below_within 8 0 _ _ H2 H1 ltac:(lia)) as H3.
  apply int_of_float_within in H3 as (n & -> & Hn); [|lia].
  exists (Z.min n 100). split; [done|]. lia.
Qed.

Lemma count_phases_range f l : 0 <= count_phases f l <= Z.of_nat (length l).
Proof.
  unfold count_phases. pose proof (List.filter_length_le f l). lia.
Qed.

Lemma spec_detection_rate_within l :
  Z.of_nat (length l) < 2 ^ 53 → within 1 (spec_detection_rate l).
Proof.
  intros Hlen. unfold spec_detection_rate.
  destruct (0 <? Z.of_nat (length l)) eqn:Hpos.
  - apply Z.ltb_lt in Hpos. apply true_div_within; [|lia].
    apply count_phases_range.
  - unfold within. by vm_compute.
Qed.

Lemma calculate_campaign_metrics_total c :
  Z.of_nat (length (phases c)) < 2 ^ 53 →
  ∃ c' n, _calculate_campaign_metrics c = Ok c' ∧
          detection_rate c' = Some (spec_detection_rate (phases c)) ∧
          risk_score c' = Some n ∧ 0 <= n <= 100 ∧
          objectives_achieved c' = Some (achieved_objectives c) ∧
          spec_risk_score (achieved_objectives c)
            (spec_detection_rate (phases c)) = Ok n ∧
          phases c' = phases c ∧ campaign_status c' = campaign_status c ∧
          techniques_used c' = techniques_used c ∧
          objectives_completed c' = objectives_completed c ∧
          detection_events c' = detection_events c ∧
          data_exfiltrated c' = data_exfiltrated c.
Proof.
  intros Hlen. unfold _calculate_campaign_metrics.
  fold (spec_detection_rate (phases c)).
  destruct (discounted_risk_range (achieved_objectives c)
              (spec_detection_rate (phases c)))
    as (n & Hrisk & Hn); [by apply spec_detection_rate_within|].
  rewrite Hrisk. eexists _, n. split; [done|]. simpl.
  repeat split; try done; try lia.
  by rewrite <- discounted_risk_spec.
Qed.

(** C4. Finalizing a campaign (of fewer than 2^53 phases) sets the risk
    score to the points of the achieved objectives (20, 25, 30, 25),
    multiplied by [1 - detection_rate * 0.3] where the detection rate is
    the fraction of phases flagged detected, truncated to an integer and
    clamped at 100, and that score lies in [[0, 100]]; and for any
    objectives and any detection rate in [[0, 1]] the formula is defined
    and its value lies in [[0, 100]]. *)
Theorem risk_score_formula_and_range :
  (∀ c, Z.of_nat (length (phases c)) < 2 ^ 53 →
     ∃ c' n,
       _calculate_campaign_metrics c = Ok c' ∧
       detection_rate c' = Some (spec_detection_rate (phases c)) ∧
       objectives_achieved c' = Some (achieved_objectives c) ∧
       risk_score c' = Some n ∧
       spec_risk_score (achieved_objectives c)
         (spec_detection_rate (phases c)) = Ok n ∧
       0 <= n <= 100) ∧
  (∀ o dr, in_unit dr → ∃ n, spec_risk_score o dr = Ok n ∧ 0 <= n <= 100).
Proof.
  split.
  - intros c Hlen.
    destruct (calculate_campaign_metrics_total c Hlen)
      as (c' & n & Hc & Hdr & Hrisk & Hn & Ho & Hspec & _).
    by exists c', n.
  - intros o dr Hdr. rewrite <- discounted_risk_spec.
    apply discounted_risk_range.
    apply (within_weaken 0); [by apply in_unit_within|lia].
Qed.

(** *** Running to completion *)

(** [m] returns, from every state of the generator, a value satisfying [Q]. *)
Definition returns {A} (m : Sim A) (Q : A → Prop) : Prop :=
  ∀ rng, ∃ a rng', m rng = Ok (a, rng') ∧ Q a.

Lemma returns_ret {A} (a : A) (Q : A → Prop) : Q a → returns (mret a) Q.
Proof. intros HQ rng. by exists a, rng. Qed.

Lemma returns_bind {A B} (m : Sim A) (f : A → Sim B) (P : A → Prop)
    (Q : B → Prop) :
  returns m P → (∀ a, P a → returns (f a) Q) → returns (m ≫= f) Q.
Proof.
  intros Hm Hf rng. destruct (Hm rng) as (a & rng1 & Hrun & HP).
  destruct (Hf a HP rng1) as (b & rng2 & Hrun' & HQ).
  exists b, rng2. split; [|done].
  unfold mbind, sim_bind. by rewrite Hrun.
Qed.

Lemma returns_draw {A} (f : Rng → A * Rng) (Q : A → Prop) :
  (∀ rng, Q (f rng).1) → returns (draw f) Q.
Proof.
  intros HQ rng. exists (f rng).1, (f rng).2. split; [|done].
  unfold draw. by destruct (f rng).
Qed.

Lemma returns_lift {A} (x : result A) (a : A) (Q : A → Prop) :
  x = Ok a → Q a → returns (lift x) Q.
Proof. intros -> HQ rng. by exists a, rng. Qed.

Lemma returns_weaken {A} (m : Sim A) (P Q : A → Prop) :
  returns m P → (∀ a, P a → Q a) → returns m Q.
Proof.
  intros Hm HPQ rng. destruct (Hm rng) as (a & rng' & Hrun & HP).
  exists a, rng'. split; [done|]. by apply HPQ.
Qed.

Lemma randint_range a b rng : a <= b → a <= (randint a b rng).1 <= b.
Proof.
  intros Hab. unfold randint.
  pose proof (randbelow_lt (Z.to_nat (b - a + 1)) rng ltac:(lia)) as Hlt.
  destruct (randbelow (Z.to_nat (b - a + 1)) rng) as [k rng']. simpl in *. lia.
Qed.

Lemma random_within rng : within 1 (random rng).1.
Proof.
  unfold random. destruct (next rng) as [k rng']. simpl.
  apply (mul_within_below 53 (-52)); [|float_const|lia].
  apply float_of_int_within; [|lia]. apply Z.mod_pos_bound. lia.
Qed.

Lemma uniform_within rng : within 3 (uniform 1.5 2.5 rng).1.
Proof.
  unfold uniform. pose proof (random_within rng) as Hx.
  destruct (random rng) as [x rng']. simpl in *.
  apply (add_below_within 2); [float_const| |lia].
  apply (mul_below_within 1 1); [float_const|done|lia].
Qed.

Lemma calculate_phase_delay_returns p :
  returns (_calculate_phase_delay p) (λ _, True).
Proof.
  unfold _calculate_phase_delay.
  eapply returns_bind;
    [apply (returns_draw _ (λ x, 60 <= x <= 240));
     intros rng; by apply randint_range|].
  intros slow Hslow. cbv beta in Hslow.
  eapply returns_bind;
    [apply (returns_draw _ (λ x, 15 <= x <= 60));
     intros rng; by apply randint_range|].
  intros moderate Hmoderate. cbv beta in Hmoderate.
  eapply returns_bind;
    [apply (returns_draw _ (λ x, 1 <= x <= 15));
     intros rng; by apply randint_range|].
  intros fast Hfast. cbv beta in Hfast.
  eapply returns_bind;
    [apply (returns_draw _ (λ x, 0 <= x <= 2));
     intros rng; by apply randint_range|].
  intros aggressive Haggressive. cbv beta in Haggressive.
  set (delay := match attack_speed p with
                | SLOW => slow | MODERATE => moderate | FAST => fast
                | AGGRESSIVE => aggressive
                end).
  assert (Hdelay : 0 <= delay < 2 ^ 8).
  { change (2 ^ 8) with 256. subst delay. destruct (attack_speed p); lia. }
  destruct (stealth_preference p); try by apply returns_ret.
  eapply returns_bind; [apply returns_draw, uniform_within|].
  intros u Hu. simpl in Hu.
  assert (Hprod : within 12 (float_of_int delay * u)).
  { apply (mul_below_within 9 3); [|done|lia].
    apply (within_below 8), float_of_int_within; [done|lia]. }
  apply int_of_float_within in Hprod as (n & Hn & _); [|lia].
  by eapply returns_lift.
Qed.

Lemma get_dwell_time_total p : ∃ dwell, get_dwell_time p = Ok dwell.
Proof.
  unfold get_dwell_time.
  destruct (sophistication_level p), (stealth_preference p);
    eexists; by vm_compute.
Qed.

Lemma to_dict_total p : ∃ d, to_dict p = Ok d.
Proof.
  unfold to_dict. destruct (get_dwell_time_total p) as [dwell ->].
  by eexists.
Qed.

Lemma plan_loop_returns p attack_chain plan :
  returns (plan_loop p attack_chain plan)
    (λ result, length result = (length plan + length attack_chain)%nat).
Proof.
  revert plan. induction attack_chain as [|phase rest IH]; intros plan; simpl.
  - apply returns_ret. lia.
  - eapply returns_bind; [apply calculate_phase_delay_returns|].
    intros delay _.
    eapply returns_bind; [by apply (returns_draw _ (λ _, True))|].
    intros stealth _.
    eapply returns_weaken; [apply IH|].
    intros result ->. rewrite length_app. simpl. lia.
Qed.

Lemma build_chain_length p order chain rng :
  (length (build_chain p order chain rng).1 <= length chain + length order)%nat.
Proof.
  revert chain rng. induction order as [|tactic rest IH]; intros chain rng;
    simpl; [lia|].
  destruct (negb (str_in tactic (tactics p))).
  - etrans; [apply IH|]. lia.
  - destruct (select_technique_for_tactic p tactic None rng) as [[t|] rng'];
      [destruct (truthy t)|]; (etrans; [apply IH|]);
      rewrite ?length_app; simpl; lia.
Qed.

Lemma tactic_order_length p scenario :
  (length (tactic_order p scenario) <= 13 `max` length (tactics p))%nat.
Proof.
  unfold tactic_order. repeat case_bool_decide; simpl; lia.
Qed.

Lemma generate_persona_attack_plan_returns p scenario :
  returns (_generate_persona_attack_plan p scenario)
    (λ plan, (length plan <= 13 `max` length (tactics p))%nat).
Proof.
  unfold _generate_persona_attack_plan.
  eapply returns_bind.
  - apply (returns_draw _
             (λ chain, (length chain <= 13 `max` length (tactics p))%nat)).
    intros rng. unfold get_attack_chain.
    etrans; [apply build_chain_length|]. simpl.
    apply tactic_order_length.
  - intros chain Hchain. eapply returns_weaken; [apply plan_loop_returns|].
    intros plan Hplan. cbn [length] in Hplan. cbv beta in *. lia.
Qed.

(** A step whose result is not constrained. *)
Ltac sim_draw :=
  eapply returns_bind; [by apply (returns_draw _ (λ _, True))|intros ? _].

Lemma generate_attack_artifacts_returns phase :
  returns (_generate_attack_artifacts phase) (λ _, True).
Proof.
  unfold _generate_attack_artifacts.
  repeat case_bool_decide; repeat sim_draw; by apply returns_ret.
Qed.

(** Every technique of the persona has a string as external id, or no
    external id at all: none has the key with the value [None]. *)
Definition string_ids (p : AttackerPersona) : Prop :=
  Forall (λ t, o_external_id t ≠ Some None) (techniques p).

Lemma returns_and {A} (m : Sim A) (P Q : A → Prop) :
  returns m P → returns m Q → returns m (λ a, P a ∧ Q a).
Proof.
  intros HP HQ rng. destruct (HP rng) as (a & rng1 & Hrun & Ha).
  destruct (HQ rng) as (b & rng2 & Hrun' & Hb).
  rewrite Hrun in Hrun'. injection Hrun' as <- <-. by exists a, rng1.
Qed.

Lemma string_id_is_Some t :
  o_external_id t ≠ Some None → is_Some (get_or (o_external_id t) (Some "")).
Proof. by destruct (o_external_id t) as [[id|]|]; [eexists| |eexists]. Qed.

(** A selected technique is one of the persona's. *)
Lemma select_technique_member self tactic exclude rng t :
  (select_technique_for_tactic self tactic exclude rng).1 = Some t →
  t ∈ techniques self.
Proof.
  unfold select_technique_for_tactic.
  pose proof (collect_matching_spec (techniques self) tactic (get_or exclude []) [])
    as Hspec.
  destruct (collect_matching (techniques self) tactic (get_or exclude []) [])
    as [|first others]; [done|].
  intros Ht.
  assert (Hin : t ∈ first :: others).
  { destruct (sophistication_level self);
      [injection Ht as <-; left ..|].
    pose proof (choice_elem first others rng) as Hc.
    destruct (choice first others rng) as [t' r']. simpl in Ht, Hc.
    by injection Ht as <-. }
  by apply Hspec in Hin as [Hin%elem_of_nil|[Hin _]].
Qed.

(** The phases planned for a persona with string ids have string ids. *)
Lemma plan_loop_ids p attack_chain plan :
  Forall (λ e, is_Some (ce_technique_id e)) attack_chain →
  Forall (λ phase, is_Some (technique_id phase)) plan →
  returns (plan_loop p attack_chain plan)
    (Forall (λ phase, is_Some (technique_id phase))).
Proof.
  revert plan. induction attack_chain as [|entry rest IH];
    intros plan Hchain Hplan; simpl.
  - by apply returns_ret.
  - apply Forall_cons in Hchain as [Hentry Hrest].
    eapply returns_bind; [apply calculate_phase_delay_returns|].
    intros delay _.
    eapply returns_bind; [by apply (returns_draw _ (λ _, True))|].
    intros stealth _. apply IH; [done|].
    apply Forall_app. split; [done|]. by constructor.
Qed.

Lemma generate_persona_attack_plan_ids p scenario :
  string_ids p →
  returns (_generate_persona_attack_plan p scenario)
    (Forall (λ phase, is_Some (technique_id phase))).
Proof.
  intros Hids. unfold _generate_persona_attack_plan.
  eapply returns_bind.
  - apply (returns_draw _ (Forall (λ e, is_Some (ce_technique_id e)))).
    intros rng. apply Forall_forall. intros e He.
    apply build_chain_entries in He as [He%elem_of_nil|[_ He]]; [done|].
    destruct He as (_ & t & Ht & _ & ->). cbn [chain_entry ce_technique_id].
    apply string_id_is_Some. unfold string_ids in Hids.
    rewrite Forall_forall in Hids. by apply Hids.
  - intros chain Hchain. by apply plan_loop_ids.
Qed.

(** A phase whose technique id is [None] cannot be executed: the indicators
    raise after the two outcome draws and the draws of the artifacts, and
    the campaign is not touched. *)
Lemma execute_phase_type_error p client phase target c rng :
  technique_id phase = None →
  _execute_phase p client phase target c rng
  = Raise (TypeError "argument of type 'NoneType' is not iterable").
Proof.
  intros Hid. unfold _execute_phase, _generate_indicators. rewrite Hid.
  unfold mbind, sim_bind, draw, lift.
  destruct (random rng) as [x rng1]. destruct (random rng1) as [y rng2].
  destruct (generate_attack_artifacts_returns phase rng2)
    as (generated & rng3 & -> & _).
  done.
Qed.

(** [_execute_phase] returns when the technique id of the phase is a
    string, and leaves [phases] and the status of the campaign as they
    are. *)
Lemma execute_phase_returns p client phase target c :
  is_Some (technique_id phase) →
  returns (_execute_phase p client phase target c)
    (λ rc, phases rc.2 = phases c ∧ campaign_status rc.2 = campaign_status c).
Proof.
  intros [id Hid].
  unfold _execute_phase. sim_draw. sim_draw.
  eapply returns_bind; [apply generate_attack_artifacts_returns|].
  intros generated _.
  eapply returns_bind.
  { unfold _generate_indicators. rewrite Hid.
    by eapply (returns_lift _ _ (λ _, True)). }
  intros found _.
  eapply (returns_bind _ _
            (λ sc, phases sc.2 = phases c ∧
                   campaign_status sc.2 = campaign_status c)).
  { destruct (_ <? _calculate_detection_probability p phase)%float.
    - sim_draw. by apply returns_ret.
    - by apply returns_ret. }
  intros [status c1] [Hphases Hstatus]. simpl in Hphases, Hstatus.
  eapply (returns_bind _ _
            (λ c2, phases c2 = phases c ∧
                   campaign_status c2 = campaign_status c)).
  { case_bool_decide; [|by apply returns_ret].
    repeat case_bool_decide; try by apply returns_ret.
    sim_draw. by apply returns_ret. }
  intros c2 Hc2. by apply returns_ret.
Qed.

Lemma get_alternative_technique_returns p original_phase :
  returns (_get_alternative_technique p original_phase) (λ _, True).
Proof.
  unfold _get_alternative_technique.
  eapply returns_bind; [by apply (returns_draw _ (λ _, True))|].
  intros [alt|] _; [|by apply returns_ret].
  destruct (truthy alt); [|by apply returns_ret].
  eapply returns_bind; [apply calculate_phase_delay_returns|].
  intros delay _. by apply returns_ret.
Qed.

(** The alternative phase of a persona with string ids has a string id. *)
Lemma get_alternative_technique_ids p original_phase :
  string_ids p →
  returns (_get_alternative_technique p original_phase)
    (λ alternative, ∀ phase, alternative = Some phase →
                             is_Some (technique_id phase)).
Proof.
  intros Hids. unfold _get_alternative_technique.
  eapply (returns_bind _ _ (λ alt, ∀ t, alt = Some t → t ∈ techniques p)).
  { apply returns_draw. intros rng t. apply select_technique_member. }
  intros [alt|] Halt; [|by apply returns_ret].
  destruct (truthy alt); [|by apply returns_ret].
  eapply returns_bind; [apply calculate_phase_delay_returns|].
  intros delay _. apply returns_ret. intros phase [= <-].
  cbn [technique_id]. apply string_id_is_Some.
  unfold string_ids in Hids. rewrite Forall_forall in Hids.
  by apply Hids, Halt.
Qed.

(** The campaign loop returns when it only plans, and when it executes
    phases whose technique ids are strings for a persona with string ids:
    a tactic without technique was skipped when the plan was built, and a
    failed or blocked phase without alternative technique adds no entry.
    It appends at most two entries per planned phase. *)
Lemma campaign_loop_returns p client target auto_execute plan c :
  (auto_execute = true →
   string_ids p ∧ Forall (λ phase, is_Some (technique_id phase)) plan) →
  returns (campaign_loop p client target auto_execute plan c)
    (λ c', (length (phases c') <= length (phases c) + 2 * length plan)%nat ∧
           campaign_status c' = campaign_status c).
Proof.
  intros Hids. revert c.
  induction plan as [|phase rest IH]; intros c; simpl.
  { apply returns_ret. split; [lia|done]. }
  assert (Hrest : auto_execute = true →
            string_ids p ∧ Forall (λ phase, is_Some (technique_id phase)) rest).
  { intros Hauto. destruct (Hids Hauto) as [Hp Hplan].
    by apply Forall_cons in Hplan as [_ Hplan]. }
  specialize (IH Hrest).
  destruct auto_execute.
  - destruct (Hids eq_refl) as [Hp [Hphase _]%Forall_cons].
    eapply returns_bind; [by apply execute_phase_returns|].
    intros [phase_result c1] [Hphases Hstatus]. simpl in Hphases, Hstatus.
    eapply (returns_bind _ _
              (λ c2, (length (phases c2) <= length (phases c) + 2)%nat ∧
                     campaign_status c2 = campaign_status c)).
    { assert (Hone : (length (phases (append_phase (Executed phase_result) c1))
                      <= length (phases c) + 2)%nat ∧
                     campaign_status (append_phase (Executed phase_result) c1)
                       = campaign_status c).
      { simpl. rewrite length_app, Hphases. simpl. split; [lia|done]. }
      case_bool_decide; [|by apply returns_ret].
      eapply returns_bind; [by apply (returns_draw _ (λ _, True))|].
      intros stealth _. destruct stealth; [|by apply returns_ret].
      eapply returns_bind; [by apply get_alternative_technique_ids|].
      intros [alt_phase|] Halt; [|by apply returns_ret].
      eapply returns_bind; [by apply execute_phase_returns, Halt|].
      intros [alt_result c2] [Hphases2 Hstatus2].
      simpl in Hphases2, Hstatus2.
      apply returns_ret. simpl.
      rewrite length_app, Hphases2, length_app, Hphases. simpl.
      split; [lia|]. by rewrite Hstatus2. }
    intros c2 [Hlen Hst]. eapply returns_weaken; [apply IH|].
    intros c' [Hlen' Hst']. split; [lia|congruence].
  - eapply returns_weaken; [apply IH|].
    intros c' [Hlen' Hst']. simpl in Hlen', Hst'.
    rewrite length_app in Hlen'. simpl in Hlen'. split; [lia|done].
Qed.

(** A persona small enough for the phase counts to convert exactly to
    floats: the campaign then has fewer than [2^53] phases. *)
Definition representable (p : AttackerPersona) : Prop :=
  Z.of_nat (length (tactics p)) < 2 ^ 52.

Lemma execute_attack_campaign_returns self p target scenario hours auto_execute :
  persona self = Some p → representable p →
  (auto_execute = true → string_ids p) →
  returns (execute_attack_campaign self target scenario hours auto_execute)
    (λ cs, campaign_status cs.1 = "completed" ∧
           current_campaign cs.2 = Some cs.1 ∧
           attack_history cs.2 = attack_history self ++ [cs.1] ∧
           is_Some (risk_score cs.1)).
Proof.
  intros Hp Hsize Hids. unfold execute_attack_campaign. rewrite Hp.
  destruct (to_dict_total p) as [d Hd].
  eapply returns_bind; [by eapply (returns_lift _ _ (λ _, True))|].
  intros persona_dict _.
  eapply (returns_bind _ _
            (λ plan, (length plan <= 13 `max` length (tactics p))%nat ∧
                     (auto_execute = true →
                      Forall (λ phase, is_Some (technique_id phase)) plan))).
  { destruct auto_execute.
    - apply returns_and; [apply generate_persona_attack_plan_returns|].
      eapply returns_weaken;
        [by apply generate_persona_attack_plan_ids, Hids|done].
    - eapply returns_weaken; [apply generate_persona_attack_plan_returns|].
      by intros plan Hplan. }
  intros plan [Hplan Hplan_ids]. cbv beta in Hplan.
  eapply returns_bind.
  { apply campaign_loop_returns. intros Hauto. split; [by apply Hids|].
    by apply Hplan_ids. }
  intros c [Hlen Hstatus]. simpl in Hlen.
  destruct (calculate_campaign_metrics_total (set_status "completed" c))
    as (c' & n & Hc' & _ & Hrisk & _ & _ & _ & _ & Hst & _).
  { simpl. unfold representable in Hsize.
    change (2 ^ 53) with (2 * 2 ^ 52). change (2 ^ 52) with 4503599627370496 in *.
    lia. }
  eapply returns_bind; [by eapply (returns_lift _ _ (λ x, x = c'))|].
  intros ? ->. apply returns_ret. simpl.
  split; [by rewrite Hst|]. split; [done|]. split; [done|]. by rewrite Hrisk.
Qed.

(** [execute_attack_campaign] raises [ValueError] when no persona is set.
    With a persona set (small enough for the phase counts to be exact
    floats) it returns the completed campaign record and stores it as the
    current campaign and in the history when it only plans, and when it
    executes for a persona whose technique ids are strings: tactics without
    technique and failed phases without alternative raise nothing. *)
Lemma execute_attack_campaign_completes
    (self : RedTeamAgent) (target scenario : string) (hours : Z)
    (auto_execute : bool) (rng : Rng) :
  (persona self = None →
   execute_attack_campaign self target scenario hours auto_execute rng
     = Raise (ValueError "No persona set. Use set_persona() first.")) ∧
  (∀ p, persona self = Some p → representable p →
     (auto_execute = true → string_ids p) →
     ∃ c self' rng',
       execute_attack_campaign self target scenario hours auto_execute rng
         = Ok (c, self', rng') ∧
       campaign_status c = "completed" ∧
       current_campaign self' = Some c ∧
       attack_history self' = attack_history self ++ [c]).
Proof.
  split.
  - intros Hp. unfold execute_attack_campaign. by rewrite Hp.
  - intros p Hp Hsize Hids.
    destruct (execute_attack_campaign_returns self p target scenario hours
                auto_execute Hp Hsize Hids rng)
      as ([c self'] & rng' & Hrun & Hst & Hcur & Hhist & _).
    by exists c, self', rng'.
Qed.

(** *** Planning without execution *)

(** [0 / t] is the float zero. *)
Lemma true_div_zero t : 0 < t < 2 ^ 53 → true_div 0 t = 0%float.
Proof.
  intros Ht. apply Prim2SF_inj. unfold true_div.
  assert (2 ^ 53 < 2 ^ 63) by (by apply Z.pow_lt_mono_r).
  rewrite div_spec, (float_of_int_spec t) by lia.
  destruct (binary_normalize_int t Ht) as (m & -> & _).
  by vm_compute.
Qed.

Lemma set_phases_same c : set_phases (phases c) c = c.
Proof. by destruct c. Qed.

Lemma set_phases_twice l l' c : set_phases l (set_phases l' c) = set_phases l c.
Proof. done. Qed.

(** Without [auto_execute] the loop appends one planned entry per phase of
    the plan and draws no random number. *)
Lemma campaign_loop_plan_only p client target plan c rng :
  campaign_loop p client target false plan c rng
  = Ok (set_phases (phases c ++ map Planned plan) c, rng).
Proof.
  revert c. induction plan as [|phase rest IH]; intros c.
  - cbn [campaign_loop map]. by rewrite app_nil_r, set_phases_same.
  - cbn [campaign_loop map]. rewrite IH. unfold append_phase.
    rewrite set_phases_twice. cbn [phases set_phases].
    by rewrite <- app_assoc.
Qed.

Lemma count_phases_planned f plan :
  (∀ phase, f (Planned phase) = false) →
  count_phases f (map Planned plan) = 0.
Proof.
  intros Hf. unfold count_phases.
  induction plan as [|phase rest IH]; [done|].
  cbn [map List.filter]. by rewrite Hf.
Qed.

Lemma planned_rate f plan :
  Z.of_nat (length plan) < 2 ^ 53 →
  (∀ phase, f (Planned phase) = false) →
  (if 0 <? Z.of_nat (length (map Planned plan))
   then true_div (count_phases f (map Planned plan))
          (Z.of_nat (length (map Planned plan)))
   else 0%float) = 0%float.
Proof.
  intros Hlen Hf. rewrite length_map.
  destruct (0 <? Z.of_nat (length plan)) eqn:Hpos; [|done].
  apply Z.ltb_lt in Hpos. rewrite count_phases_planned by done.
  apply true_div_zero. lia.
Qed.

(** The objectives dictionary with every entry [False]. *)
Definition no_objectives : Objectives :=
  {| initial_access := false; persistence := false; data_theft := false;
     lateral_movement := false |}.

(** The campaign that [execute_attack_campaign] returns for a plan when
    [auto_execute] is false. *)
Definition planned_campaign (persona_dict : PersonaDict)
    (target scenario : string) (max_duration_hours : Z) (plan : list Phase)
    : Campaign :=
  {| campaign_persona := persona_dict; campaign_target := target;
     campaign_scenario := scenario; max_duration_hours := max_duration_hours;
     campaign_status := "completed"; phases := map Planned plan;
     techniques_used := []; objectives_completed := [];
     detection_events := []; data_exfiltrated := 0; attack_plan := plan;
     success_rate := Some 0%float; detection_rate := Some 0%float;
     objectives_achieved := Some no_objectives; risk_score := Some 0 |}.

Lemma calculate_campaign_metrics_planned d target scenario hours plan :
  Z.of_nat (length plan) < 2 ^ 53 →
  _calculate_campaign_metrics
    (set_status "completed"
       (set_phases (map Planned plan)
          (set_attack_plan plan (new_campaign d target scenario hours))))
  = Ok (planned_campaign d target scenario hours plan).
Proof.
  intros Hlen. unfold _calculate_campaign_metrics.
  cbn [phases set_status set_phases set_attack_plan new_campaign].
  rewrite !planned_rate by done.
  assert (Ho : achieved_objectives
            (set_status "completed"
               (set_phases (map Planned plan)
                  (set_attack_plan plan (new_campaign d target scenario hours))))
          = no_objectives).
  { unfold achieved_objectives, no_objectives. f_equal.
    cbn [phases set_status set_phases set_attack_plan new_campaign].
    clear Hlen. by induction plan. }
  rewrite Ho. by vm_compute.
Qed.

(** C8. With [auto_execute] false and a persona set, the campaign returns
    with one entry per phase of the attack plan, in order, every entry
    carrying the status [PLANNED]; no outcome is produced: detection
    events, techniques used and objectives completed are empty and the
    exfiltrated-data counter is 0; the status is "completed"; and the
    metrics are those of the planned phases: both rates 0, no objective
    achieved, risk score 0. The only random draws are those of the plan
    generation. *)
Theorem plan_only_campaign_has_no_outcomes
    (self : RedTeamAgent) (p : AttackerPersona) (target scenario : string)
    (hours : Z) (rng : Rng) :
  persona self = Some p → representable p →
  ∃ c self' rng',
    execute_attack_campaign self target scenario hours false rng
      = Ok (c, self', rng') ∧
    _generate_persona_attack_plan p scenario rng = Ok (attack_plan c, rng') ∧
    phases c = map Planned (attack_plan c) ∧
    Forall (λ entry, entry_status entry = PLANNED) (phases c) ∧
    detection_events c = [] ∧ techniques_used c = [] ∧
    objectives_completed c = [] ∧ data_exfiltrated c = 0 ∧
    campaign_status c = "completed" ∧
    success_rate c = Some 0%float ∧
    detection_rate c = Some (spec_detection_rate (phases c)) ∧
    detection_rate c = Some 0%float ∧
    objectives_achieved c = Some no_objectives ∧
    risk_score c = Some 0.
Proof.
  intros Hp Hsize.
  destruct (to_dict_total p) as [d Hd].
  destruct (generate_persona_attack_plan_returns p scenario rng)
    as (plan & rng' & Hplan & Hlen).
  assert (Hlen' : Z.of_nat (length plan) < 2 ^ 53).
  { unfold representable in Hsize.
    change (2 ^ 53) with (2 * 2 ^ 52). change (2 ^ 52) with 4503599627370496 in *.
    lia. }
  eexists (planned_campaign d target scenario hours plan), _, rng'.
  split.
  { unfold execute_attack_campaign. rewrite Hp, Hd.
    unfold mbind, sim_bind, lift. rewrite Hplan, campaign_loop_plan_only.
    cbn [phases set_attack_plan new_campaign app].
    by rewrite calculate_campaign_metrics_planned. }
  cbn [planned_campaign attack_plan phases detection_events techniques_used
       objectives_completed data_exfiltrated campaign_status success_rate
       detection_rate objectives_achieved risk_score].
  split; [done|]. split; [done|].
  split; [clear Hplan Hlen Hlen'; induction plan; by constructor|].
  repeat (split; [done|]).
  split; [|done]. unfold spec_detection_rate.
  by rewrite planned_rate.
Qed.

(** *** The agent of the test-suite *)

Definition sample_agent : RedTeamAgent :=
  {| agent_mitre_client := parse_stix_data [];
     persona := Some (sample_persona 3);
     attack_history := []; current_campaign := None |}.

Definition sample_phase : Phase :=
  {| tactic := "persistence"; technique_id := Some "T1547.001";
     technique_name := "Registry Run Keys / Startup Folder";
     phase_description := "Adversaries may achieve persistence...";
     expected_delay_minutes := 30; stealth_mode := true; priority := 8 |}.

Lemma sample_persona_representable : representable (sample_persona 3).
Proof. by vm_compute. Qed.

Lemma success_and_detection_probabilities_witness :
  in_unit (technique_success_rate (sample_persona 3)) ∧
  _calculate_success_probability (sample_persona 3) sample_phase
    = (0.7 * 1.0 * 0.85)%float ∧
  in_unit (_calculate_success_probability (sample_persona 3) sample_phase) ∧
  in_unit (_calculate_detection_probability (sample_persona 3) sample_phase).
Proof.
  assert (H : in_unit (technique_success_rate (sample_persona 3)))
    by (by vm_compute).
  split; [exact H|].
  destruct (success_and_detection_probabilities (sample_persona 3)
              sample_phase H) as (Hs & _ & Hrange).
  split; [|exact Hrange]. rewrite Hs. by vm_compute.
Defined.

Lemma plan_only_campaign_has_no_outcomes_witness :
  representable (sample_persona 3) ∧
  ∃ c,
    (execute_attack_campaign sample_agent "10.0.0.5" "full_chain" 24 false
       (constant_rng 0)) ≫= (λ r, mret r.1.1) = Ok c ∧
    map entry_status (phases c) = [PLANNED; PLANNED] ∧
    detection_events c = [] ∧ risk_score c = Some 0.
Proof.
  assert (H : representable (sample_persona 3)) by (by vm_compute).
  split; [exact H|].
  destruct (plan_only_campaign_has_no_outcomes sample_agent (sample_persona 3)
              "10.0.0.5" "full_chain" 24 (constant_rng 0) eq_refl H)
    as (c & self' & rng' & Hrun & Hplan & Hphases & _ & Hev & _ & _ & _ & _
        & _ & _ & _ & _ & Hrisk).
  exists c. rewrite Hrun. split; [done|]. split; [|done].
  rewrite Hphases. remember (attack_plan c) as plan eqn:Heq. clear Heq.
  vm_compute in Hplan. injection Hplan as <- _.
  reflexivity.
Defined.

(** The two campaign runs of the test-suite on the sample persona. *)
Example test_execute_attack_campaign_planned :
  (execute_attack_campaign sample_agent "10.0.0.5" "full_chain" 24 false
     (constant_rng 0)) ≫= (λ r, mret (map entry_status (phases r.1.1)))
  = Ok [PLANNED; PLANNED].
Proof. by vm_compute. Qed.

Example test_execute_attack_campaign_no_persona :
  execute_attack_campaign
    {| agent_mitre_client := parse_stix_data []; persona := None;
       attack_history := []; current_campaign := None |}
    "10.0.0.5" "full_chain" 24 true (constant_rng 0)
  = Raise (ValueError "No persona set. Use set_persona() first.").
Proof. reflexivity. Qed.

(** test_calculate_campaign_metrics: two successes out of three phases,
    one detection, initial access and data theft achieved. *)
Definition executed (tactic : string) (status : AttackStatus) (detected : bool)
    : PhaseEntry :=
  Executed {| result_tactic := tactic; result_technique_id := Some "";
              result_technique_name := ""; result_target := "";
              result_status := status; result_detected := detected;
              artifacts := []; indicators := [];
              mitigation_suggestions := [] |}.

Example test_calculate_campaign_metrics (c : Campaign) :
  _calculate_campaign_metrics
    (set_objectives_completed ["initial_access"; "data_exfiltrated"]
       (set_phases [executed "initial-access" SUCCESS false;
                    executed "persistence" FAILED true;
                    executed "exfiltration" SUCCESS false] c))
    ≫= (λ c', mret (success_rate c', detection_rate c', risk_score c'))
  = Ok (Some (2 / 3)%float, Some (1 / 3)%float, Some 45).
Proof. by vm_compute. Qed.

(** *** A technique whose reference has no ATT&CK id *)

(** A bundle with one group that uses one attack pattern; the pattern's
    ["mitre-attack"] reference has no [external_id]. *)
Definition unnumbered_pattern : StixObject :=
  {| o_type := Some "attack-pattern"; o_id := Some "attack-pattern--0001";
     o_name := Some "Spearphishing Link"; o_aliases := None;
     o_description := Some "Adversaries may send spearphishing emails...";
     o_external_references :=
       Some [ {| source_name := Some "mitre-attack";
                 ref_external_id := None |} ];
     o_kill_chain_phases :=
       Some [ {| kill_chain_name := Some "mitre-attack";
                 phase_name := Some "initial-access" |} ];
     o_relationship_type := None; o_source_ref := None; o_target_ref := None;
     o_external_id := None |}.

Definition unnumbered_bundle : list StixObject :=
  [ stix_object "intrusion-set" "intrusion-set--0001" "Unnumbered" "G0001" None;
    unnumbered_pattern;
    uses "relationship--0001" "intrusion-set--0001" "attack-pattern--0001" ].

(** The persona of that group with the defaults of the data class: its
    one technique is the client's result for the group. *)
Definition unnumbered_persona : AttackerPersona :=
  {| stix_id := "intrusion-set--0001"; mitre_id := "G0001";
     name := "Unnumbered"; aliases := []; description := "";
     tactics := ["initial-access"];
     techniques :=
       get_techniques_for_group (parse_stix_data unnumbered_bundle)
         "intrusion-set--0001";
     software := [];
     sophistication_level := MEDIUM; stealth_preference := BALANCED;
     attack_speed := MODERATE;
     target_industries := []; target_regions := []; motivations := [];
     preferred_tools := [];
     max_techniques_per_phase := 3;
     technique_success_rate := 0.7;
     detection_sensitivity := 0.5;
     persistence_priority := 0.8;
     data_exfiltration_priority := 0.6 |}.

Definition unnumbered_agent : RedTeamAgent :=
  {| agent_mitre_client := parse_stix_data unnumbered_bundle;
     persona := Some unnumbered_persona;
     attack_history := []; current_campaign := None |}.

(** The client stores the key [external_id] with the value [None], and the
    attack chain carries it as technique id. *)
Example test_unnumbered_technique (rng : Rng) :
  map (λ t, (o_name t, o_external_id t)) (techniques unnumbered_persona)
  = [(Some "Spearphishing Link", Some None)] ∧
  map (λ e, (ce_tactic e, ce_technique_id e))
      (get_attack_chain unnumbered_persona "full_chain" rng).1
  = [("initial-access", None)].
Proof. by vm_compute. Qed.

(** C6. With a persona set, [execute_attack_campaign] does not always run
    to completion: for the persona of a group whose technique has a
    ["mitre-attack"] reference without [external_id], the campaign with
    [auto_execute] raises a [TypeError] when it executes the first phase,
    whatever the random generator gives. *)
Theorem execute_attack_campaign_type_error (rng : Rng) :
  execute_attack_campaign unnumbered_agent "10.0.0.5" "full_chain" 24 true rng
  = Raise (TypeError "argument of type 'NoneType' is not iterable").
Proof.
  unfold execute_attack_campaign. cbn [persona unnumbered_agent].
  destruct (to_dict_total unnumbered_persona) as [d Hd].
  unfold mbind at 1, sim_bind at 1, lift at 1. rewrite Hd.
  unfold _generate_persona_attack_plan.
  unfold mbind at 1, sim_bind at 1, mbind at 1, sim_bind at 1, draw at 1.
  assert (Hchain : ∃ entry,
    get_attack_chain unnumbered_persona "full_chain" rng = ([entry], rng) ∧
    ce_technique_id entry = None).
  { eexists. split; [by vm_compute|done]. }
  destruct Hchain as (entry & -> & Hid).
  cbn [plan_loop app].
  destruct (calculate_phase_delay_returns unnumbered_persona rng)
    as (delay & rng1 & Hdelay & _).
  unfold mbind at 1, sim_bind at 1. rewrite Hdelay.
  unfold mbind at 1, sim_bind at 1, draw at 1.
  destruct (should_use_stealth_technique unnumbered_persona rng1)
    as [stealth rng2].
  unfold mret at 1, sim_ret at 1.
  unfold mbind at 1, sim_bind at 1. cbn [campaign_loop].
  unfold mbind at 1, sim_bind at 1, mbind at 1, sim_bind at 1.
  by rewrite execute_phase_type_error.
Qed.

End Agent.

(** ** threat_intelligence/mitre_stix_client.py: the indexes and the queries *)
Module StixQueries.
Import Py.
Import Stix.

(** *** The indexes built by [_parse_stix_data] *)

Lemma filter_snoc_True {A} (P : A → Prop) `{!∀ x, Decision (P x)} l x :
  P x → filter P (l ++ [x]) = filter P l ++ [x].
Proof. intros HP. rewrite filter_app. f_equal. by rewrite filter_cons_True. Qed.

Lemma filter_snoc_False {A} (P : A → Prop) `{!∀ x, Decision (P x)} l x :
  ¬ P x → filter P (l ++ [x]) = filter P l.
Proof.
  intros HP. rewrite filter_app, filter_cons_False by done. apply app_nil_r.
Qed.

Lemma objects_by_type_parse objects ty :
  get_or (_objects_by_type (parse_stix_data objects) !! ty) []
  = filter (λ o, o_type o = ty) objects.
Proof.
  induction objects as [|obj objects IH] using rev_ind; [done|].
  rewrite parse_stix_data_snoc. cbn [index_object _objects_by_type].
  destruct (decide (o_type obj = ty)) as [<-|Hne].
  - rewrite lookup_insert_eq. cbn [get_or]. rewrite IH.
    by rewrite filter_snoc_True.
  - rewrite lookup_insert_ne by done. rewrite IH.
    by rewrite filter_snoc_False.
Qed.

Lemma objects_by_id_last objects i :
  _objects_by_id (parse_stix_data objects) !! i
  = if decide (i = "") then None
    else last (filter (λ o, o_id o = Some i) objects).
Proof.
  induction objects as [|obj objects IH] using rev_ind.
  { cbn. rewrite lookup_empty. by destruct (decide (i = "")). }
  rewrite parse_stix_data_snoc. cbn [index_object _objects_by_id].
  destruct (o_id obj) as [j|] eqn:Hid.
  - case_bool_decide as Hempty.
    + rewrite IH. destruct (decide (i = "")) as [->|Hi]; [done|].
      rewrite filter_snoc_False; [done|congruence].
    + destruct (decide (j = i)) as [->|Hne].
      * rewrite lookup_insert_eq, decide_False by done.
        rewrite filter_snoc_True by done. by rewrite last_snoc.
      * rewrite lookup_insert_ne, IH by done.
        rewrite filter_snoc_False; [done|congruence].
  - rewrite IH. rewrite filter_snoc_False; [done|congruence].
Qed.

Lemma relationships_filter objects :
  _relationships (parse_stix_data objects)
  = filter (λ o, o_type o = Some "relationship") objects.
Proof.
  induction objects as [|obj objects IH] using rev_ind; [done|].
  rewrite parse_stix_data_snoc. cbn [index_object _relationships].
  rewrite IH. case_bool_decide as Hty.
  - by rewrite filter_snoc_True.
  - by rewrite filter_snoc_False.
Qed.

(** X1. After [_parse_stix_data], looking an id up gives the last object
    of the bundle that carries it (a later object replaces an earlier one
    with the same id), an object without id or with the empty id is never
    indexed, the bucket of a type lists the objects of that type in bundle
    order, and the relationship list is the bucket of type
    "relationship". *)
Theorem parse_stix_data_indexes (objects : list StixObject) :
  (∀ i, i ≠ "" →
     _objects_by_id (parse_stix_data objects) !! i
     = last (filter (λ o, o_id o = Some i) objects)) ∧
  _objects_by_id (parse_stix_data objects) !! "" = None ∧
  (∀ ty, get_or (_objects_by_type (parse_stix_data objects) !! ty) []
         = filter (λ o, o_type o = ty) objects) ∧
  _relationships (parse_stix_data objects)
  = get_or (_objects_by_type (parse_stix_data objects) !! Some "relationship") [].
Proof.
  split; [|split; [|split]].
  - intros i Hi. by rewrite objects_by_id_last, decide_False.
  - by rewrite objects_by_id_last.
  - apply objects_by_type_parse.
  - by rewrite relationships_filter, objects_by_type_parse.
Qed.

(** *** The two traversals of the "uses" edges *)

(** What one relationship contributes to a traversal that keeps the
    targets whose type satisfies [keep]. *)
Definition contribution (keep : option string → bool) (c : MITREStixClient)
    (group_id : string) (rel : StixObject) : option StixObject :=
  if bool_decide (o_source_ref rel = Some group_id) &&
     bool_decide (o_relationship_type rel = Some "uses")
  then match lookup_ref c (o_target_ref rel) with
       | Some target =>
           if truthy target && keep (o_type target)
           then Some (with_external_id target) else None
       | None => None
       end
  else None.

Definition is_attack_pattern (ty : option string) : bool :=
  bool_decide (ty = Some "attack-pattern").

Definition is_software (ty : option string) : bool :=
  opt_in ty ["malware"; "tool"].

Lemma techniques_loop_omap c group_id rels acc :
  foldl (techniques_step c group_id) acc rels
  = acc ++ omap (contribution is_attack_pattern c group_id) rels.
Proof.
  revert acc. induction rels as [|rel rels IH]; intros acc.
  { by rewrite app_nil_r. }
  cbn [foldl omap list_omap]. rewrite IH.
  unfold techniques_step, contribution, is_attack_pattern.
  destruct (_ && _); [|done].
  destruct (lookup_ref c (o_target_ref rel)) as [target|]; [|done].
  destruct (_ && _); [|done]. by rewrite <- app_assoc.
Qed.

Lemma software_loop_omap c group_id rels acc :
  foldl (software_step c group_id) acc rels
  = acc ++ omap (contribution is_software c group_id) rels.
Proof.
  revert acc. induction rels as [|rel rels IH]; intros acc.
  { by rewrite app_nil_r. }
  cbn [foldl omap list_omap]. rewrite IH.
  unfold software_step, contribution, is_software.
  destruct (_ && _); [|done].
  destruct (lookup_ref c (o_target_ref rel)) as [target|]; [|done].
  destruct (_ && _); [|done]. by rewrite <- app_assoc.
Qed.

Lemma attach_external_id_type refs o :
  o_type (attach_external_id refs o) = o_type o.
Proof.
  induction refs as [|ref refs IH]; [done|]. simpl. by case_bool_decide.
Qed.

Lemma with_external_id_type o : o_type (with_external_id o) = o_type o.
Proof. apply attach_external_id_type. Qed.

Lemma has_id_truthy o i : o_id o = Some i → truthy o = true.
Proof.
  intros Hid. unfold truthy.
  rewrite (bool_decide_true (is_Some (o_id o))) by eauto.
  by rewrite orb_true_r.
Qed.

Lemma lookup_ref_last objects tid target :
  tid ≠ "" →
  last (filter (λ o, o_id o = Some tid) objects) = Some target →
  lookup_ref (parse_stix_data objects) (Some tid) = Some target ∧
  truthy target = true.
Proof.
  intros Hne Hlast. cbn [lookup_ref].
  rewrite objects_by_id_last, decide_False by done. split; [done|].
  apply last_Some_elem_of, list_elem_of_filter in Hlast as [Hid _].
  by apply (has_id_truthy _ tid).
Qed.

(** X2. [get_techniques_for_group] is complete, and an id resolves to its
    last carrier: a "uses" relationship of the bundle from the group whose
    target id is last carried by an attack-pattern object puts that
    technique in the result, and one whose target id is last carried by
    an object of another type adds nothing, even when an earlier object
    with that id is an attack pattern. *)
Theorem get_techniques_for_group_complete
    (objects : list StixObject) (group_id tid : string)
    (rel target : StixObject) :
  rel ∈ objects → o_type rel = Some "relationship" →
  o_source_ref rel = Some group_id → o_relationship_type rel = Some "uses" →
  o_target_ref rel = Some tid → tid ≠ "" →
  last (filter (λ o, o_id o = Some tid) objects) = Some target →
  (o_type target = Some "attack-pattern" →
   with_external_id target
     ∈ get_techniques_for_group (parse_stix_data objects) group_id) ∧
  (o_type target ≠ Some "attack-pattern" →
   ∀ techniques,
     techniques_step (parse_stix_data objects) group_id techniques rel
     = techniques).
Proof.
  intros Hin Hrel Hsrc Huses Href Hne Hlast.
  destruct (lookup_ref_last objects tid target Hne Hlast) as [Hlook Htruthy].
  split.
  - intros Hty. unfold get_techniques_for_group.
    rewrite techniques_loop_omap. cbn [app].
    apply list_elem_of_omap. exists rel. split.
    + rewrite relationships_filter. by apply list_elem_of_filter.
    + unfold contribution, is_attack_pattern.
      rewrite Hsrc, Huses, Href, Hlook, Htruthy, Hty.
      by rewrite !bool_decide_true by done.
  - intros Hty techniques. unfold techniques_step.
    rewrite Hsrc, Huses, Href, Hlook, Htruthy.
    rewrite !bool_decide_true by done.
    by rewrite bool_decide_false by done.
Qed.

Lemma get_techniques_for_group_complete_witness :
  with_external_id
    (stix_object "attack-pattern" "attack-pattern--2b742742"
       "Spearphishing Link" "T1566.002" (Some "initial-access"))
  ∈ get_techniques_for_group (parse_stix_data SAMPLE_STIX_DATA)
      "intrusion-set--899ce53f".
Proof.
  apply (get_techniques_for_group_complete SAMPLE_STIX_DATA
           "intrusion-set--899ce53f" "attack-pattern--2b742742"
           (uses "relationship--12345" "intrusion-set--899ce53f"
              "attack-pattern--2b742742")); try reflexivity.
  - do 3 apply list_elem_of_further. apply list_elem_of_here.
  - discriminate.
Defined.

(** X3. Every object returned by [get_software_for_group] is the target of
    a "uses" relationship of the bundle from the group and is a malware or
    tool object of the bundle (returned with its ATT&CK id attached); and
    no result of [get_software_for_group] is a result of
    [get_techniques_for_group], for any two groups. *)
Theorem get_software_for_group_sound
    (objects : list StixObject) (group_id : string) :
  (∀ s, s ∈ get_software_for_group (parse_stix_data objects) group_id →
     ∃ rel target tid,
       rel ∈ objects ∧ o_type rel = Some "relationship" ∧
       o_source_ref rel = Some group_id ∧
       o_relationship_type rel = Some "uses" ∧
       o_target_ref rel = Some tid ∧
       target ∈ objects ∧ o_id target = Some tid ∧
       (o_type target = Some "malware" ∨ o_type target = Some "tool") ∧
       s = with_external_id target) ∧
  (∀ s other_group,
     s ∈ get_software_for_group (parse_stix_data objects) group_id →
     s ∉ get_techniques_for_group (parse_stix_data objects) other_group).
Proof.
  assert (Hsound : ∀ s,
    s ∈ get_software_for_group (parse_stix_data objects) group_id →
     ∃ rel target tid,
       rel ∈ objects ∧ o_type rel = Some "relationship" ∧
       o_source_ref rel = Some group_id ∧
       o_relationship_type rel = Some "uses" ∧
       o_target_ref rel = Some tid ∧
       target ∈ objects ∧ o_id target = Some tid ∧
       (o_type target = Some "malware" ∨ o_type target = Some "tool") ∧
       s = with_external_id target).
  { intros s Hs. unfold get_software_for_group in Hs.
    rewrite software_loop_omap in Hs. cbn [app] in Hs.
    apply list_elem_of_omap in Hs as (rel & Hrel & Hc).
    rewrite relationships_filter in Hrel.
    apply list_elem_of_filter in Hrel as [Hty Hin].
    unfold contribution in Hc.
    destruct (bool_decide (o_source_ref rel = Some group_id)) eqn:Hsrc;
      [|done].
    destruct (bool_decide (o_relationship_type rel = Some "uses")) eqn:Huses;
      [|done].
    apply bool_decide_eq_true in Hsrc, Huses. cbn [andb] in Hc.
    destruct (o_target_ref rel) as [tid|] eqn:Href; [|done].
    cbn [lookup_ref] in Hc.
    destruct (_objects_by_id (parse_stix_data objects) !! tid)
      as [target|] eqn:Hlook; [|done].
    apply objects_by_id_parse in Hlook as [Htin Htid].
    destruct (truthy target); [|done]. cbn [andb] in Hc.
    destruct (is_software (o_type target)) eqn:Hsoft; [|done].
    injection Hc as <-. exists rel, target, tid.
    repeat (split; [done|]). split; [|done].
    unfold is_software, opt_in, str_in in Hsoft.
    destruct (o_type target) as [ty|]; [|done].
    apply bool_decide_eq_true in Hsoft.
    apply elem_of_cons in Hsoft as [->|Hsoft]; [by left|].
    apply list_elem_of_singleton in Hsoft as ->. by right. }
  split; [done|].
  intros s other_group Hs Ht.
  apply Hsound in Hs as (rel0 & target & tid & _ & _ & _ & _ & _ & _ & _ & Hty & ->).
  unfold get_techniques_for_group in Ht.
  rewrite techniques_loop_omap in Ht. cbn [app] in Ht.
  apply list_elem_of_omap in Ht as (rel & _ & Hc).
  unfold contribution, is_attack_pattern in Hc.
  destruct (_ && _); [|done].
  destruct (lookup_ref _ _) as [target'|]; [|done].
  destruct (truthy target'); [|done]. cbn [andb] in Hc.
  case_bool_decide as Hpat; [|done]. injection Hc as Heq.
  apply (f_equal o_type) in Heq. rewrite !with_external_id_type in Heq.
  destruct Hty as [Hty|Hty]; congruence.
Qed.

(** *** Lookups by name and by ATT&CK id *)

Lemma find_first {A} (m : A → bool) (l : list A) (x : A) :
  List.find m l = Some x →
  ∃ before after, l = before ++ x :: after ∧ m x = true ∧
                  ∀ y, y ∈ before → m y = false.
Proof.
  induction l as [|a l IH]; [done|]. cbn [List.find].
  destruct (m a) eqn:Ha.
  - intros [= <-]. exists [], l. split; [done|]. split; [done|].
    intros y Hy. by apply elem_of_nil in Hy.
  - intros (before & after & -> & Hx & Hb)%IH.
    exists (a :: before), after. split; [done|]. split; [done|].
    intros y [->|Hy]%elem_of_cons; auto.
Qed.

Lemma find_none_iff {A} (m : A → bool) (l : list A) :
  List.find m l = None ↔ ∀ y, y ∈ l → m y = false.
Proof.
  induction l as [|a l IH]; cbn [List.find].
  - split; [|done]. intros _ y Hy. by apply elem_of_nil in Hy.
  - destruct (m a) eqn:Ha.
    + split; [done|]. intros H. rewrite H in Ha by left. done.
    + rewrite IH. split.
      * intros H y [->|Hy]%elem_of_cons; auto.
      * intros H y Hy. apply H. by right.
Qed.

Lemma filter_split {A} (P : A → Prop) `{!∀ x, Decision (P x)}
    (l before after : list A) (x : A) :
  filter P l = before ++ x :: after →
  ∃ l1 l2, l = l1 ++ x :: l2 ∧ filter P l1 = before ∧ filter P l2 = after.
Proof.
  revert before. induction l as [|a l IH]; intros before.
  { intros Hf. by destruct before. }
  rewrite filter_cons. destruct (decide (P a)) as [Ha|Ha].
  - destruct before as [|b before]; cbn [app].
    + intros [= -> <-]. exists [], l. done.
    + intros [= -> Hf]. apply IH in Hf as (l1 & l2 & -> & <- & <-).
      exists (b :: l1), l2. split; [done|]. split; [|done].
      by rewrite filter_cons_True.
  - intros Hf. apply IH in Hf as (l1 & l2 & -> & <- & <-).
    exists (a :: l1), l2. split; [done|]. split; [|done].
    by rewrite filter_cons_False.
Qed.

(** The test of [get_group_by_name] on one group. *)
Definition group_matchb (name : string) (group : StixObject) : bool :=
  bool_decide (lower (get_or (o_name group) "") = lower name) ||
  existsb (fun alias => bool_decide (lower alias = lower name))
          (get_or (o_aliases group) []).

(** The group answers to [name]: its name or one of its aliases equals
    [name] up to the case of ASCII letters. *)
Definition answers_to (name : string) (group : StixObject) : Prop :=
  lower (get_or (o_name group) "") = lower name ∨
  ∃ alias, alias ∈ get_or (o_aliases group) [] ∧ lower alias = lower name.

Lemma group_matchb_spec name group :
  group_matchb name group = true ↔ answers_to name group.
Proof.
  unfold group_matchb, answers_to.
  rewrite orb_true_iff, bool_decide_eq_true, existsb_exists.
  split; (intros [H|(alias & Hin & H)]; [by left|right; exists alias]).
  - apply list_elem_of_In in Hin. by apply bool_decide_eq_true in H.
  - rewrite <- list_elem_of_In. by rewrite bool_decide_eq_true.
Qed.

Lemma find_group_find name l : find_group name l = List.find (group_matchb name) l.
Proof.
  induction l as [|group l IH]; [done|]. cbn [find_group List.find].
  unfold group_matchb at 1. case_bool_decide; [done|]. cbn [orb].
  by destruct (existsb _ _).
Qed.

(** The text that [get_group_by_name] lower-cases is ASCII: the name and
    the aliases of every intrusion set of the bundle. *)
Definition ascii_named (o : StixObject) : bool :=
  isascii (get_or (o_name o) "") && forallb isascii (get_or (o_aliases o) []).

Definition ascii_names (objects : list StixObject) : Prop :=
  Forall (λ o, o_type o = Some "intrusion-set" → ascii_named o = true) objects.

(** X4. For an ASCII name and a bundle whose intrusion sets have ASCII
    names and aliases, [get_group_by_name] returns the first intrusion-set
    object of the bundle, in bundle order, whose name or one of whose
    aliases equals the requested name up to the case of the letters; it
    returns [None] exactly when no intrusion set answers to the name; and
    two ASCII names that differ only in letter case get the same answer. *)
Theorem get_group_by_name_first_match
    (objects : list StixObject) (name : string) :
  isascii name = true → ascii_names objects →
  (∀ group, get_group_by_name (parse_stix_data objects) name = Some group →
     o_type group = Some "intrusion-set" ∧ answers_to name group ∧
     ∃ before after,
       objects = before ++ group :: after ∧
       ∀ o, o ∈ before → o_type o = Some "intrusion-set" →
            ¬ answers_to name o) ∧
  (get_group_by_name (parse_stix_data objects) name = None ↔
   ∀ o, o ∈ objects → o_type o = Some "intrusion-set" → ¬ answers_to name o) ∧
  (∀ name', isascii name' = true → lower name' = lower name →
     get_group_by_name (parse_stix_data objects) name'
     = get_group_by_name (parse_stix_data objects) name).
Proof.
  intros _ _.
  unfold get_group_by_name. rewrite objects_by_type_parse.
  split; [|split].
  - intros group Hfind. rewrite find_group_find in Hfind.
    apply find_first in Hfind as (before & after & Hsplit & Hm & Hfirst).
    apply group_matchb_spec in Hm.
    assert (Hin : group ∈ filter (λ o, o_type o = Some "intrusion-set") objects).
    { rewrite Hsplit. apply elem_of_app. right. left. }
    apply list_elem_of_filter in Hin as [Hty _].
    split; [done|]. split; [done|].
    apply filter_split in Hsplit as (l1 & l2 & -> & <- & _).
    exists l1, l2. split; [done|]. intros o Ho Hoty Hans.
    apply group_matchb_spec in Hans.
    rewrite Hfirst in Hans; [done|]. by apply list_elem_of_filter.
  - rewrite find_group_find, find_none_iff. split.
    + intros H o Ho Hty Hans. apply group_matchb_spec in Hans.
      rewrite H in Hans; [done|]. by apply list_elem_of_filter.
    + intros H o [Hty Ho]%list_elem_of_filter.
      apply not_true_is_false. intros Hm%group_matchb_spec.
      by apply (H o).
  - intros name' _ Hcase. rewrite !find_group_find. f_equal.
    unfold group_matchb. by rewrite Hcase.
Qed.

Lemma get_group_by_name_first_match_witness :
  isascii "apt29" = true ∧ ascii_names SAMPLE_STIX_DATA ∧
  o_name <$> get_group_by_name (parse_stix_data SAMPLE_STIX_DATA) "apt29"
  = Some (Some "APT29") ∧
  get_group_by_name (parse_stix_data SAMPLE_STIX_DATA) "Apt29"
  = get_group_by_name (parse_stix_data SAMPLE_STIX_DATA) "apt29".
Proof.
  assert (Hname : isascii "apt29" = true) by reflexivity.
  assert (Hnames : ascii_names SAMPLE_STIX_DATA).
  { unfold SAMPLE_STIX_DATA. repeat constructor. }
  split; [exact Hname|]. split; [exact Hnames|].
  destruct (get_group_by_name_first_match SAMPLE_STIX_DATA "apt29" Hname Hnames)
    as (_ & _ & Hcase).
  split; [reflexivity|]. apply Hcase; reflexivity.
Defined.

(** The pattern carries the ATT&CK id in a ["mitre-attack"] reference;
    for the id [None], the pattern has such a reference without id. *)
Definition carries_attack_id (technique_id : option string)
    (pattern : StixObject) : Prop :=
  ∃ ref, ref ∈ get_or (o_external_references pattern) [] ∧
         source_name ref = Some "mitre-attack" ∧
         ref_external_id ref = technique_id.

Lemma has_attack_id_spec technique_id pattern :
  has_attack_id technique_id pattern = true ↔
  carries_attack_id technique_id pattern.
Proof.
  unfold has_attack_id, carries_attack_id. rewrite existsb_exists.
  split; intros (ref & Hin & H); exists ref.
  - apply list_elem_of_In in Hin.
    apply andb_true_iff in H as [H1%bool_decide_eq_true H2%bool_decide_eq_true].
    done.
  - destruct H as [H1 H2]. rewrite <- list_elem_of_In.
    by rewrite !bool_decide_true.
Qed.

Lemma find_technique_find technique_id l :
  find_technique technique_id l
  = set_external_id technique_id
      <$> List.find (has_attack_id technique_id) l.
Proof.
  induction l as [|pattern l IH]; [done|]. cbn [find_technique List.find].
  by destruct (has_attack_id technique_id pattern).
Qed.

(** X5. [get_technique_by_id] returns a copy of the first attack-pattern
    object of the bundle that carries the requested ATT&CK id in one of
    its "mitre-attack" references, with the key [external_id] set to the
    requested id; it returns [None] exactly when no attack pattern of the
    bundle carries the id. This holds for every value passed as the id, a
    string or [None]. *)
Theorem get_technique_by_id_first_match
    (objects : list StixObject) (technique_id : option string) :
  (∀ t, get_technique_by_id (parse_stix_data objects) technique_id = Some t →
     o_external_id t = Some technique_id ∧
     ∃ pattern before after,
       t = set_external_id technique_id pattern ∧
       objects = before ++ pattern :: after ∧
       o_type pattern = Some "attack-pattern" ∧
       carries_attack_id technique_id pattern ∧
       ∀ o, o ∈ before → o_type o = Some "attack-pattern" →
            ¬ carries_attack_id technique_id o) ∧
  (get_technique_by_id (parse_stix_data objects) technique_id = None ↔
   ∀ o, o ∈ objects → o_type o = Some "attack-pattern" →
        ¬ carries_attack_id technique_id o).
Proof.
  unfold get_technique_by_id. rewrite objects_by_type_parse, find_technique_find.
  split.
  - intros t Hfind.
    destruct (List.find _ _) as [pattern|] eqn:Hf; [|done].
    injection Hfind as <-. split; [done|].
    apply find_first in Hf as (before & after & Hsplit & Hm & Hfirst).
    apply has_attack_id_spec in Hm.
    assert (Hin : pattern
              ∈ filter (λ o, o_type o = Some "attack-pattern") objects).
    { rewrite Hsplit. apply elem_of_app. right. left. }
    apply list_elem_of_filter in Hin as [Hty _].
    apply filter_split in Hsplit as (l1 & l2 & -> & <- & _).
    exists pattern, l1, l2. repeat (split; [done|]).
    intros o Ho Hoty Hc. apply has_attack_id_spec in Hc.
    rewrite Hfirst in Hc; [done|]. by apply list_elem_of_filter.
  - rewrite fmap_None, find_none_iff. split.
    + intros H o Ho Hty Hc. apply has_attack_id_spec in Hc.
      rewrite H in Hc; [done|]. by apply list_elem_of_filter.
    + intros H o [Hty Ho]%list_elem_of_filter.
      apply not_true_is_false. intros Hm%has_attack_id_spec.
      by apply (H o).
Qed.

End StixQueries.

(** ** More of the Python library: exceptions beyond [Exception] *)
Module PyMore.
Import Py.

(** The exceptions raised by the code below: the key errors of
    [d[key]] on a dictionary without the key, the division by zero, the
    [RuntimeError]s the sources raise, and the exceptions of [Py]. *)
Inductive Error :=
  | KeyError (key : string)
  | ZeroDivisionError
  | RuntimeError (msg : string)
  | Builtin (e : Exception).

Inductive outcome (A : Type) :=
  | Return (a : A)
  | Throw (e : Error).
Arguments Return {A} a.
Arguments Throw {A} e.

Global Instance outcome_bind : MBind outcome := fun A B f x =>
  match x with
  | Return a => f a
  | Throw e => Throw e
  end.
Global Instance outcome_ret : MRet outcome := fun A a => Return a.

(** [d[key]]. *)
Definition item {A} (key : string) (v : option A) : outcome A :=
  match v with
  | Some a => Return a
  | None => Throw (KeyError key)
  end.

(** The characters of a string, and the upper-case ASCII letters. *)
Definition is_upper (c : ascii) : bool :=
  let n := nat_of_ascii c in (65 <=? n)%nat && (n <=? 90)%nat.

Definition has_upper (s : string) : bool :=
  existsb is_upper (list_ascii_of_string s).

(** [s.replace(a, b)] for two characters. *)
Fixpoint replace_char (a b : ascii) (s : string) : string :=
  match s with
  | EmptyString => EmptyString
  | String c s' =>
      String (if bool_decide (c = a) then b else c) (replace_char a b s')
  end.

(** [s.split('. ')]: the pieces between the occurrences of the separator,
    scanned from the left; [piece] is the piece being read. *)
Fixpoint split_sentences (piece s : string) : list string :=
  match s with
  | EmptyString => [piece]
  | String "." (String " " rest) => piece :: split_sentences "" rest
  | String c rest => split_sentences (piece +:+ String c "") rest
  end.

(** [sorted(l)] on strings, compared character by character: the result
    is the sorted permutation of the list whatever the algorithm, here by
    insertion. *)
Fixpoint insert_sorted (x : string) (l : list string) : list string :=
  match l with
  | [] => [x]
  | y :: rest =>
      if String.leb x y then x :: y :: rest else y :: insert_sorted x rest
  end.

Definition sorted (l : list string) : list string := foldr insert_sorted [] l.

(** Each element is at most the next one. *)
Fixpoint is_sorted (l : list string) : bool :=
  match l with
  | a :: (b :: _) as rest => String.leb a b && is_sorted rest
  | _ => true
  end.

Lemma insert_sorted_perm x l : insert_sorted x l ≡ₚ x :: l.
Proof.
  induction l as [|y l IH]; [done|]. cbn [insert_sorted].
  destruct (String.leb x y); [done|]. rewrite IH. apply Permutation_swap.
Qed.

Lemma sorted_perm l : sorted l ≡ₚ l.
Proof.
  induction l as [|x l IH]; [done|]. cbn [sorted foldr].
  fold (sorted l). by rewrite insert_sorted_perm, IH.
Qed.

Lemma insert_sorted_is_sorted x l :
  is_sorted l = true → is_sorted (insert_sorted x l) = true.
Proof.
  induction l as [|y l IH]; [done|]. intros Hs. cbn [insert_sorted].
  destruct (String.leb x y) eqn:Hxy.
  { cbn [is_sorted]. by rewrite Hxy. }
  assert (Hyx : String.leb y x = true).
  { by destruct (String.leb_total x y) as [H|H]; [congruence|]. }
  destruct l as [|z l]; [cbn; by rewrite Hyx|].
  cbn [is_sorted] in Hs. apply andb_true_iff in Hs as [Hyz Hs].
  specialize (IH Hs). cbn [insert_sorted] in *.
  destruct (String.leb x z); cbn [is_sorted] in *.
  - by rewrite Hyx.
  - by rewrite Hyz.
Qed.

Lemma sorted_is_sorted l : is_sorted (sorted l) = true.
Proof.
  induction l as [|x l IH]; [done|]. cbn [sorted foldr].
  by apply insert_sorted_is_sorted.
Qed.

End PyMore.

(** ** attacker_personas/persona_generator.py: the inference heuristics *)
Module Inference.
Import Py.
Import PyFloat.
Import PyMore.
Import Persona.
Import Generator.
Import Library.

(** [tech.get('external_id', '') in ids]. *)
Definition id_in (ids : list string) (tech : StixObject) : bool :=
  opt_in (get_or (o_external_id tech) (Some "")) ids.

(** [sum(1 for tech in techniques if tech.get('external_id', '') in ids)]. *)
Definition count_ids (ids : list string) (techniques : list StixObject) : nat :=
  length (List.filter (id_in ids) techniques).

(** [any(word in text for word in words)]. *)
Definition any_word_in (words : list string) (text : string) : bool :=
  existsb (fun word => contains word text) words.

Definition nation_state_indicators : list string :=
  ["apt"; "government"; "state-sponsored"; "nation"; "military";
   "intelligence"; "ministry"; "bureau"; "unit 61398"; "pla"].

Definition advanced_techniques : list string :=
  ["T1055"; "T1027"; "T1140"; "T1134"; "T1574"].

(** [f"{name} {description} {aliases}"] of [_infer_sophistication], each
    part lower-cased. *)
Definition group_text (group : StixObject) : string :=
  let name := lower (get_or (o_name group) "") in
  let description := lower (get_or (o_description group) "") in
  let aliases := lower (join " " (get_or (o_aliases group) [])) in
  name +:+ " " +:+ description +:+ " " +:+ aliases.

(** The score that [_infer_sophistication] accumulates. *)
Definition sophistication_score (group : StixObject)
    (techniques software : list StixObject) : Z :=
  let score := 0%Z in
  let score :=
    if (80 <? length techniques)%nat then (score + 3)%Z
    else if (50 <? length techniques)%nat then (score + 2)%Z
    else if (20 <? length techniques)%nat then (score + 1)%Z
    else score in
  let score :=
    if (20 <? length software)%nat then (score + 2)%Z
    else if (10 <? length software)%nat then (score + 1)%Z
    else score in
  let combined_text := group_text group in
  let score :=
    if any_word_in nation_state_indicators combined_text
    then (score + 2)%Z else score in
  let score :=
    if existsb (id_in advanced_techniques) techniques
    then (score + 1)%Z else score in
  let score :=
    if existsb (fun s => contains "custom" (lower (get_or (o_name s) "")))
               software
    then (score + 1)%Z else score in
  score.

Definition _infer_sophistication (group : StixObject)
    (techniques software : list StixObject) : SophisticationLevel :=
  let score := sophistication_score group techniques software in
  if (6 <=? score)%Z then ADVANCED
  else if (4 <=? score)%Z then HIGH
  else if (2 <=? score)%Z then MEDIUM
  else LOW.

Definition stealthy_techniques : list string :=
  ["T1027"; "T1140"; "T1036"; "T1112"; "T1564"].
Definition noisy_techniques : list string :=
  ["T1486"; "T1490"; "T1489"; "T1561"].
Definition covert_words : list string :=
  ["covert"; "stealth"; "undetected"; "persistent"].
Definition destructive_words : list string :=
  ["destructive"; "ransomware"; "wiper"; "disruptive"].

Definition _infer_stealth_preference (group : StixObject)
    (techniques : list StixObject) : StealthLevel :=
  let stealth_score := 0%Z in
  let stealth_count := count_ids stealthy_techniques techniques in
  let noisy_count := count_ids noisy_techniques techniques in
  let stealth_score :=
    if (noisy_count * 2 <? stealth_count)%nat then (stealth_score + 2)%Z
    else if (noisy_count <? stealth_count)%nat then (stealth_score + 1)%Z
    else if (stealth_count * 2 <? noisy_count)%nat then (stealth_score - 2)%Z
    else stealth_score in
  let description := lower (get_or (o_description group) "") in
  let stealth_score :=
    if any_word_in covert_words description
    then (stealth_score + 1)%Z else stealth_score in
  let stealth_score :=
    if any_word_in destructive_words description
    then (stealth_score - 1)%Z else stealth_score in
  if (2 <=? stealth_score)%Z then STEALTHY
  else if (stealth_score <=? -1)%Z then NOISY
  else BALANCED.

Definition fast_techniques : list string := ["T1059"; "T1569"; "T1053"].
Definition slow_techniques : list string := ["T1547"; "T1176"; "T1137"].
Definition fast_words : list string := ["rapid"; "automated"; "scripted"; "fast"].
Definition slow_words : list string :=
  ["patient"; "long-term"; "persistent"; "dormant"].

Definition _infer_attack_speed (group : StixObject)
    (techniques : list StixObject) : AttackSpeed :=
  let fast_count := count_ids fast_techniques techniques in
  let slow_count := count_ids slow_techniques techniques in
  let description := lower (get_or (o_description group) "") in
  if any_word_in fast_words description then FAST
  else if any_word_in slow_words description then SLOW
  else if (slow_count * 2 <? fast_count)%nat then FAST
  else if (fast_count <? slow_count)%nat then SLOW
  else MODERATE.

(** [_load_region_keywords], in insertion order. *)
Definition region_keywords : list (string * list string) :=
  [ ("North America", ["united states"; "america"; "us"; "canada"; "mexico";
                       "north america"]);
    ("Europe", ["europe"; "european"; "eu"; "uk"; "britain"; "germany";
                "france"; "nato"]);
    ("Asia Pacific", ["asia"; "china"; "japan"; "korea"; "singapore";
                      "australia"; "pacific"]);
    ("Middle East", ["middle east"; "israel"; "iran"; "saudi"; "uae";
                     "turkey"; "gulf"]);
    ("Africa", ["africa"; "south africa"; "nigeria"; "egypt"]);
    ("South America", ["south america"; "brazil"; "argentina"; "colombia"]);
    ("Russia/CIS", ["russia"; "russian"; "soviet"; "ukraine"; "belarus";
                    "cis"]);
    ("Global", ["global"; "worldwide"; "international"; "multinational"]) ].

(** [_infer_target_regions]: the loop over the table has the body of the
    loop of [_infer_target_industries]. *)
Definition _infer_target_regions (description : string)
    (aliases : list string) : list string :=
  let detected_regions :=
    detect_industries region_keywords (combined_text description aliases) [] in
  match detected_regions with
  | [] => ["Global"]
  | _ => detected_regions
  end.

Definition financial_techniques : list string := ["T1005"; "T1041"; "T1486"].
Definition espionage_techniques : list string :=
  ["T1005"; "T1041"; "T1056"; "T1113"].
Definition destructive_techniques : list string := ["T1486"; "T1490"; "T1561"].

(** The list that [_infer_motivations] accumulates before the duplicates
    are removed. *)
Definition collected_motivations (techniques : list StixObject)
    (description : string) : list string :=
  let motivations := [] in
  let motivations :=
    if existsb (id_in financial_techniques) techniques
    then motivations ++ ["financial"] else motivations in
  let motivations :=
    if existsb (id_in espionage_techniques) techniques
    then motivations ++ ["espionage"] else motivations in
  let motivations :=
    if existsb (id_in destructive_techniques) techniques
    then motivations ++ ["destruction"] else motivations in
  let desc_lower := lower description in
  let motivations :=
    if any_word_in ["financial"; "money"; "bank"; "payment"] desc_lower
    then motivations ++ ["financial"] else motivations in
  let motivations :=
    if any_word_in ["espionage"; "intelligence"; "surveillance"] desc_lower
    then motivations ++ ["espionage"] else motivations in
  let motivations :=
    if any_word_in ["disrupt"; "destroy"; "damage"] desc_lower
    then motivations ++ ["disruption"] else motivations in
  motivations.

(** [list(set(motivations)) if motivations else ['espionage']]: the order
    in which the set is listed is not fixed by the language; the model
    lists first occurrences in order. *)
Definition _infer_motivations (group : StixObject)
    (techniques : list StixObject) (description : string) : list string :=
  match collected_motivations techniques description with
  | [] => ["espionage"]
  | motivations => remove_dups motivations
  end.

(** [max(x, y)] on floats: [y] when [y > x], else [x]. *)
Definition max_float (x y : float) : float := if (x <? y)%float then y else x.

(** [max(0.1, min(0.95, x))]. *)
Definition clamp (x : float) : float := max_float 0.1 (min_float 0.95 x).

Definition _calculate_detection_sensitivity (stealth : StealthLevel)
    (sophistication : SophisticationLevel) : float :=
  let base_sensitivity := 0.5%float in
  let base_sensitivity :=
    match stealth with
    | STEALTHY => (base_sensitivity + 0.3)%float
    | NOISY => (base_sensitivity - 0.3)%float
    | BALANCED => base_sensitivity
    end in
  let base_sensitivity :=
    match sophistication with
    | ADVANCED => (base_sensitivity + 0.2)%float
    | LOW => (base_sensitivity - 0.2)%float
    | _ => base_sensitivity
    end in
  clamp base_sensitivity.

Definition persistence_techniques : list string :=
  ["T1547"; "T1053"; "T1543"; "T1574"].

Definition _calculate_persistence_priority (techniques : list StixObject)
    : float :=
  let persistence_count := count_ids persistence_techniques techniques in
  if (0 <? length techniques)%nat then
    let persistence_ratio :=
      true_div (Z.of_nat persistence_count) (Z.of_nat (length techniques)) in
    min_float 0.95 (0.5 + persistence_ratio * 2)%float
  else 0.7%float.

Definition exfiltration_techniques : list string :=
  ["T1041"; "T1048"; "T1052"; "T1567"].

Definition _calculate_exfiltration_priority (techniques : list StixObject)
    (motivations : list string) : float :=
  let exfil_count := count_ids exfiltration_techniques techniques in
  let base_priority := 0.5%float in
  let base_priority :=
    if str_in "financial" motivations || str_in "espionage" motivations
    then (base_priority + 0.3)%float else base_priority in
  let base_priority :=
    if str_in "destruction" motivations
    then (base_priority - 0.2)%float else base_priority in
  let base_priority :=
    if (0 <? length techniques)%nat then
      let exfil_ratio :=
        true_div (Z.of_nat exfil_count) (Z.of_nat (length techniques)) in
      (base_priority + exfil_ratio * 2)%float
    else base_priority in
  clamp base_priority.

Definition _calculate_max_techniques (sophistication : SophisticationLevel) : Z :=
  match sophistication with
  | ADVANCED => 7
  | HIGH => 5
  | MEDIUM => 4
  | LOW => 3
  end.

Definition _calculate_success_rate (sophistication : SophisticationLevel)
    : float :=
  match sophistication with
  | ADVANCED => 0.85
  | HIGH => 0.75
  | MEDIUM => 0.65
  | LOW => 0.55
  end.

Definition _generate_description (group : StixObject)
    (motivations industries : list string) : string :=
  let original_desc := get_or (o_description group) "" in
  let motivation_str := replace_char "_" " " (join ", " motivations) in
  let industry_str := join ", " (take 3 industries) in
  let base_desc :=
    if (200 <? len original_desc)%nat then
      match split_sentences "" original_desc with
      | first :: _ => first
      | [] => slice_to 150 original_desc +:+ "..."
      end
    else original_desc in
  if bool_decide (base_desc = "") then
    "Threat group with " +:+ motivation_str +:+ " motivations targeting "
      +:+ industry_str +:+ " sectors"
  else base_desc.

Definition _calculate_confidence_score (group : StixObject)
    (techniques software : list StixObject) : float :=
  let score := 0.5%float in
  let score :=
    if (50 <? length techniques)%nat then (score + 0.2)%float
    else if (20 <? length techniques)%nat then (score + 0.1)%float
    else if (length techniques <? 5)%nat then (score - 0.2)%float
    else score in
  let score :=
    if (10 <? length software)%nat then (score + 0.1)%float
    else if (length software <? 2)%nat then (score - 0.1)%float
    else score in
  let description := get_or (o_description group) "" in
  let score :=
    if (500 <? len description)%nat then (score + 0.1)%float
    else if (len description <? 100)%nat then (score - 0.1)%float
    else score in
  let score :=
    if (2 <? length (get_or (o_aliases group) []))%nat
    then (score + 0.05)%float else score in
  clamp score.

(** The dictionary returned by [generate_persona_config]: the keyword
    arguments of the persona, and the two keys the library drops. *)
Record GeneratedConfig := {
  gc_config : PersonaConfig;
  gc_generation_method : string;
  gc_confidence_score : float
}.

Definition generate_persona_config (client : MITREStixClient)
    (group : StixObject) : outcome GeneratedConfig :=
  let description := get_or (o_description group) "" in
  let aliases := get_or (o_aliases group) [] in
  group_id ← item "id" (o_id group);
  let techniques := get_techniques_for_group client group_id in
  let software := get_software_for_group client group_id in
  let sophistication := _infer_sophistication group techniques software in
  let stealth := _infer_stealth_preference group techniques in
  let attack_speed := _infer_attack_speed group techniques in
  let target_industries := _infer_target_industries description aliases in
  let target_regions := _infer_target_regions description aliases in
  let motivations := _infer_motivations group techniques description in
  let detection_sensitivity :=
    _calculate_detection_sensitivity stealth sophistication in
  let persistence_priority := _calculate_persistence_priority techniques in
  let data_exfiltration_priority :=
    _calculate_exfiltration_priority techniques motivations in
  mret
    {| gc_config :=
         {| cfg_sophistication_level := sophistication;
            cfg_stealth_preference := stealth;
            cfg_attack_speed := attack_speed;
            cfg_target_industries := target_industries;
            cfg_target_regions := target_regions;
            cfg_motivations := motivations;
            cfg_preferred_tools :=
              map (fun s => get_or (o_name s) "") (take 5 software);
            cfg_description_override :=
              Some (_generate_description group motivations target_industries);
            cfg_detection_sensitivity := detection_sensitivity;
            cfg_persistence_priority := persistence_priority;
            cfg_data_exfiltration_priority := data_exfiltration_priority;
            cfg_max_techniques_per_phase :=
              _calculate_max_techniques sophistication;
            cfg_technique_success_rate :=
              Some (_calculate_success_rate sophistication) |};
       gc_generation_method := "automated";
       gc_confidence_score :=
         _calculate_confidence_score group techniques software |}.

(** *** What the heuristics can and cannot infer *)


Lemma count_ids_none ids techniques :
  existsb (id_in ids) techniques = false → count_ids ids techniques = 0%nat.
Proof.
  unfold count_ids. induction techniques as [|t l IH]; [done|].
  cbn [existsb List.filter]. intros [-> Hl]%orb_false_iff. by apply IH.
Qed.

(** X7. [_infer_stealth_preference]: STEALTHY is only inferred when the
    group has more stealthy than noisy techniques; NOISY is only inferred
    when the noisy techniques are more than twice the stealthy ones or
    the description contains a destructive word; and a group with none of
    the listed techniques and none of the listed words is BALANCED. *)
Theorem infer_stealth_preference_grounds
    (group : StixObject) (techniques : list StixObject) :
  let stealth_count := count_ids stealthy_techniques techniques in
  let noisy_count := count_ids noisy_techniques techniques in
  let description := lower (get_or (o_description group) "") in
  (_infer_stealth_preference group techniques = STEALTHY →
   (noisy_count < stealth_count)%nat) ∧
  (_infer_stealth_preference group techniques = NOISY →
   (stealth_count * 2 < noisy_count)%nat ∨
   any_word_in destructive_words description = true) ∧
  (stealth_count = 0%nat → noisy_count = 0%nat →
   any_word_in covert_words description = false →
   any_word_in destructive_words description = false →
   _infer_stealth_preference group techniques = BALANCED).
Proof.
  intros stealth_count noisy_count description.
  unfold _infer_stealth_preference.
  fold stealth_count noisy_count description.
  destruct (noisy_count * 2 <? stealth_count)%nat eqn:H1;
  destruct (noisy_count <? stealth_count)%nat eqn:H2;
  destruct (stealth_count * 2 <? noisy_count)%nat eqn:H3;
  rewrite ?Nat.ltb_lt, ?Nat.ltb_ge in *; try lia;
  destruct (any_word_in covert_words description);
  destruct (any_word_in destructive_words description); cbn;
  (split; [intros; first [done|lia]
          |split; intros; first [done|lia|by right|by left]]).
Qed.

(** X8. [_infer_attack_speed] never infers AGGRESSIVE; a fast word in the
    description gives FAST and, failing that, a slow word gives SLOW,
    whatever the techniques are; without such words the technique counts
    decide. *)
Theorem infer_attack_speed_precedence
    (group : StixObject) (techniques : list StixObject) :
  let description := lower (get_or (o_description group) "") in
  let fast_count := count_ids fast_techniques techniques in
  let slow_count := count_ids slow_techniques techniques in
  _infer_attack_speed group techniques ≠ AGGRESSIVE ∧
  (any_word_in fast_words description = true →
   _infer_attack_speed group techniques = FAST) ∧
  (any_word_in fast_words description = false →
   any_word_in slow_words description = true →
   _infer_attack_speed group techniques = SLOW) ∧
  (any_word_in fast_words description = false →
   any_word_in slow_words description = false →
   _infer_attack_speed group techniques =
     if (slow_count * 2 <? fast_count)%nat then FAST
     else if (fast_count <? slow_count)%nat then SLOW else MODERATE).
Proof.
  intros description fast_count slow_count. unfold _infer_attack_speed.
  fold description fast_count slow_count.
  destruct (any_word_in fast_words description);
  destruct (any_word_in slow_words description);
  destruct (slow_count * 2 <? fast_count)%nat;
  destruct (fast_count <? slow_count)%nat; done.
Qed.

(** *** Industries and regions *)

(** A keyword of the entry occurs in the text. *)
Definition entry_matches (text : string) (entry : string * list string) : Prop :=
  any_keyword_in entry.2 text = true.

Global Instance entry_matches_dec text entry : Decision (entry_matches text entry).
Proof. unfold entry_matches. apply _. Defined.

Lemma detect_industries_filter table text detected :
  detect_industries table text detected
  = detected ++ (filter (entry_matches text) table).*1.
Proof.
  revert detected. induction table as [|[label keywords] table IH];
    intros detected.
  { by rewrite app_nil_r. }
  cbn [detect_industries]. rewrite IH, filter_cons.
  destruct (decide (entry_matches text (label, keywords))) as [Hm|Hm];
    unfold entry_matches in Hm; cbn [snd] in Hm.
  - rewrite Hm. by rewrite <- app_assoc.
  - by apply not_true_is_false in Hm as ->.
Qed.

Lemma any_keyword_in_spec keywords text :
  any_keyword_in keywords text = true ↔
  ∃ keyword, keyword ∈ keywords ∧ contains keyword text = true.
Proof.
  unfold any_keyword_in. rewrite existsb_exists.
  split; intros (k & Hin & Hc); exists k; (split; [|done]);
    by apply list_elem_of_In.
Qed.

(** A decidable fact settled by evaluation. *)
Ltac by_compute :=
  match goal with
  | |- ?P => apply (bool_decide_unpack P); by vm_compute
  end.

(** What a table-driven inference with the given default returns. *)
Lemma table_inference_sound (table : list (string * list string))
    (text : string) (default result : list string) :
  NoDup table.*1 → NoDup default → default ≠ [] →
  (∀ x, x ∈ default → x ∈ table.*1) →
  result = match detect_industries table text [] with
           | [] => default
           | _ => detect_industries table text []
           end →
  result ≠ [] ∧ NoDup result ∧ (∀ x, x ∈ result → x ∈ table.*1) ∧
  ((∃ entry, entry ∈ table ∧ entry_matches text entry) →
   (filter (entry_matches text) table).*1 = result) ∧
  ((∀ entry, entry ∈ table → ¬ entry_matches text entry) → result = default).
Proof.
  intros Hnd Hndd Hdne Hdef ->. rewrite detect_industries_filter. cbn [app].
  destruct (filter (entry_matches text) table) as [|e l] eqn:Hf.
  - cbn [fmap list_fmap]. repeat split; try done.
    intros (entry & Hin & Hm).
    assert (entry ∈ filter (entry_matches text) table)
      by (by apply list_elem_of_filter).
    rewrite Hf in *. by apply elem_of_nil in H.
  - assert (Hsub : (e :: l).*1 `sublist_of` table.*1).
    { rewrite <- Hf. apply fmap_sublist, sublist_filter. }
    change ((e :: l).*1) with (e.1 :: l.*1) in *.
    split; [done|]. split; [by apply (sublist_NoDup _ table.*1)|].
    split; [intros x Hx;
            by apply (elem_of_submseteq (e.1 :: l.*1)), sublist_submseteq|].
    split; [done|]. intros Hnone. exfalso.
    assert (He : e ∈ filter (entry_matches text) table)
      by (rewrite Hf; left).
    apply list_elem_of_filter in He as [Hm He]. by apply (Hnone e).
Qed.

(** X9. [_infer_target_industries] and [_infer_target_regions] never
    return an empty list or a duplicate, and every label they return is a
    key of their keyword table; when some entry of the table has a keyword
    occurring in the lower-cased text, the result is exactly the labels of
    the entries with such a keyword, in table order; and regions default
    to "Global" when no entry has one. *)
Theorem infer_targets_from_table (description : string) (aliases : list string) :
  let text := combined_text description aliases in
  let industries := _infer_target_industries description aliases in
  let regions := _infer_target_regions description aliases in
  (industries ≠ [] ∧ NoDup industries ∧
   (∀ x, x ∈ industries → x ∈ industry_keywords.*1) ∧
   ((∃ entry, entry ∈ industry_keywords ∧ entry_matches text entry) →
    (filter (entry_matches text) industry_keywords).*1 = industries)) ∧
  (regions ≠ [] ∧ NoDup regions ∧
   (∀ x, x ∈ regions → x ∈ region_keywords.*1) ∧
   ((∃ entry, entry ∈ region_keywords ∧ entry_matches text entry) →
    (filter (entry_matches text) region_keywords).*1 = regions) ∧
   ((∀ entry, entry ∈ region_keywords → ¬ entry_matches text entry) →
    regions = ["Global"])).
Proof.
  intros text industries regions. split.
  - destruct (table_inference_sound industry_keywords text
                ["Technology"; "Government"] industries)
      as (H1 & H2 & H3 & H4 & _); try done.
    + by_compute.
    + by_compute.
    + intros x Hx.
      repeat (apply elem_of_cons in Hx as [->|Hx]; [by_compute|]).
      by apply elem_of_nil in Hx.
  - destruct (table_inference_sound region_keywords text ["Global"] regions)
      as (H1 & H2 & H3 & H4 & H5); try done.
    + by_compute.
    + by_compute.
    + intros x Hx.
      repeat (apply elem_of_cons in Hx as [->|Hx]; [by_compute|]).
      by apply elem_of_nil in Hx.
Qed.

(** *** Keywords are matched against lower-cased text *)

Lemma lower_ascii_not_upper c : is_upper (lower_ascii c) = false.
Proof. destruct c as [[] [] [] [] [] [] [] []]; by vm_compute. Qed.

Lemma lower_no_upper s : has_upper (lower s) = false.
Proof.
  unfold has_upper. induction s as [|c s IH]; [done|].
  cbn [lower list_ascii_of_string existsb].
  by rewrite lower_ascii_not_upper, IH.
Qed.

Lemma has_upper_prefix needle hay :
  String.prefix needle hay = true → has_upper needle = true →
  has_upper hay = true.
Proof.
  unfold has_upper. revert hay. induction needle as [|a needle IH];
    intros hay; [done|].
  destruct hay as [|b hay]; [done|]. cbn [String.prefix].
  destruct (ascii_dec a b) as [->|]; [|done].
  cbn [list_ascii_of_string existsb]. intros Hp.
  destruct (is_upper b); [done|]. cbn [orb]. by apply IH.
Qed.

Lemma has_upper_contains needle hay :
  contains needle hay = true → has_upper needle = true →
  has_upper hay = true.
Proof.
  intros Hc Hu. induction hay as [|b hay IH].
  - cbn [contains] in Hc. rewrite orb_false_r in Hc.
    by apply (has_upper_prefix needle).
  - cbn [contains] in Hc. apply orb_true_iff in Hc as [Hp|Hc].
    + by apply (has_upper_prefix needle).
    + unfold has_upper in *. cbn [list_ascii_of_string existsb].
      rewrite IH by done. apply orb_true_r.
Qed.

(** X10. The text that the keyword tables are matched against is
    lower-cased while the keywords are used as written, so a keyword with
    an upper-case letter never matches any description or aliases: the
    keyword "IT" of the industry "Technology" is dead. *)
Theorem uppercase_keyword_never_matches
    (keyword description : string) (aliases : list string) :
  has_upper keyword = true →
  contains keyword (combined_text description aliases) = false.
Proof.
  intros Hu. apply not_true_is_false. intros Hc.
  apply has_upper_contains in Hc; [|done].
  unfold combined_text in Hc. by rewrite lower_no_upper in Hc.
Qed.

Lemma uppercase_keyword_never_matches_witness :
  (∃ keywords, ("Technology", keywords) ∈ industry_keywords ∧
               "IT" ∈ keywords) ∧
  contains "IT" (combined_text "An IT services provider" ["IT Crowd"]) = false.
Proof.
  split.
  - eexists. split; [do 2 apply list_elem_of_further; apply list_elem_of_here|].
    do 3 apply list_elem_of_further. apply list_elem_of_here.
  - apply uppercase_keyword_never_matches. reflexivity.
Defined.

(** *** Motivations *)

(** X11. [_infer_motivations] returns a non-empty list without duplicates
    of the labels financial, espionage, destruction and disruption:
    "destruction" exactly when a technique is one of the destructive
    ones, "disruption" exactly when the description has one of its words,
    "financial" exactly when a technique or a word indicates it, and
    "espionage" when a technique or a word indicates it or when nothing
    at all was found. *)
Theorem infer_motivations_labels
    (group : StixObject) (techniques : list StixObject) (description : string) :
  let motivations := _infer_motivations group techniques description in
  let text := lower description in
  motivations ≠ [] ∧ NoDup motivations ∧
  motivations ⊆ ["financial"; "espionage"; "destruction"; "disruption"] ∧
  ("destruction" ∈ motivations ↔
   existsb (id_in destructive_techniques) techniques = true) ∧
  ("disruption" ∈ motivations ↔
   any_word_in ["disrupt"; "destroy"; "damage"] text = true) ∧
  ("financial" ∈ motivations ↔
   existsb (id_in financial_techniques) techniques = true ∨
   any_word_in ["financial"; "money"; "bank"; "payment"] text = true) ∧
  ("espionage" ∈ motivations ↔
   existsb (id_in espionage_techniques) techniques = true ∨
   any_word_in ["espionage"; "intelligence"; "surveillance"] text = true ∨
   collected_motivations techniques description = []).
Proof.
  intros motivations text. subst motivations text.
  unfold _infer_motivations, collected_motivations.
  destruct (existsb (id_in financial_techniques) techniques);
  destruct (existsb (id_in espionage_techniques) techniques);
  destruct (existsb (id_in destructive_techniques) techniques);
  destruct (any_word_in ["financial"; "money"; "bank"; "payment"] _);
  destruct (any_word_in ["espionage"; "intelligence"; "surveillance"] _);
  destruct (any_word_in ["disrupt"; "destroy"; "damage"] _);
  by_compute.
Qed.

(** *** The operational parameters *)

(** [lo <= x <= hi], as the comparisons of the language decide it. *)
Definition in_range (lo hi x : float) : Prop :=
  (lo <=? x)%float = true ∧ (x <=? hi)%float = true.

Lemma ltb_leb x y : (x <? y)%float = true → (x <=? y)%float = true.
Proof.
  rewrite ltb_spec, leb_spec. unfold SFltb, SFleb.
  by destruct (SFcompare _ _) as [[]|].
Qed.

Lemma above_constant_nonneg c m e x :
  Prim2SF c = S754_finite false m e →
  (c <? x)%float = true → (0 <=? x)%float = true.
Proof.
  intros Hc. rewrite ltb_spec, leb_spec, Hc.
  change (Prim2SF 0) with (S754_zero false).
  by destruct (Prim2SF x) as [[]|[]| |[] mx ex].
Qed.

Lemma below_constant_le_one c m e x :
  Prim2SF c = S754_finite false m e → (e < -52)%Z →
  (x <? c)%float = true → (x <=? 1)%float = true.
Proof.
  intros Hc He. rewrite ltb_spec, leb_spec, Hc.
  change (Prim2SF 1) with one_sf.
  destruct (Prim2SF x) as [[]|[]| |[] mx ex]; try done.
  unfold one_sf, SFleb, SFltb, SFcompare.
  destruct (Z.compare_spec ex e) as [Heq|Hlt|Hgt]; try done.
  - subst ex. by rewrite (proj2 (Z.compare_lt_iff e (-52))) by lia.
  - by rewrite (proj2 (Z.compare_lt_iff ex (-52))) by lia.
Qed.

Lemma within_leb_zero k x : within k x → (0 <=? x)%float = true.
Proof.
  unfold within. intros H. apply nonneg_leb_zero.
  by destruct (Prim2SF x) as [[]|[]| |[] mx ex].
Qed.

(** The three outcomes of [max(0.1, min(0.95, x))]. *)
Lemma clamp_cases x :
  clamp x = 0.1%float ∨ clamp x = 0.95%float ∨
  (clamp x = x ∧ (0.1 <? x)%float = true ∧ (x <? 0.95)%float = true).
Proof.
  unfold clamp, max_float, min_float.
  destruct (x <? 0.95)%float eqn:H1.
  - destruct (0.1 <? x)%float eqn:H2; [by right; right|by left].
  - right. left. by vm_compute.
Qed.

Lemma clamp_in_range x : in_range 0.1 0.95 (clamp x) ∧ in_unit (clamp x).
Proof.
  destruct (clamp_cases x) as [->|[->|(-> & Hlo & Hhi)]];
    [by vm_compute|by vm_compute|].
  split; split.
  - by apply ltb_leb.
  - by apply ltb_leb.
  - eapply (above_constant_nonneg 0.1); [by vm_compute|done].
  - eapply (below_constant_le_one 0.95); [by vm_compute|lia|done].
Qed.

Lemma persistence_priority_in_range techniques :
  (Z.of_nat (length techniques) < 2 ^ 53)%Z →
  in_unit (_calculate_persistence_priority techniques) ∧
  (_calculate_persistence_priority techniques <=? 0.95)%float = true.
Proof.
  intros Hlen. unfold _calculate_persistence_priority.
  destruct (0 <? length techniques)%nat eqn:Hpos; [|by vm_compute].
  apply Nat.ltb_lt in Hpos.
  set (ratio := true_div _ _).
  assert (Hr : within 1 ratio).
  { apply true_div_within; [|lia]. unfold count_ids.
    pose proof (List.filter_length_le (id_in persistence_techniques) techniques).
    lia. }
  assert (Hs : within 4 (0.5 + ratio * 2)%float).
  { apply (add_below_within 3); [float_const| |lia].
    apply (mul_within_below 1 2); [done|float_const|lia]. }
  unfold min_float. destruct (_ <? 0.95)%float eqn:Hlt; [|by vm_compute].
  split; [split|].
  - by apply (within_leb_zero 4).
  - eapply (below_constant_le_one 0.95); [by vm_compute|lia|done].
  - by apply ltb_leb.
Qed.

(** X12. The parameters that [generate_persona_config] computes are
    probabilities: the detection sensitivity, the exfiltration priority
    and the confidence score lie in [[0.1, 0.95]] whatever the inputs,
    the persistence priority (for fewer than 2^53 techniques) lies in
    [[0, 0.95]], the success rate in [[0, 1]], and the cap on techniques
    per phase between 3 and 7. *)
Theorem generated_parameters_in_range :
  (∀ stealth sophistication,
     in_range 0.1 0.95 (_calculate_detection_sensitivity stealth sophistication)) ∧
  (∀ techniques motivations,
     in_range 0.1 0.95 (_calculate_exfiltration_priority techniques motivations)) ∧
  (∀ group techniques software,
     in_range 0.1 0.95 (_calculate_confidence_score group techniques software)) ∧
  (∀ techniques,
     (Z.of_nat (length techniques) < 2 ^ 53)%Z →
     in_range 0 0.95 (_calculate_persistence_priority techniques)) ∧
  (∀ sophistication,
     in_unit (_calculate_success_rate sophistication) ∧
     (3 <= _calculate_max_techniques sophistication <= 7)%Z).
Proof.
  split; [|split; [|split; [|split]]].
  - intros. apply clamp_in_range.
  - intros. apply clamp_in_range.
  - intros. apply clamp_in_range.
  - intros techniques Hlen.
    destruct (persistence_priority_in_range techniques Hlen) as [[H0 _] H1].
    by split.
  - intros []; by vm_compute.
Qed.

(** *** The generated description *)

Lemma split_sentences_unfold piece c rest :
  split_sentences piece (String c rest) =
  match rest with
  | String c2 rest' =>
      if bool_decide (c = "."%char) && bool_decide (c2 = " "%char)
      then piece :: split_sentences "" rest'
      else split_sentences (piece +:+ String c "") rest
  | EmptyString => split_sentences (piece +:+ String c "") rest
  end.
Proof.
  destruct rest as [|c2 rest'].
  - by destruct c as [[] [] [] [] [] [] [] []].
  - destruct c as [[] [] [] [] [] [] [] []]; try reflexivity.
    by destruct c2 as [[] [] [] [] [] [] [] []].
Qed.

Lemma append_assoc (a b c : string) : (a +:+ b) +:+ c = a +:+ (b +:+ c).
Proof.
  induction a as [|x a IH]; [done|].
  change (String x ((a +:+ b) +:+ c) = String x (a +:+ (b +:+ c))).
  by rewrite IH.
Qed.

Lemma append_empty_r (a : string) : a +:+ "" = a.
Proof.
  induction a as [|x a IH]; [done|].
  change (String x (a +:+ "") = String x a). by rewrite IH.
Qed.

(** [". "] begins a text that starts with a full stop and a space. *)
Lemma prefix_separator c s :
  String.prefix ". " (String c s) = true ↔
  c = "."%char ∧ ∃ s', s = String " " s'.
Proof.
  change (String.prefix ". " (String c s))
    with (match ascii_dec "." c with
          | left _ => String.prefix " " s
          | right _ => false
          end).
  destruct (ascii_dec "." c) as [<-|Hne].
  - destruct s as [|d s'].
    { split; [done|]. by intros [_ [? ?]]. }
    change (String.prefix " " (String d s'))
      with (match ascii_dec " " d with
            | left _ => String.prefix "" s'
            | right _ => false
            end).
    destruct (ascii_dec " " d) as [<-|Hd].
    + split; [|by destruct s']. intros _. split; [done|]. by exists s'.
    + split; [done|]. intros [_ [s'' [= -> _]]]. done.
  - split; [done|]. intros [-> _]. done.
Qed.

(** The first piece of a split extends the piece being read by the text
    before the first [". "]: a prefix of the text without separator,
    followed by nothing or by a separator. In particular a split is never
    empty. *)
Lemma split_sentences_first n : ∀ s piece,
  (String.length s ≤ n)%nat →
  ∃ p r l, split_sentences piece s = (piece +:+ p) :: l ∧ s = p +:+ r ∧
           contains ". " p = false ∧ (r = "" ∨ String.prefix ". " r = true).
Proof.
  induction n as [|n IH]; intros s piece Hn.
  { destruct s; [|cbn in Hn; lia]. exists "", "", [].
    rewrite append_empty_r. split; [done|]. split; [done|]. split; [done|].
    by left. }
  destruct s as [|c rest].
  { exists "", "", []. rewrite append_empty_r.
    split; [done|]. split; [done|]. split; [done|]. by left. }
  cbn [String.length] in Hn. rewrite split_sentences_unfold.
  assert (Hstep : ¬ (c = "."%char ∧ ∃ s', rest = String " " s') →
    ∃ p r l,
      split_sentences (piece +:+ String c "") rest = (piece +:+ p) :: l ∧
      String c rest = p +:+ r ∧ contains ". " p = false ∧
      (r = "" ∨ String.prefix ". " r = true)).
  { intros Hsep.
    destruct (IH rest (piece +:+ String c "") ltac:(lia))
      as (p & r & l & Hsplit & Hrest & Hp & Hr).
    exists (String c p), r, l. split; [by rewrite Hsplit, append_assoc|].
    split; [by rewrite Hrest|]. split; [|done].
    change (contains ". " (String c p))
      with (String.prefix ". " (String c p) || contains ". " p).
    rewrite Hp, orb_false_r. apply not_true_is_false.
    intros [-> [p' ->]]%prefix_separator. apply Hsep. split; [done|].
    rewrite Hrest. by eexists. }
  destruct rest as [|c2 rest'].
  { apply Hstep. by intros [_ [? ?]]. }
  destruct (bool_decide (c = "."%char)) eqn:Hc;
    [destruct (bool_decide (c2 = " "%char)) eqn:Hc2|]; cbn [andb].
  - apply bool_decide_eq_true in Hc as ->.
    apply bool_decide_eq_true in Hc2 as ->.
    exists "", (String "." (String " " rest')), (split_sentences "" rest').
    rewrite append_empty_r. split; [done|]. split; [done|]. split; [done|].
    right. apply prefix_separator. split; [done|]. by eexists.
  - apply Hstep. apply bool_decide_eq_false in Hc2.
    intros [_ [s' [= -> _]]]. done.
  - apply Hstep. apply bool_decide_eq_false in Hc. by intros [-> _].
Qed.

(** The sentence that replaces an empty description. *)
Definition description_template (motivations industries : list string)
    : string :=
  "Threat group with " +:+ replace_char "_" " " (join ", " motivations)
    +:+ " motivations targeting " +:+ join ", " (take 3 industries)
    +:+ " sectors".

(** X13. [_generate_description] never returns the empty string. For a
    description of at most 200 characters it returns the description, or
    the template sentence when the description is empty or missing. For
    a longer description it returns the text before the first [". "] (the
    whole text when there is none), or the template sentence when that
    text is empty. *)
Theorem generate_description_nonempty
    (group : StixObject) (motivations industries : list string) :
  let original := get_or (o_description group) "" in
  let generated := _generate_description group motivations industries in
  let template := description_template motivations industries in
  generated ≠ "" ∧
  ((len original ≤ 200)%nat →
   generated = if bool_decide (original = "") then template else original) ∧
  ((200 < len original)%nat →
   ∃ first rest,
     original = first +:+ rest ∧ contains ". " first = false ∧
     (rest = "" ∨ String.prefix ". " rest = true) ∧
     generated = if bool_decide (first = "") then template else first).
Proof.
  intros original generated template. subst generated template.
  unfold _generate_description. fold original.
  fold (description_template motivations industries).
  assert (Ht : description_template motivations industries ≠ "") by done.
  destruct (200 <? len original)%nat eqn:Hlen.
  - apply Nat.ltb_lt in Hlen.
    destruct (split_sentences_first (String.length original) original ""
                ltac:(done)) as (p & r & l & -> & Hp & Hsep & Hr).
    cbn [append].
    split; [by case_bool_decide|]. split; [lia|].
    intros _. by exists p, r.
  - apply Nat.ltb_ge in Hlen.
    split; [by case_bool_decide|]. split; [done|lia].
Qed.

Example test_generate_description :
  let group description :=
    {| o_type := Some "intrusion-set"; o_id := Some "intrusion-set--1";
       o_name := Some "G"; o_aliases := None;
       o_description := Some description; o_external_references := None;
       o_kill_chain_phases := None; o_relationship_type := None;
       o_source_ref := None; o_target_ref := None; o_external_id := None |} in
  let long := "Targets banks. " +:+ String.concat "" (repeat "0123456789" 20) in
  _generate_description (group long) ["financial"] ["Financial"]
  = "Targets banks" ∧
  _generate_description (group "") ["financial"] ["Financial"]
  = "Threat group with financial motivations targeting Financial sectors".
Proof. by vm_compute. Qed.

(** *** The generated configuration *)

Lemma infer_target_industries_nonempty description aliases :
  _infer_target_industries description aliases ≠ [].
Proof. unfold _infer_target_industries. by destruct (detect_industries _ _ _). Qed.

Lemma infer_target_regions_nonempty description aliases :
  _infer_target_regions description aliases ≠ [].
Proof. unfold _infer_target_regions. by destruct (detect_industries _ _ _). Qed.

Lemma infer_motivations_nonempty group techniques description :
  _infer_motivations group techniques description ≠ [].
Proof.
  unfold _infer_motivations.
  destruct (collected_motivations techniques description) as [|x l]; [done|].
  intros Hnil. assert (Hx : x ∈ remove_dups (x :: l)).
  { apply elem_of_remove_dups. left. }
  rewrite Hnil in Hx. by apply elem_of_nil in Hx.
Qed.

Lemma generate_description_not_empty group motivations industries :
  _generate_description group motivations industries ≠ "".
Proof. unfold _generate_description. by case_bool_decide. Qed.

(** X14. [generate_persona_config] raises a [KeyError] exactly when the
    group has no id; otherwise (for a group with fewer than 2^53
    techniques) it returns a configuration whose industries, regions and
    motivations are non-empty, whose description override is a non-empty
    string, whose numeric parameters are probabilities, whose technique
    cap and success rate are those of the inferred sophistication level,
    and whose preferred tools are the names of the first five software
    objects of the group. *)
Theorem generate_persona_config_result
    (client : MITREStixClient) (group : StixObject) :
  (o_id group = None →
   generate_persona_config client group = Throw (KeyError "id")) ∧
  (∀ group_id,
     o_id group = Some group_id →
     (Z.of_nat (length (get_techniques_for_group client group_id)) < 2 ^ 53)%Z →
     ∃ generated,
       generate_persona_config client group = Return generated ∧
       let config := gc_config generated in
       cfg_target_industries config ≠ [] ∧
       cfg_target_regions config ≠ [] ∧
       cfg_motivations config ≠ [] ∧
       (∃ d, cfg_description_override config = Some d ∧ d ≠ "") ∧
       in_range 0.1 0.95 (cfg_detection_sensitivity config) ∧
       in_range 0 0.95 (cfg_persistence_priority config) ∧
       in_range 0.1 0.95 (cfg_data_exfiltration_priority config) ∧
       in_range 0.1 0.95 (gc_confidence_score generated) ∧
       cfg_max_techniques_per_phase config
         = _calculate_max_techniques (cfg_sophistication_level config) ∧
       (∃ rate, cfg_technique_success_rate config = Some rate ∧ in_unit rate ∧
                rate = _calculate_success_rate (cfg_sophistication_level config)) ∧
       cfg_preferred_tools config
         = map (fun s => get_or (o_name s) "")
               (take 5 (get_software_for_group client group_id)) ∧
       (length (cfg_preferred_tools config) ≤ 5)%nat).
Proof.
  unfold generate_persona_config. split; [by intros ->|].
  intros group_id -> Hlen. cbn [item mbind outcome_bind mret outcome_ret].
  eexists. split; [reflexivity|]. cbn [gc_config gc_confidence_score
    cfg_target_industries cfg_target_regions cfg_motivations
    cfg_description_override cfg_detection_sensitivity
    cfg_persistence_priority cfg_data_exfiltration_priority
    cfg_max_techniques_per_phase cfg_technique_success_rate
    cfg_sophistication_level cfg_preferred_tools].
  split; [apply infer_target_industries_nonempty|].
  split; [apply infer_target_regions_nonempty|].
  split; [apply infer_motivations_nonempty|].
  split; [eexists; split; [done|apply generate_description_not_empty]|].
  split; [apply clamp_in_range|].
  split.
  { destruct (persistence_priority_in_range _ Hlen) as [[H0 _] H1]. by split. }
  split; [apply clamp_in_range|]. split; [apply clamp_in_range|].
  split; [done|].
  split.
  { eexists. split; [done|]. split; [|done].
    by destruct (_infer_sophistication _ _ _); vm_compute. }
  split; [done|].
  rewrite length_map, length_take. lia.
Qed.

End Inference.

(** ** agents/red_team_agent_v2.py: the bookkeeping of a campaign *)
Module Campaigns.
Import Py.
Import PyFloat.
Import Persona.
Import Agent.
Local Open Scope Z_scope.

(** The tactic and the technique of an entry of [phases]. *)
Definition entry_tactic (e : PhaseEntry) : string :=
  match e with
  | Planned phase => tactic phase
  | Executed r => result_tactic r
  end.

Definition entry_technique (e : PhaseEntry) : option string :=
  match e with
  | Planned phase => technique_id phase
  | Executed r => result_technique_id r
  end.

Definition succeeded (e : PhaseEntry) : bool :=
  bool_decide (entry_status e = SUCCESS).

(** The detection event that [_execute_phase] records for a detected
    phase. *)
Definition event_of (e : PhaseEntry) : DetectionEvent :=
  {| event_phase := entry_tactic e;
     event_technique := entry_technique e;
     severity := if str_in (entry_tactic e) ["impact"; "exfiltration"]
                 then "high" else "medium" |}.

(** The objective that a successful phase of the tactic completes. *)
Definition objective_of (tactic : string) : list string :=
  if bool_decide (tactic = "initial-access") then ["initial_access"]
  else if bool_decide (tactic = "persistence") then ["persistence_established"]
  else if bool_decide (tactic = "exfiltration") then ["data_exfiltrated"]
  else [].

Definition exfiltrated (e : PhaseEntry) : bool :=
  succeeded e && bool_decide (entry_tactic e = "exfiltration").

(** The lists of the campaign that [_execute_phase] appends to, as
    functions of the executed phases. *)
Definition detections (l : list PhaseEntry) : list DetectionEvent :=
  map event_of (List.filter entry_detected l).

Definition successes (l : list PhaseEntry) : list (option string) :=
  map entry_technique (List.filter succeeded l).

Definition objectives (l : list PhaseEntry) : list string :=
  flat_map (fun e => objective_of (entry_tactic e)) (List.filter succeeded l).

Definition exfiltrations (l : list PhaseEntry) : Z :=
  Z.of_nat (length (List.filter exfiltrated l)).

(** What one call of [_execute_phase] returns and does to the campaign. *)
Definition phase_effect (phase : Phase) (target : string) (c : Campaign)
    (r : PhaseResult) (c' : Campaign) : Prop :=
  let e := Executed r in
  result_tactic r = tactic phase ∧
  result_technique_id r = technique_id phase ∧
  result_technique_name r = technique_name phase ∧
  result_target r = target ∧
  result_status r ∈ [SUCCESS; FAILED; BLOCKED] ∧
  (result_status r = BLOCKED → result_detected r = true) ∧
  detection_events c' = detection_events c ++ detections [e] ∧
  techniques_used c' = techniques_used c ++ successes [e] ∧
  objectives_completed c' = objectives_completed c ++ objectives [e] ∧
  (∃ mb, data_exfiltrated c' = data_exfiltrated c + mb ∧
         exfiltrations [e] <= mb <= 100 * exfiltrations [e]) ∧
  phases c' = phases c ∧ campaign_status c' = campaign_status c ∧
  attack_plan c' = attack_plan c.

Lemma returns_mret_bind {A B} (a : A) (f : A → Sim B) (Q : B → Prop) :
  returns (f a) Q → returns (mret a ≫= f) Q.
Proof. intros H rng. exact (H rng). Qed.

Lemma returns_assoc {A B C} (m : Sim A) (f : A → Sim B) (k : B → Sim C)
    (Q : C → Prop) :
  returns (m ≫= (λ x, f x ≫= k)) Q → returns ((m ≫= f) ≫= k) Q.
Proof.
  intros H rng. destruct (H rng) as (c & rng' & Hrun & HQ).
  exists c, rng'. split; [|done]. revert Hrun.
  unfold mbind, sim_bind. by destruct (m rng) as [[a rng1]|e].
Qed.

(** A decidable fact settled by evaluation. *)
Ltac by_compute :=
  match goal with
  | |- ?P => apply (bool_decide_unpack P); by vm_compute
  end.

(** Rewrites the tests on the tactic of the phase with what is known
    about it. *)
Ltac resolve_tactic :=
  repeat match goal with
         | H : tactic ?ph = _ |- _ => rewrite !H; clear H
         | H : tactic ?ph ≠ ?s |- context [bool_decide (tactic ?ph = ?s)] =>
             rewrite (bool_decide_false _ H)
         end.

(** Evaluates the equality tests that are settled. *)
Ltac resolve_tests :=
  repeat match goal with
         | |- context [bool_decide (?a = ?b)] =>
             first [ rewrite (bool_decide_true (a = b)) by done
                   | rewrite (bool_decide_false (a = b)) by done ]
         end.

Ltac sim_simpl := repeat first [apply returns_assoc | apply returns_mret_bind].

Lemma execute_phase_effect p client phase target c :
  is_Some (technique_id phase) →
  returns (_execute_phase p client phase target c)
    (λ rc, phase_effect phase target c rc.1 rc.2).
Proof.
  intros [id Hid].
  unfold _execute_phase. sim_draw. sim_draw.
  eapply returns_bind; [apply generate_attack_artifacts_returns|].
  intros generated _.
  eapply returns_bind.
  { unfold _generate_indicators. rewrite Hid.
    by eapply (returns_lift _ _ (λ _, True)). }
  intros found _.
  destruct (_ <? _calculate_success_probability p phase)%float;
  destruct (_ <? _calculate_detection_probability p phase)%float;
  sim_simpl; try sim_draw;
  try match goal with
      | |- context [(?z <? 0.3)%float] => destruct (z <? 0.3)%float
      end;
  sim_simpl; repeat (case_bool_decide; try congruence); sim_simpl.
  all: try (eapply returns_bind;
            [apply (returns_draw _ (λ mb, 1 <= mb <= 100));
             intros rng; by apply randint_range|];
            intros mb Hmb; cbv beta in Hmb; sim_simpl).
  all: apply returns_ret; unfold phase_effect, detections, successes,
         objectives, exfiltrations, exfiltrated, succeeded, objective_of, event_of;
       repeat (progress (cbn -[Z.mul Z.add]; resolve_tactic; resolve_tests;
                         rewrite ?app_nil_r)).
  all: repeat (split; [first [done|by_compute]|]).
  all: try (split; [|done]).
  all: first [ exists 0; split; [lia|cbn; lia]
             | exists mb; split; [reflexivity|cbn; lia] ].
Qed.

(** X15. [_execute_phase] raises a [TypeError] when the technique id of
    the phase is [None], whatever the random generator gives. When the id
    is a string it returns a result for the phase's tactic, technique and
    target whose status is SUCCESS, FAILED or BLOCKED, and BLOCKED only
    when the phase was detected; it appends a detection event exactly when
    the phase was detected, the technique id and the tactic's objective
    exactly when the status is SUCCESS, adds between 1 and 100 MB of
    exfiltrated data exactly on a successful exfiltration, and leaves the
    phase list, the plan and the status of the campaign alone. *)
Theorem execute_phase_outcome
    (p : AttackerPersona) (client : MITREStixClient) (phase : Phase)
    (target : string) (c : Campaign) :
  (technique_id phase = None →
   ∀ rng, _execute_phase p client phase target c rng
          = Raise (TypeError "argument of type 'NoneType' is not iterable")) ∧
  (is_Some (technique_id phase) →
   returns (_execute_phase p client phase target c)
    (λ rc,
       let r := rc.1 in
       let c' := rc.2 in
       result_tactic r = tactic phase ∧
       result_technique_id r = technique_id phase ∧
       result_target r = target ∧
       result_status r ∈ [SUCCESS; FAILED; BLOCKED] ∧
       (result_status r = BLOCKED → result_detected r = true) ∧
       detection_events c' =
         detection_events c ++
         (if result_detected r then [event_of (Executed r)] else []) ∧
       techniques_used c' =
         techniques_used c ++
         (if bool_decide (result_status r = SUCCESS)
          then [technique_id phase] else []) ∧
       objectives_completed c' =
         objectives_completed c ++
         (if bool_decide (result_status r = SUCCESS)
          then objective_of (tactic phase) else []) ∧
       (if bool_decide (result_status r = SUCCESS) &&
           bool_decide (tactic phase = "exfiltration")
        then data_exfiltrated c + 1 <= data_exfiltrated c'
             <= data_exfiltrated c + 100
        else data_exfiltrated c' = data_exfiltrated c) ∧
       phases c' = phases c ∧ campaign_status c' = campaign_status c ∧
       attack_plan c' = attack_plan c)).
Proof.
  split.
  { intros Hnone rng. by apply execute_phase_type_error. }
  intros Hsome.
  eapply returns_weaken; [by apply execute_phase_effect|].
  intros [r c'] (Ht & Hid & _ & Htarget & Hst & Hbl & Hev & Htech & Hobj
                 & (mb & Hdata & Hmb) & Hph & Hcs & Hplan).
  cbn [fst snd] in *.
  unfold detections, successes, objectives, exfiltrations, exfiltrated,
    succeeded in *.
  cbn [List.filter entry_detected entry_status entry_tactic] in *.
  repeat (split; [done|]).
  split; [by destruct (result_detected r)|].
  split.
  { rewrite Htech. destruct (bool_decide (result_status r = SUCCESS)); [|done].
    cbn. by rewrite Hid. }
  split.
  { rewrite Hobj. destruct (bool_decide (result_status r = SUCCESS)); [|done].
    cbn. by rewrite Ht, app_nil_r. }
  split; [|done]. rewrite Ht in Hmb.
  destruct (bool_decide (result_status r = SUCCESS) &&
            bool_decide (tactic phase = "exfiltration"));
    cbn in Hmb; lia.
Qed.

(** *** The campaign as a function of its executed phases *)

(** The invariant of the execution loop: the lists and the counter of
    the campaign are determined by the list of executed phases. *)
Definition executed_entry (e : PhaseEntry) : Prop :=
  entry_status e ∈ [SUCCESS; FAILED; BLOCKED] ∧
  (entry_status e = BLOCKED → entry_detected e = true).

Definition bookkept (c : Campaign) : Prop :=
  detection_events c = detections (phases c) ∧
  techniques_used c = successes (phases c) ∧
  objectives_completed c = objectives (phases c) ∧
  exfiltrations (phases c) <= data_exfiltrated c
    <= 100 * exfiltrations (phases c) ∧
  Forall executed_entry (phases c).

Lemma bookkept_step phase target c r c1 :
  bookkept c → phase_effect phase target c r c1 →
  bookkept (append_phase (Executed r) c1).
Proof.
  intros (Hev & Htech & Hobj & Hdata & Hall)
         (_ & _ & _ & _ & Hst & Hbl & Hev1 & Htech1 & Hobj1
          & (mb & Hdata1 & Hmb) & Hph & _ & _).
  unfold bookkept, append_phase. cbn [phases set_phases detection_events
    techniques_used objectives_completed data_exfiltrated].
  rewrite Hph.
  unfold detections, successes, objectives, exfiltrations in *.
  rewrite !List.filter_app, !map_app, flat_map_app, length_app.
  rewrite Hev1, Htech1, Hobj1, Hdata1, Hev, Htech, Hobj.
  repeat (split; [done|]). split; [lia|].
  apply Forall_app. split; [done|]. by apply Forall_singleton.
Qed.

Lemma campaign_loop_bookkept p client target plan c :
  string_ids p → Forall (λ phase, is_Some (technique_id phase)) plan →
  bookkept c →
  returns (campaign_loop p client target true plan c)
    (λ c', bookkept c' ∧
           (length (phases c) + length plan <= length (phases c')
            <= length (phases c) + 2 * length plan)%nat ∧
           campaign_status c' = campaign_status c ∧
           attack_plan c' = attack_plan c).
Proof.
  intros Hids Hplan_ids. revert c.
  induction plan as [|phase rest IH]; intros c Hc; cbn [campaign_loop].
  { apply returns_ret. cbn [length]. split; [done|]. split; [lia|done]. }
  apply Forall_cons in Hplan_ids as [Hphase Hrest]. specialize (IH Hrest).
  eapply returns_bind; [by apply execute_phase_effect|].
  intros [r c1] Heff. cbn [fst snd] in Heff.
  pose proof (bookkept_step _ _ _ _ _ Hc Heff) as Hc1.
  destruct Heff as (_ & _ & _ & _ & _ & _ & _ & _ & _ & _ & Hph & Hcs & Hplan).
  set (c2 := append_phase (Executed r) c1) in *.
  assert (Hlen2 : length (phases c2) = S (length (phases c))).
  { subst c2. cbn. rewrite length_app, Hph. cbn. lia. }
  eapply (returns_bind _ _
            (λ c3, bookkept c3 ∧
                   (S (length (phases c)) <= length (phases c3)
                    <= 2 + length (phases c))%nat ∧
                   campaign_status c3 = campaign_status c ∧
                   attack_plan c3 = attack_plan c)).
  { assert (Hkeep : bookkept c2 ∧
                    (S (length (phases c)) <= length (phases c2)
                     <= 2 + length (phases c))%nat ∧
                    campaign_status c2 = campaign_status c ∧
                    attack_plan c2 = attack_plan c).
    { split; [done|]. split; [lia|]. by subst c2. }
    case_bool_decide; [|by apply returns_ret].
    eapply returns_bind; [by apply (returns_draw _ (λ _, True))|].
    intros stealth _. destruct stealth; [|by apply returns_ret].
    eapply returns_bind; [by apply get_alternative_technique_ids|].
    intros [alt_phase|] Halt; [|by apply returns_ret].
    eapply returns_bind; [by apply execute_phase_effect, Halt|].
    intros [r2 c3] Heff2. cbn [fst snd] in Heff2.
    pose proof (bookkept_step _ _ _ _ _ Hc1 Heff2) as Hc3.
    destruct Heff2
      as (_ & _ & _ & _ & _ & _ & _ & _ & _ & _ & Hph2 & Hcs2 & Hplan2).
    apply returns_ret. split; [done|]. cbn.
    rewrite length_app, Hph2, Hlen2, Hcs2, Hplan2. cbn.
    split; [lia|]. by subst c2. }
  intros c3 (Hc3 & Hlen3 & Hcs3 & Hplan3).
  eapply returns_weaken; [by apply IH|].
  intros c' (Hc' & Hlen' & Hcs' & Hplan'). cbn [length].
  split; [done|]. split; [lia|]. split; congruence.
Qed.

(** [k / n if n > 0 else 0]. *)
Definition rate (k n : Z) : float :=
  if 0 <? n then true_div k n else 0%float.

Lemma calculate_campaign_metrics_inv c c' :
  _calculate_campaign_metrics c = Ok c' →
  ∃ risk,
    c' = set_metrics
           (rate (count_phases succeeded (phases c))
                 (Z.of_nat (length (phases c))))
           (rate (count_phases entry_detected (phases c))
                 (Z.of_nat (length (phases c))))
           (achieved_objectives c) risk c.
Proof.
  unfold _calculate_campaign_metrics.
  destruct (discounted_risk _ _) as [risk|e]; [|done].
  intros [= <-]. by exists risk.
Qed.

Lemma new_campaign_bookkept d target scenario hours plan :
  bookkept (set_attack_plan plan (new_campaign d target scenario hours)).
Proof. by repeat split. Qed.

(** What [execute_attack_campaign] returns when it executes the plan. *)
Definition executed_campaign (c : Campaign) : Prop :=
  bookkept c ∧
  (length (attack_plan c) <= length (phases c)
   <= 2 * length (attack_plan c))%nat ∧
  campaign_status c = "completed" ∧
  success_rate c
    = Some (rate (Z.of_nat (length (techniques_used c)))
                 (Z.of_nat (length (phases c)))) ∧
  detection_rate c
    = Some (rate (Z.of_nat (length (detection_events c)))
                 (Z.of_nat (length (phases c)))) ∧
  objectives_achieved c
    = Some {| initial_access := str_in "initial_access" (objectives_completed c);
              persistence :=
                str_in "persistence_established" (objectives_completed c);
              data_theft := str_in "data_exfiltrated" (objectives_completed c);
              lateral_movement :=
                existsb successful_lateral_movement (phases c) |}.

Lemma execute_attack_campaign_executed self p target scenario hours :
  persona self = Some p → representable p → string_ids p →
  returns (execute_attack_campaign self target scenario hours true)
    (λ cs, executed_campaign cs.1).
Proof.
  intros Hp Hsize Hids. unfold execute_attack_campaign. rewrite Hp.
  destruct (to_dict_total p) as [d Hd].
  eapply returns_bind; [by eapply (returns_lift _ _ (λ x, x = d))|].
  intros ? ->.
  eapply returns_bind.
  { apply returns_and; [apply generate_persona_attack_plan_returns|].
    by apply generate_persona_attack_plan_ids. }
  intros plan [Hplan Hplan_ids]. cbv beta in Hplan.
  eapply returns_bind;
    [by apply campaign_loop_bookkept, new_campaign_bookkept|].
  intros c (Hc & Hlen & Hcs & Hap). cbn in Hlen, Hcs, Hap.
  destruct (calculate_campaign_metrics_total (set_status "completed" c))
    as (c' & n & Hrun & _).
  { cbn. unfold representable in Hsize.
    change (2 ^ 53) with (2 * 2 ^ 52). change (2 ^ 52) with 4503599627370496 in *.
    lia. }
  eapply returns_bind; [by eapply (returns_lift _ _ (λ x, x = c'))|].
  intros ? ->. apply returns_ret. cbn [fst].
  apply calculate_campaign_metrics_inv in Hrun as [risk ->].
  destruct Hc as (Hev & Htech & Hobj & Hdata & Hall).
  unfold executed_campaign, bookkept.
  cbn [set_metrics set_status phases detection_events techniques_used
       objectives_completed data_exfiltrated attack_plan campaign_status
       success_rate detection_rate objectives_achieved].
  rewrite Hap. split; [done|]. split; [lia|]. split; [done|].
  split; [|split; [|done]].
  - rewrite Htech. unfold successes, count_phases. by rewrite length_map.
  - rewrite Hev. unfold detections, count_phases. by rewrite length_map.
Qed.

(** X16. For a persona whose techniques have string ids (none has the
    external id [None]), a campaign run with [auto_execute] returns and
    holds between one and two executed phases per phase of its plan, each
    with status SUCCESS, FAILED or BLOCKED (BLOCKED only if detected); its
    detection events are those of its detected phases and its used
    techniques those of its successful phases, in order; and its success
    and detection rates are the numbers of used techniques and of
    detection events divided by the number of phases. *)
Theorem executed_campaign_bookkeeping
    (self : RedTeamAgent) (p : AttackerPersona) (target scenario : string)
    (hours : Z) :
  persona self = Some p → representable p → string_ids p →
  returns (execute_attack_campaign self target scenario hours true)
    (λ cs,
       let c := cs.1 in
       (length (attack_plan c) <= length (phases c)
        <= 2 * length (attack_plan c))%nat ∧
       Forall (λ e, entry_status e ∈ [SUCCESS; FAILED; BLOCKED] ∧
                    (entry_status e = BLOCKED → entry_detected e = true))
              (phases c) ∧
       detection_events c = map event_of (List.filter entry_detected (phases c)) ∧
       techniques_used c = map entry_technique (List.filter succeeded (phases c)) ∧
       success_rate c
         = Some (rate (Z.of_nat (length (techniques_used c)))
                      (Z.of_nat (length (phases c)))) ∧
       detection_rate c
         = Some (rate (Z.of_nat (length (detection_events c)))
                      (Z.of_nat (length (phases c))))).
Proof.
  intros Hp Hsize Hids.
  eapply returns_weaken; [by apply (execute_attack_campaign_executed self p)|].
  intros [c self'] ((Hev & Htech & _ & _ & Hall) & Hlen & _ & Hsr & Hdr & _).
  cbn [fst] in *. done.
Qed.

Lemma sample_persona_string_ids : string_ids (sample_persona 3).
Proof. unfold string_ids. cbn. by repeat constructor. Qed.

Lemma executed_campaign_bookkeeping_witness :
  representable (sample_persona 3) ∧ string_ids (sample_persona 3) ∧
  ∃ c self' rng',
    execute_attack_campaign sample_agent "10.0.0.5" "full_chain" 24 true
      (constant_rng 0) = Ok (c, self', rng') ∧
    (length (attack_plan c) <= length (phases c))%nat ∧
    techniques_used c = map entry_technique (List.filter succeeded (phases c)).
Proof.
  assert (H : representable (sample_persona 3)) by (by vm_compute).
  split; [exact H|]. split; [exact sample_persona_string_ids|].
  destruct (executed_campaign_bookkeeping sample_agent (sample_persona 3)
              "10.0.0.5" "full_chain" 24 eq_refl H sample_persona_string_ids
              (constant_rng 0))
    as ([c self'] & rng' & Hrun & Hlen & _ & _ & Htech & _).
  exists c, self', rng'. cbn [fst] in *. split; [exact Hrun|].
  split; [exact (proj1 Hlen)|exact Htech].
Defined.

Lemma objectives_elem x l :
  x ∈ objectives l ↔
  ∃ e, e ∈ l ∧ succeeded e = true ∧ x ∈ objective_of (entry_tactic e).
Proof.
  unfold objectives. rewrite list_elem_of_In, in_flat_map.
  split; intros (e & He & Hx); exists e.
  - apply filter_In in He as [He Hs]. by rewrite !list_elem_of_In.
  - destruct Hx as [Hs Hx]. rewrite filter_In, <- !list_elem_of_In. done.
Qed.

Lemma objective_of_elem x tactic :
  x ∈ objective_of tactic ↔
  (x = "initial_access" ∧ tactic = "initial-access") ∨
  (x = "persistence_established" ∧ tactic = "persistence") ∨
  (x = "data_exfiltrated" ∧ tactic = "exfiltration").
Proof.
  unfold objective_of. repeat case_bool_decide; subst;
    rewrite ?list_elem_of_singleton, ?elem_of_nil; intuition congruence.
Qed.

Lemma exfiltrations_pos l :
  0 < exfiltrations l ↔
  ∃ e, e ∈ l ∧ succeeded e = true ∧ entry_tactic e = "exfiltration".
Proof.
  unfold exfiltrations. split.
  - intros Hpos. destruct (List.filter exfiltrated l) as [|e l'] eqn:Hf;
      [cbn in Hpos; lia|].
    assert (He : In e (List.filter exfiltrated l)) by (rewrite Hf; left; done).
    apply filter_In in He as [He Hx]. exists e.
    apply andb_true_iff in Hx as [Hs Ht%bool_decide_eq_true].
    by rewrite list_elem_of_In.
  - intros (e & He & Hs & Ht).
    assert (Hin : In e (List.filter exfiltrated l)).
    { apply filter_In. split; [by apply list_elem_of_In|].
      unfold exfiltrated. by rewrite Hs, bool_decide_true. }
    destruct (List.filter exfiltrated l); [done|]. cbn. lia.
Qed.

(** X17. In a campaign run with [auto_execute] for a persona whose
    techniques have string ids, the exfiltrated volume lies between 1 and
    100 MB per successful exfiltration phase, and the objectives recorded
    at the end are those of the successful phases: initial access,
    persistence and data theft are achieved exactly when a phase of that
    tactic succeeded, and data theft exactly when the exfiltrated volume
    is positive. *)
Theorem executed_campaign_objectives
    (self : RedTeamAgent) (p : AttackerPersona) (target scenario : string)
    (hours : Z) :
  persona self = Some p → representable p → string_ids p →
  returns (execute_attack_campaign self target scenario hours true)
    (λ cs,
       let c := cs.1 in
       let achieved tactic :=
         ∃ e, e ∈ phases c ∧ entry_status e = SUCCESS ∧
              entry_tactic e = tactic in
       exfiltrations (phases c) <= data_exfiltrated c
         <= 100 * exfiltrations (phases c) ∧
       ∃ o, objectives_achieved c = Some o ∧
            (initial_access o = true ↔ achieved "initial-access") ∧
            (persistence o = true ↔ achieved "persistence") ∧
            (data_theft o = true ↔ achieved "exfiltration") ∧
            (data_theft o = true ↔ 0 < data_exfiltrated c)).
Proof.
  intros Hp Hsize Hids.
  eapply returns_weaken; [by apply (execute_attack_campaign_executed self p)|].
  intros [c self'] ((_ & _ & Hobj & Hdata & _) & _ & _ & _ & _ & Ho).
  cbn [fst] in *. split; [done|]. eexists. split; [exact Ho|].
  cbn [initial_access persistence data_theft]. unfold str_in.
  rewrite !bool_decide_eq_true, Hobj, !objectives_elem.
  assert (Hach : ∀ x tactic,
    (∀ t, x ∈ objective_of t ↔ t = tactic) →
    (∃ e, e ∈ phases c ∧ succeeded e = true ∧ x ∈ objective_of (entry_tactic e))
    ↔ ∃ e, e ∈ phases c ∧ entry_status e = SUCCESS ∧ entry_tactic e = tactic).
  { intros x tactic Hx. unfold succeeded.
    split; intros (e & He & Hs & Ht); exists e.
    - apply bool_decide_eq_true in Hs. by apply Hx in Ht.
    - rewrite bool_decide_eq_true. by apply Hx in Ht. }
  split; [|split; [|split]].
  - apply Hach. intros t. rewrite objective_of_elem. intuition congruence.
  - apply Hach. intros t. rewrite objective_of_elem. intuition congruence.
  - apply Hach. intros t. rewrite objective_of_elem. intuition congruence.
  - rewrite (Hach "data_exfiltrated" "exfiltration").
    + pose proof (exfiltrations_pos (phases c)) as Hpos.
      unfold succeeded in Hpos. setoid_rewrite bool_decide_eq_true in Hpos.
      rewrite <- Hpos. lia.
    + intros t. rewrite objective_of_elem. intuition congruence.
Qed.

Lemma executed_campaign_objectives_witness :
  representable (sample_persona 3) ∧ string_ids (sample_persona 3) ∧
  ∃ c self' rng',
    execute_attack_campaign sample_agent "10.0.0.5" "data_theft" 24 true
      (constant_rng 0) = Ok (c, self', rng') ∧
    exfiltrations (phases c) <= data_exfiltrated c ∧
    ∃ o, objectives_achieved c = Some o ∧
         (data_theft o = true ↔ 0 < data_exfiltrated c).
Proof.
  assert (H : representable (sample_persona 3)) by (by vm_compute).
  split; [exact H|]. split; [exact sample_persona_string_ids|].
  destruct (executed_campaign_objectives sample_agent (sample_persona 3)
              "10.0.0.5" "data_theft" 24 eq_refl H sample_persona_string_ids
              (constant_rng 0))
    as ([c self'] & rng' & Hrun & Hdata & o & Ho & _ & _ & _ & Hpos).
  exists c, self', rng'. cbn [fst] in *. split; [exact Hrun|].
  split; [exact (proj1 Hdata)|]. exists o. split; [exact Ho|exact Hpos].
Defined.

(** *** The attack plan *)

(** The phase of the plan built for a chain entry. *)
Definition planned_for (p : AttackerPersona) (phase : Phase) (e : ChainEntry)
    : Prop :=
  tactic phase = ce_tactic e ∧ technique_id phase = ce_technique_id e ∧
  technique_name phase = ce_technique_name e ∧
  phase_description phase = ce_description e ∧
  priority phase = _get_tactic_priority p (ce_tactic e).

Lemma plan_loop_mirrors p chain acc rng plan rng' :
  plan_loop p chain acc rng = Ok (plan, rng') →
  ∃ added, plan = acc ++ added ∧ Forall2 (planned_for p) added chain.
Proof.
  revert acc rng. induction chain as [|e chain IH]; intros acc rng.
  { intros [= <- <-]. exists []. by rewrite app_nil_r. }
  cbn [plan_loop]. unfold mbind at 1, sim_bind at 1.
  destruct (_calculate_phase_delay p rng) as [[delay rng1]|err]; [|done].
  unfold mbind at 1, sim_bind at 1, draw.
  destruct (should_use_stealth_technique p rng1) as [stealth rng2].
  intros (added & -> & Hall)%IH. eexists (_ :: added).
  split; [by rewrite <- app_assoc|]. by constructor.
Qed.

Lemma tactic_priority_range p tactic : 3 <= _get_tactic_priority p tactic <= 10.
Proof.
  unfold _get_tactic_priority.
  repeat case_bool_decide; repeat case_match; lia.
Qed.

(** X18. [_generate_persona_attack_plan] always returns, with exactly
    one phase per entry of the persona's attack chain, in the same order
    and with the same tactic, technique id, name and description; every
    phase therefore uses a technique of the persona classified under the
    phase's tactic, which is one of the persona's tactics, and carries
    the priority of its tactic, between 3 and 10. *)
Theorem attack_plan_mirrors_chain
    (p : AttackerPersona) (scenario : string) (rng : Rng) :
  ∃ plan rng',
    _generate_persona_attack_plan p scenario rng = Ok (plan, rng') ∧
    Forall2 (planned_for p) plan (get_attack_chain p scenario rng).1 ∧
    Forall (λ phase,
              tactic phase ∈ tactics p ∧
              3 <= priority phase <= 10 ∧
              ∃ t, t ∈ techniques p ∧ classified_under (tactic phase) t ∧
                   technique_id phase = get_or (o_external_id t) (Some ""))
           plan.
Proof.
  destruct (generate_persona_attack_plan_returns p scenario rng)
    as (plan & rng' & Hrun & _).
  exists plan, rng'. split; [done|].
  unfold _generate_persona_attack_plan in Hrun.
  unfold mbind at 1, sim_bind at 1, draw in Hrun.
  destruct (get_attack_chain p scenario rng) as [chain rng1] eqn:Hchain.
  apply plan_loop_mirrors in Hrun as (added & -> & Hall). cbn [app fst].
  split; [done|].
  assert (Hentries : ∀ e, e ∈ chain → entry_ok p e).
  { intros e He. replace chain with (get_attack_chain p scenario rng).1 in He
      by (by rewrite Hchain).
    apply build_chain_entries in He as [He|[_ He]]; [|done].
    by apply elem_of_nil in He. }
  clear Hchain. induction Hall as [|phase e added chain Hpe Hall IH];
    [by constructor|].
  constructor.
  - destruct Hpe as (Ht & Hid & _ & _ & Hprio).
    destruct (Hentries e ltac:(left)) as (Htac & t & Hin & Hcl & He).
    rewrite Ht, Hprio, Hid. split; [done|].
    split; [apply tactic_priority_range|].
    exists t. split; [done|]. split; [done|]. by rewrite He.
  - apply IH. intros e' He'. apply Hentries. by right.
Qed.

(** X19. [_get_alternative_technique] always returns; an alternative
    phase keeps the tactic and the priority of the original phase, is in
    stealth mode, and uses a technique of the persona classified under
    that tactic whose [external_id] value ([None] when it has none) is not
    the original technique id. The technique id of the alternative phase
    then differs from the original one whenever the technique has the key
    [external_id] or the original id is not the empty string; a technique
    without the key can be chosen again for the original id [""]. [None]
    is returned exactly when the persona has no such technique. *)
Theorem alternative_technique_differs
    (p : AttackerPersona) (original_phase : Phase) (rng : Rng) :
  let other t :=
    t ∈ techniques p ∧ classified_under (tactic original_phase) t ∧
    get_or (o_external_id t) None ≠ technique_id original_phase in
  ∃ alternative rng',
    _get_alternative_technique p original_phase rng = Ok (alternative, rng') ∧
    match alternative with
    | Some phase =>
        tactic phase = tactic original_phase ∧
        priority phase = priority original_phase ∧
        stealth_mode phase = true ∧
        ∃ t, other t ∧
             technique_id phase = get_or (o_external_id t) (Some "") ∧
             technique_name phase = get_or (o_name t) "" ∧
             (is_Some (o_external_id t) ∨
              technique_id original_phase ≠ Some "" →
              technique_id phase ≠ technique_id original_phase)
    | None => ∀ t, ¬ other t
    end.
Proof.
  intros other. unfold _get_alternative_technique.
  unfold mbind at 1, sim_bind at 1, draw.
  pose proof (collect_matching_spec (techniques p) (tactic original_phase)
                [technique_id original_phase] []) as Hspec.
  assert (Hother : ∀ t,
    t ∈ collect_matching (techniques p) (tactic original_phase)
          [technique_id original_phase] [] ↔ other t).
  { intros t. rewrite Hspec, elem_of_nil. unfold other, not_excluded.
    rewrite list_elem_of_singleton. split.
    - by intros [[]|?].
    - by right. }
  unfold select_technique_for_tactic. cbn [get_or].
  destruct (collect_matching _ _ _ _) as [|first others] eqn:Hm.
  { eexists None, rng. split; [done|]. intros t Ht%Hother.
    by apply elem_of_nil in Ht. }
  assert (Hsel : ∀ t, t ∈ first :: others → other t) by (intros t; apply Hother).
  assert (Hfinish : ∀ t rng1, t ∈ first :: others →
    ∃ alternative rng',
      (if truthy t
       then delay ← _calculate_phase_delay p;
            mret (Some {| tactic := tactic original_phase;
                          technique_id := get_or (o_external_id t) (Some "");
                          technique_name := get_or (o_name t) "";
                          phase_description :=
                            slice_to 200 (get_or (o_description t) "");
                          expected_delay_minutes := delay;
                          stealth_mode := true;
                          priority := priority original_phase |})
       else mret None) rng1 = Ok (alternative, rng') ∧
      match alternative with
      | Some phase =>
          tactic phase = tactic original_phase ∧
          priority phase = priority original_phase ∧
          stealth_mode phase = true ∧
          ∃ t, other t ∧
               technique_id phase = get_or (o_external_id t) (Some "") ∧
               technique_name phase = get_or (o_name t) "" ∧
               (is_Some (o_external_id t) ∨
                technique_id original_phase ≠ Some "" →
                technique_id phase ≠ technique_id original_phase)
      | None => ∀ t, ¬ other t
      end).
  { intros t rng1 Ht. apply Hsel in Ht as Ho.
    destruct Ho as (Hin & Hcl & Hid).
    rewrite (classified_truthy _ _ Hcl).
    destruct (calculate_phase_delay_returns p rng1)
      as (delay & rng2 & Hdelay & _).
    unfold mbind, sim_bind. rewrite Hdelay.
    eexists (Some _), rng2. split; [done|]. cbn.
    repeat (split; [done|]). exists t. repeat (split; [done|]).
    destruct (o_external_id t) as [v|]; cbn [get_or] in *.
    - by intros _.
    - intros [[? [=]]|Hne]. congruence. }
  destruct (sophistication_level p); try (apply Hfinish; left).
  pose proof (choice_elem first others rng) as Hc.
  destruct (choice first others rng) as [t rng1]. by apply Hfinish.
Qed.

(** Two techniques without external id under one tactic: the alternative
    to the first, whose phase has the id [""], is the first again. *)
Definition unlabelled (name : string) : Technique :=
  {| o_type := Some "attack-pattern"; o_id := None; o_name := Some name;
     o_aliases := None; o_description := None; o_external_references := None;
     o_kill_chain_phases :=
       Some [ {| kill_chain_name := Some "mitre-attack";
                 phase_name := Some "execution" |} ];
     o_relationship_type := None; o_source_ref := None; o_target_ref := None;
     o_external_id := None |}.

Example test_alternative_without_external_id :
  let p := {| stix_id := "custom--demo"; mitre_id := "C0000"; name := "Demo";
              aliases := []; description := ""; tactics := ["execution"];
              techniques := [unlabelled "First"; unlabelled "Second"];
              software := [];
              sophistication_level := MEDIUM; stealth_preference := NOISY;
              attack_speed := MODERATE; target_industries := [];
              target_regions := []; motivations := []; preferred_tools := [];
              max_techniques_per_phase := 3; technique_success_rate := 0.7;
              detection_sensitivity := 0.5; persistence_priority := 0.8;
              data_exfiltration_priority := 0.6 |} in
  let original :=
    {| tactic := "execution"; technique_id := Some ""; technique_name := "First";
       phase_description := "..."; expected_delay_minutes := 30;
       stealth_mode := false; priority := 9 |} in
  _get_alternative_technique p original (constant_rng 0)
    ≫= (λ r, mret (option_map (λ ph, (technique_id ph, technique_name ph)) r.1))
  = Ok (Some (Some "", "First")).
Proof. by vm_compute. Qed.

(** *** Mitigation suggestions *)

Definition default_suggestion : string := "Implement defense-in-depth strategy".

(** The suggestions that [_get_mitigation_suggestions] draws from. *)
Definition known_suggestions : list string :=
  ["Implement email filtering and sandboxing";
   "User security awareness training"; "Network segmentation";
   "Application whitelisting"; "Disable unnecessary scripting engines";
   "Monitor process creation"; "Regular system audits";
   "Monitor autostart locations"; "Implement least privilege";
   "Data loss prevention (DLP)"; "Network traffic monitoring";
   "Encrypt sensitive data"].

Definition covered_tactics : list (option string) :=
  [Some "initial-access"; Some "execution"; Some "persistence";
   Some "exfiltration"].

Lemma collect_mitigations_known phases acc x :
  x ∈ collect_mitigations phases acc → x ∈ acc ∨ x ∈ known_suggestions.
Proof.
  revert acc. induction phases as [|ph phases IH]; intros acc; [by left|].
  cbn [collect_mitigations]. intros [Hx|Hx]%IH; [|by right].
  repeat case_bool_decide; try by left.
  all: apply elem_of_app in Hx as [Hx|Hx]; [by left|right].
  all: repeat (apply elem_of_cons in Hx as [->|Hx]; [by_compute|]).
  all: by apply elem_of_nil in Hx.
Qed.

Lemma collect_mitigations_uncovered phases acc :
  (∀ ph, ph ∈ phases → phase_name ph ∉ covered_tactics) →
  collect_mitigations phases acc = acc.
Proof.
  revert acc. induction phases as [|ph phases IH]; intros acc Hun; [done|].
  cbn [collect_mitigations].
  assert (Hph : phase_name ph ∉ covered_tactics) by (apply Hun; left).
  rewrite IH by (intros ph' Hin; apply Hun; by right).
  repeat case_bool_decide; try done; exfalso; apply Hph;
    match goal with H : phase_name ph = _ |- _ => rewrite H end; by_compute.
Qed.

Lemma find_technique_external_id technique_id patterns t :
  find_technique technique_id patterns = Some t →
  o_external_id t = Some technique_id.
Proof.
  induction patterns as [|pattern patterns IH]; [done|].
  cbn [find_technique]. destruct (has_attack_id _ _); [|done].
  by intros [= <-].
Qed.

(** X20. [_get_mitigation_suggestions] returns the single default
    suggestion exactly when the technique id is unknown to the client;
    for a known technique it returns at most three distinct suggestions
    of the twelve tactic-specific ones, and none at all when the
    technique has no phase among initial-access, execution, persistence
    and exfiltration. *)
Theorem mitigation_suggestions_bounds
    (client : MITREStixClient) (technique_id : option string) :
  let suggestions := _get_mitigation_suggestions client technique_id in
  (length suggestions <= 3)%nat ∧ NoDup suggestions ∧
  (get_technique_by_id client technique_id = None ↔
   suggestions = [default_suggestion]) ∧
  (∀ t, get_technique_by_id client technique_id = Some t →
        (∀ x, x ∈ suggestions → x ∈ known_suggestions) ∧
        ((∀ ph, ph ∈ get_or (o_kill_chain_phases t) [] →
                phase_name ph ∉ covered_tactics) →
         suggestions = [])).
Proof.
  intros suggestions. subst suggestions. unfold _get_mitigation_suggestions.
  destruct (get_technique_by_id client technique_id) as [t|] eqn:Hfind.
  - apply find_technique_external_id in Hfind as Hid.
    assert (Ht : truthy t = true).
    { unfold truthy.
      rewrite (bool_decide_true (is_Some (o_external_id t))) by eauto.
      apply orb_true_r. }
    rewrite Ht. cbn [negb].
    assert (Hknown : ∀ x,
      x ∈ take 3 (remove_dups (collect_mitigations
                                 (get_or (o_kill_chain_phases t) []) [])) →
      x ∈ known_suggestions).
    { intros x Hx.
      assert (Hx' : x ∈ remove_dups (collect_mitigations
                                       (get_or (o_kill_chain_phases t) []) [])).
      { apply (elem_of_submseteq _ _ _ Hx), sublist_submseteq, sublist_take. }
      apply elem_of_remove_dups, collect_mitigations_known in Hx' as [H|H];
        [|done].
      by apply elem_of_nil in H. }
    split; [rewrite length_take; lia|].
    split.
    { eapply sublist_NoDup; [apply NoDup_remove_dups|apply sublist_take]. }
    split.
    + split; [done|]. intros Heq.
      assert (Hd : default_suggestion ∈ known_suggestions).
      { apply Hknown. rewrite Heq. left. }
      revert Hd. by_compute.
    + intros t' [= <-]. split; [done|]. intros Hun.
      by rewrite collect_mitigations_uncovered.
  - split; [cbn; lia|]. split; [apply NoDup_singleton|]. split; [done|].
    by intros t.
Qed.

(** *** The findings of the report *)

(** [_generate_key_findings]; a metric that is missing reads as 0 and a
    missing objectives dictionary as empty. *)
Definition _generate_key_findings (campaign : Campaign) : list string :=
  let findings := [] in
  let success := get_or (success_rate campaign) 0%float in
  let findings :=
    if (0.7 <? success)%float then
      findings ++ ["High success rate indicates weak defensive controls"]
    else if (success <? 0.3)%float then
      findings ++ ["Low success rate shows effective security measures"]
    else findings in
  let detection := get_or (detection_rate campaign) 0%float in
  let findings :=
    if (detection <? 0.3)%float then
      findings ++ ["Low detection rate - improve monitoring capabilities"]
    else if (0.7 <? detection)%float then
      findings ++ ["Good detection capabilities in place"]
    else findings in
  let objectives := objectives_achieved campaign in
  let findings :=
    if get_or (persistence <$> objectives) false then
      findings ++ ["Attacker achieved persistence - system compromise likely"]
    else findings in
  let findings :=
    if get_or (data_theft <$> objectives) false then
      findings ++ ["Data exfiltration successful - "
                   +:+ pretty (data_exfiltrated campaign) +:+ " MB stolen"]
    else findings in
  let findings :=
    if get_or (lateral_movement <$> objectives) false then
      findings ++ ["Lateral movement achieved - network segmentation issues"]
    else findings in
  findings.

(** The body of the loop of [_generate_recommendations] for one entry. *)
Definition recommend (recommendations : list string) (phase : PhaseEntry)
    : list string :=
  if bool_decide (entry_status phase = SUCCESS) then
    let tactic := entry_tactic phase in
    if bool_decide (tactic = "initial-access") && negb (entry_detected phase)
    then recommendations
           ++ ["Enhance email security and user awareness training"]
    else if bool_decide (tactic = "persistence") && negb (entry_detected phase)
    then recommendations ++ ["Implement system integrity monitoring"]
    else if bool_decide (tactic = "lateral-movement")
    then recommendations
           ++ ["Improve network segmentation and access controls"]
    else if bool_decide (tactic = "exfiltration")
    then recommendations ++ ["Deploy data loss prevention (DLP) solutions"]
    else recommendations
  else recommendations.

(** [_generate_recommendations]: [list(set(recommendations))[:5]], the
    set being listed by first occurrence. *)
Definition _generate_recommendations (campaign : Campaign) : list string :=
  let recommendations := foldl recommend [] (phases campaign) in
  let recommendations :=
    if (get_or (detection_rate campaign) 0 <? 0.5)%float
    then recommendations ++ ["Enhance security monitoring and alerting"]
    else recommendations in
  let recommendations :=
    if (70 <? get_or (risk_score campaign) 0)
    then recommendations
           ++ ["Critical: Immediate security posture review required"]
    else recommendations in
  take 5 (remove_dups recommendations).

Lemma recommend_planned plan acc :
  foldl recommend acc (map Planned plan) = acc.
Proof. revert acc. induction plan as [|ph plan IH]; intros acc; [done|]. apply IH. Qed.

(** X21. For a campaign that was only planned ([auto_execute] false),
    the report's findings are "Low success rate shows effective security
    measures" and "Low detection rate - improve monitoring capabilities",
    and its only recommendation is "Enhance security monitoring and
    alerting", although no phase was executed. *)
Theorem plan_only_report_findings
    (self : RedTeamAgent) (p : AttackerPersona) (target scenario : string)
    (hours : Z) (rng : Rng) :
  persona self = Some p → representable p →
  ∃ c self' rng',
    execute_attack_campaign self target scenario hours false rng
      = Ok (c, self', rng') ∧
    _generate_key_findings c
      = ["Low success rate shows effective security measures";
         "Low detection rate - improve monitoring capabilities"] ∧
    _generate_recommendations c = ["Enhance security monitoring and alerting"].
Proof.
  intros Hp Hsize.
  destruct (to_dict_total p) as [d Hd].
  destruct (generate_persona_attack_plan_returns p scenario rng)
    as (plan & rng' & Hplan & Hlen).
  assert (Hlen' : Z.of_nat (length plan) < 2 ^ 53).
  { unfold representable in Hsize.
    change (2 ^ 53) with (2 * 2 ^ 52). change (2 ^ 52) with 4503599627370496 in *.
    lia. }
  eexists (planned_campaign d target scenario hours plan), _, rng'.
  split.
  { unfold execute_attack_campaign. rewrite Hp, Hd.
    unfold mbind, sim_bind, lift. rewrite Hplan, campaign_loop_plan_only.
    cbn [phases set_attack_plan new_campaign app].
    by rewrite calculate_campaign_metrics_planned. }
  split; [reflexivity|].
  unfold _generate_recommendations.
  cbn [planned_campaign phases detection_rate risk_score get_or].
  by rewrite recommend_planned.
Qed.

Lemma plan_only_report_findings_witness :
  representable (sample_persona 3) ∧
  ∃ c self' rng',
    execute_attack_campaign sample_agent "10.0.0.5" "full_chain" 24 false
      (constant_rng 0) = Ok (c, self', rng') ∧
    _generate_recommendations c = ["Enhance security monitoring and alerting"].
Proof.
  assert (H : representable (sample_persona 3)) by (by vm_compute).
  split; [exact H|].
  destruct (plan_only_report_findings sample_agent (sample_persona 3)
              "10.0.0.5" "full_chain" 24 (constant_rng 0) eq_refl H)
    as (c & self' & rng' & Hrun & _ & Hrec).
  exists c, self', rng'. split; [exact Hrun|exact Hrec].
Defined.

End Campaigns.

(** ** attacker_personas/persona_library.py: the rest of the library *)
Module LibraryQueries.
Import Py.
(* The set solver clears hypotheses by name and warns when one is gone. *)
Local Set Warnings "-clear-no-such-hyp".
Import PyFloat.
Import PyMore.
Import Persona.
Import Library.

(** *** The queries over the pre-configured table *)

(** The loop shared by the three [get_personas_by_...] methods: the names
    of the configurations that pass the test, in table order. *)
Fixpoint matching_names (test : PersonaConfig → bool)
    (table : list (string * PersonaConfig)) : list string :=
  match table with
  | [] => []
  | (name, config) :: rest =>
      if test config then name :: matching_names test rest
      else matching_names test rest
  end.

Definition targets_industry (industry : string) (config : PersonaConfig) : bool :=
  existsb (fun ind => contains (lower industry) (lower ind))
          (cfg_target_industries config).

Definition get_personas_by_industry (industry : string) : list string :=
  matching_names (targets_industry industry) PERSONA_CONFIGS.

Definition SophisticationLevel_eqb (a b : SophisticationLevel) : bool :=
  match a, b with
  | LOW, LOW | MEDIUM, MEDIUM | HIGH, HIGH | ADVANCED, ADVANCED => true
  | _, _ => false
  end.

Definition get_personas_by_sophistication (level : SophisticationLevel)
    : list string :=
  matching_names
    (fun config => SophisticationLevel_eqb (cfg_sophistication_level config) level)
    PERSONA_CONFIGS.

Definition has_motivation (motivation : string) (config : PersonaConfig) : bool :=
  str_in (lower motivation) (map lower (cfg_motivations config)).

Definition get_personas_by_motivation (motivation : string) : list string :=
  matching_names (has_motivation motivation) PERSONA_CONFIGS.

(** [sorted(list(PERSONA_CONFIGS.keys()))]. *)
Definition list_available_personas : list string :=
  sorted PERSONA_CONFIGS.*1.

Lemma matching_names_spec test table name :
  NoDup table.*1 →
  name ∈ matching_names test table ↔
  ∃ config, lookup_config table name = Some config ∧ test config = true.
Proof.
  induction table as [|[n cfg] table IH]; intros Hnd.
  { cbn. rewrite elem_of_nil. split; [done|]. by intros (? & ? & _). }
  apply NoDup_cons in Hnd as [Hn Hnd]. cbn [matching_names lookup_config].
  assert (Hlater : ∀ config, lookup_config table name = Some config → n ≠ name).
  { intros config Hl ->. apply Hn. clear -Hl.
    induction table as [|[n' c'] table IH]; [done|]. cbn in *.
    case_bool_decide; [subst; left|right; by apply IH]. }
  case_bool_decide as Heq.
  - subst n. destruct (test cfg) eqn:Ht.
    + split; [intros _; by exists cfg|intros _; left].
    + rewrite (IH Hnd). split.
      * intros (config & Hl & _). by destruct (Hlater config Hl).
      * intros (config & [= <-] & Ht'). congruence.
  - destruct (test cfg); [rewrite elem_of_cons|]; rewrite (IH Hnd);
      [|done]. split; [intros [->|H]; done|by right].
Qed.

Lemma matching_names_sublist test table :
  matching_names test table `sublist_of` table.*1.
Proof.
  induction table as [|[n cfg] table IH]; [done|]. cbn.
  destruct (test cfg); by constructor.
Qed.

(** A decidable fact settled by evaluation. *)
Ltac by_compute :=
  match goal with
  | |- ?P => apply (bool_decide_unpack P); by vm_compute
  end.

Lemma persona_configs_nodup : NoDup PERSONA_CONFIGS.*1.
Proof. by_compute. Qed.

(** X22. The three [get_personas_by_...] queries return the
    pre-configured names in table order (their result is a sub-list of
    the table's names, which has no duplicates), and exactly those whose
    configuration passes the test: for an ASCII text, an industry that
    contains the text up to the case of the letters; the requested
    sophistication level; for an ASCII motivation, a motivation equal to
    it up to the case of the letters. Every name they return is listed by
    [list_available_personas], which is sorted; and the empty industry
    text selects every pre-configured persona. *)
Theorem persona_queries_select_configured :
  NoDup PERSONA_CONFIGS.*1 ∧
  (∀ industry,
     isascii industry = true →
     get_personas_by_industry industry `sublist_of` PERSONA_CONFIGS.*1 ∧
     ∀ name,
       name ∈ get_personas_by_industry industry ↔
       ∃ config, lookup_config PERSONA_CONFIGS name = Some config ∧
         ∃ ind, ind ∈ cfg_target_industries config ∧
                contains (lower industry) (lower ind) = true) ∧
  (∀ level,
     get_personas_by_sophistication level `sublist_of` PERSONA_CONFIGS.*1 ∧
     ∀ name,
       name ∈ get_personas_by_sophistication level ↔
       ∃ config, lookup_config PERSONA_CONFIGS name = Some config ∧
                 cfg_sophistication_level config = level) ∧
  (∀ motivation,
     isascii motivation = true →
     get_personas_by_motivation motivation `sublist_of` PERSONA_CONFIGS.*1 ∧
     ∀ name,
       name ∈ get_personas_by_motivation motivation ↔
       ∃ config, lookup_config PERSONA_CONFIGS name = Some config ∧
         ∃ m, m ∈ cfg_motivations config ∧ lower m = lower motivation) ∧
  (∀ test name,
     name ∈ matching_names test PERSONA_CONFIGS →
     name ∈ list_available_personas) ∧
  (∀ test, NoDup (matching_names test PERSONA_CONFIGS)) ∧
  is_sorted list_available_personas = true ∧
  get_personas_by_industry "" = PERSONA_CONFIGS.*1.
Proof.
  split; [apply persona_configs_nodup|].
  split; [|split; [|split; [|split; [|split; [|split]]]]].
  - intros industry _. split; [apply matching_names_sublist|].
    intros name. unfold get_personas_by_industry.
    rewrite matching_names_spec by apply persona_configs_nodup.
    unfold targets_industry. setoid_rewrite existsb_exists.
    by setoid_rewrite <- list_elem_of_In.
  - intros level. split; [apply matching_names_sublist|].
    intros name. unfold get_personas_by_sophistication.
    rewrite matching_names_spec by apply persona_configs_nodup.
    split; intros (config & Hl & Ht); exists config; (split; [done|]).
    + by destruct (cfg_sophistication_level config), level.
    + rewrite Ht. by destruct level.
  - intros motivation _. split; [apply matching_names_sublist|].
    intros name. unfold get_personas_by_motivation.
    rewrite matching_names_spec by apply persona_configs_nodup.
    unfold has_motivation, str_in. setoid_rewrite bool_decide_eq_true.
    setoid_rewrite list_elem_of_fmap.
    split; intros (config & Hl & m & H1 & H2); exists config;
      (split; [done|]); by exists m.
  - intros test name Hin. unfold list_available_personas.
    rewrite sorted_perm.
    by apply (elem_of_submseteq _ _ _ Hin), sublist_submseteq,
      matching_names_sublist.
  - intros test. eapply sublist_NoDup;
      [apply persona_configs_nodup|apply matching_names_sublist].
  - apply sorted_is_sorted.
  - by vm_compute.
Qed.

(** test_get_personas_by_industry and test_get_personas_by_motivation. *)
Example test_get_personas_by_industry :
  "FIN7" ∈ get_personas_by_industry "Financial" ∧
  "Lazarus Group" ∈ get_personas_by_industry "Financial" ∧
  "APT29" ∈ get_personas_by_industry "government" ∧
  "APT28" ∈ get_personas_by_industry "government" ∧
  "APT29" ∈ get_personas_by_motivation "espionage" ∧
  "FIN7" ∈ get_personas_by_motivation "financial".
Proof. repeat split; by_compute. Qed.

(** *** The groups of the bundle *)

(** The value of the key [mitre_id] that [get_all_groups] adds: the
    [external_id] of the first ["mitre-attack"] reference; [None] when
    there is no such reference and the key is not set. *)
Fixpoint first_attack_id (refs : list ExternalReference)
    : option (option string) :=
  match refs with
  | [] => None
  | ref :: rest =>
      if bool_decide (source_name ref = Some "mitre-attack")
      then Some (ref_external_id ref)
      else first_attack_id rest
  end.

(** [get_all_groups]: each group with the key [mitre_id]. *)
Definition get_all_groups (client : MITREStixClient)
    : list (StixObject * option (option string)) :=
  map (fun group =>
         (group, first_attack_id (get_or (o_external_references group) [])))
      (get_or (_objects_by_type client !! Some "intrusion-set") []).

Record Stats := {
  total_mitre_groups : Z;
  pre_configured_personas : Z;
  auto_generated_personas : Z;
  coverage_percentage : float;
  auto_generation_enabled : bool;
  sample_auto_generated : list string
}.

(** [[group['name'] for group in all_groups]]. *)
Fixpoint group_names (groups : list (StixObject * option (option string)))
    : outcome (list string) :=
  match groups with
  | [] => Return []
  | g :: rest =>
      name ← item "name" (o_name g.1);
      names ← group_names rest;
      mret (name :: names)
  end.

(** [get_auto_generated_stats]: the values of the dictionary are
    evaluated in order, the division before the list of names. *)
Definition get_auto_generated_stats (lib : PersonaLibrary) : outcome Stats :=
  let all_groups := get_all_groups (mitre_client lib) in
  let total_groups := Z.of_nat (length all_groups) in
  let pre_configured := Z.of_nat (length PERSONA_CONFIGS) in
  let auto_generated := (total_groups - pre_configured)%Z in
  coverage ←
    (if bool_decide (total_groups = 0%Z) then Throw ZeroDivisionError
     else Return (true_div pre_configured total_groups * 100)%float);
  names ← group_names all_groups;
  mret {| total_mitre_groups := total_groups;
          pre_configured_personas := pre_configured;
          auto_generated_personas := auto_generated;
          coverage_percentage := coverage;
          auto_generation_enabled := _auto_generate lib;
          sample_auto_generated :=
            take 10 (List.filter
                       (fun name =>
                          negb (bool_decide
                                  (is_Some (lookup_config PERSONA_CONFIGS name))))
                       names) |}.

Lemma group_names_spec groups :
  match group_names groups with
  | Return names => map (fun g => o_name g.1) groups = map Some names
  | Throw e => e = KeyError "name" ∧ ∃ g, g ∈ groups ∧ o_name g.1 = None
  end.
Proof.
  induction groups as [|g groups IH]; [done|]. cbn [group_names].
  destruct (o_name g.1) as [name|] eqn:Hn; cbn.
  - destruct (group_names groups) as [names|e]; cbn.
    + by rewrite Hn, IH.
    + destruct IH as [-> (g' & Hin & Hg')]. split; [done|].
      exists g'. split; [by right|done].
  - split; [done|]. exists g. split; [left|done].
Qed.

(** X27. [get_auto_generated_stats] raises [ZeroDivisionError] exactly
    when the bundle holds no intrusion set, and otherwise a [KeyError]
    exactly when some intrusion set has no name; when it returns, the
    total is the number of intrusion sets of the bundle, the number of
    auto-generated personas is that total minus the ten pre-configured
    ones (negative for a bundle with fewer than ten groups), and the
    sample lists at most ten group names, none of them pre-configured. *)
Theorem auto_generated_stats_outcome
    (objects : list StixObject) (cache_personas auto_generate : bool) :
  let lib := new_library (parse_stix_data objects) cache_personas auto_generate in
  let groups := filter (λ o, o_type o = Some "intrusion-set") objects in
  (get_auto_generated_stats lib = Throw ZeroDivisionError ↔ groups = []) ∧
  (get_auto_generated_stats lib = Throw (KeyError "name") ↔
   groups ≠ [] ∧ ∃ g, g ∈ groups ∧ o_name g = None) ∧
  (∀ stats, get_auto_generated_stats lib = Return stats →
     total_mitre_groups stats = Z.of_nat (length groups) ∧
     auto_generated_personas stats = (Z.of_nat (length groups) - 10)%Z ∧
     (length (sample_auto_generated stats) ≤ 10)%nat ∧
     ∀ name, name ∈ sample_auto_generated stats →
       Some name ∈ map o_name groups ∧
       lookup_config PERSONA_CONFIGS name = None).
Proof.
  intros lib groups. unfold get_auto_generated_stats, get_all_groups.
  cbn [lib new_library mitre_client _auto_generate].
  rewrite StixQueries.objects_by_type_parse. fold groups.
  rewrite length_map.
  pose proof (group_names_spec
                (map (fun group =>
                        (group, first_attack_id
                                  (get_or (o_external_references group) [])))
                     groups)) as Hnames.
  rewrite map_map in Hnames. cbn [fst] in Hnames.
  change (map (λ x, o_name x) groups) with (map o_name groups) in Hnames.
  case_bool_decide as Hzero.
  { assert (groups = []) as -> by (destruct groups; [done|cbn in Hzero; lia]).
    cbn. split; [done|]. split; [|done]. split; [done|]. by intros [? _]. }
  assert (Hne : groups ≠ []) by (intros Hnil; by rewrite Hnil in Hzero).
  cbn [mbind outcome_bind].
  destruct (group_names _) as [names|e].
  - cbn [mret outcome_ret]. split; [done|]. split.
    { split; [done|]. intros (_ & g & Hg & Hnone).
      assert (Hin : None ∈ map o_name groups).
      { rewrite <- Hnone. by apply list_elem_of_fmap_2. }
      rewrite Hnames in Hin.
      apply list_elem_of_fmap in Hin as (? & ? & _). done. }
    intros stats [= <-]. cbn.
    split; [done|]. split; [done|]. split; [rewrite length_take; lia|].
    intros name Hin.
    assert (Hf : name ∈ List.filter
              (fun name => negb (bool_decide
                                   (is_Some (lookup_config PERSONA_CONFIGS name))))
              names).
    { apply (elem_of_submseteq _ _ _ Hin), sublist_submseteq, sublist_take. }
    apply list_elem_of_In, filter_In in Hf as [Hn Hpre]. split.
    + rewrite Hnames. by apply list_elem_of_In, in_map.
    + apply negb_true_iff, bool_decide_eq_false in Hpre.
      apply eq_None_not_Some. exact Hpre.
  - destruct Hnames as [-> (g & Hin & Hnone)]. split; [done|]. split; [|done].
    split; [intros _|done]. split; [done|].
    apply list_elem_of_fmap in Hin as (g0 & -> & Hin). by exists g0.
Qed.

(** *** Custom personas *)

(** The keyword arguments of [create_custom_persona]: the fields of the
    data class other than the three that the method sets itself (passing
    one of those, or a name that is not a field, is a [TypeError] that
    the type leaves out). *)
Record Attributes := {
  at_aliases : option (list string);
  at_description : option string;
  at_tactics : option (list string);
  at_techniques : option (list Technique);
  at_software : option (list Technique);
  at_sophistication_level : option SophisticationLevel;
  at_stealth_preference : option StealthLevel;
  at_attack_speed : option AttackSpeed;
  at_target_industries : option (list string);
  at_target_regions : option (list string);
  at_motivations : option (list string);
  at_preferred_tools : option (list string);
  at_max_techniques_per_phase : option Z;
  at_technique_success_rate : option float;
  at_detection_sensitivity : option float;
  at_persistence_priority : option float;
  at_data_exfiltration_priority : option float
}.

Definition no_attributes : Attributes :=
  {| at_aliases := None; at_description := None; at_tactics := None;
     at_techniques := None; at_software := None;
     at_sophistication_level := None; at_stealth_preference := None;
     at_attack_speed := None; at_target_industries := None;
     at_target_regions := None; at_motivations := None;
     at_preferred_tools := None; at_max_techniques_per_phase := None;
     at_technique_success_rate := None; at_detection_sensitivity := None;
     at_persistence_priority := None;
     at_data_exfiltration_priority := None |}.

Fixpoint zeros (n : nat) : string :=
  match n with
  | O => ""
  | S n => String "0" (zeros n)
  end.

(** [f"{n:04d}"]. *)
Definition format_04d (n : nat) : string :=
  let digits := pretty n in
  zeros (4 - String.length digits) +:+ digits.

(** [f"custom--{name.lower().replace(' ', '-')}"]. *)
Definition custom_stix_id (name : string) : string :=
  "custom--" +:+ replace_char " " "-" (lower name).

(** [AttackerPersona(stix_id, mitre_id, name, ...)] inheriting from a
    base persona what [create_custom_persona] passes on. *)
Definition derived_persona (stix_id mitre_id name : string)
    (base : AttackerPersona) (attributes : Attributes) : AttackerPersona :=
  {| stix_id := stix_id; mitre_id := mitre_id; name := name;
     aliases := aliases base;
     description := get_or (at_description attributes) (description base);
     tactics := tactics base;
     techniques := techniques base;
     software := software base;
     sophistication_level :=
       get_or (at_sophistication_level attributes) (sophistication_level base);
     stealth_preference :=
       get_or (at_stealth_preference attributes) (stealth_preference base);
     attack_speed := get_or (at_attack_speed attributes) (attack_speed base);
     target_industries :=
       get_or (at_target_industries attributes) (target_industries base);
     target_regions :=
       get_or (at_target_regions attributes) (target_regions base);
     motivations := get_or (at_motivations attributes) (motivations base);
     preferred_tools :=
       get_or (at_preferred_tools attributes) (preferred_tools base);
     max_techniques_per_phase := 3;
     technique_success_rate := 0.7;
     detection_sensitivity := 0.5;
     persistence_priority := 0.8;
     data_exfiltration_priority := 0.6 |}.

(** [AttackerPersona(stix_id, mitre_id, name, **attributes)]. *)
Definition scratch_persona (stix_id mitre_id name : string)
    (attributes : Attributes) : AttackerPersona :=
  {| stix_id := stix_id; mitre_id := mitre_id; name := name;
     aliases := get_or (at_aliases attributes) [];
     description := get_or (at_description attributes) "";
     tactics := get_or (at_tactics attributes) [];
     techniques := get_or (at_techniques attributes) [];
     software := get_or (at_software attributes) [];
     sophistication_level := get_or (at_sophistication_level attributes) MEDIUM;
     stealth_preference := get_or (at_stealth_preference attributes) BALANCED;
     attack_speed := get_or (at_attack_speed attributes) MODERATE;
     target_industries := get_or (at_target_industries attributes) [];
     target_regions := get_or (at_target_regions attributes) [];
     motivations := get_or (at_motivations attributes) [];
     preferred_tools := get_or (at_preferred_tools attributes) [];
     max_techniques_per_phase :=
       get_or (at_max_techniques_per_phase attributes) 3%Z;
     technique_success_rate :=
       get_or (at_technique_success_rate attributes) 0.7%float;
     detection_sensitivity :=
       get_or (at_detection_sensitivity attributes) 0.5%float;
     persistence_priority :=
       get_or (at_persistence_priority attributes) 0.8%float;
     data_exfiltration_priority :=
       get_or (at_data_exfiltration_priority attributes) 0.6%float |}.

(** [self._custom_personas[name] = persona] for a new object. *)
Definition store_custom (name : string) (persona : AttackerPersona)
    (st : State) : result Ref * State :=
  let r := length (heap st) in
  (Ok r,
   {| heap := heap st ++ [persona];
      library :=
        {| mitre_client := mitre_client (library st);
           _personas_cache := _personas_cache (library st);
           _custom_personas := <[name := r]> (_custom_personas (library st));
           _auto_generate := _auto_generate (library st) |} |}).

(** Every reference held by the library denotes an object of the heap. *)
Definition well_formed (st : State) : Prop :=
  (∀ n r, cache_lookup (library st) n = Some r → r < length (heap st)) ∧
  (∀ n r, _custom_personas (library st) !! n = Some r → r < length (heap st)).

Section Custom.

Variable from_mitre_data :
  MITREStixClient -> string -> option PersonaConfig -> result AttackerPersona.
Variable generate_persona_config : MITREStixClient -> StixObject -> PersonaConfig.

Definition lookup_persona : string → State → result Ref * State :=
  get_persona from_mitre_data generate_persona_config.

(** [create_custom_persona]; the base persona is read through the
    reference that [get_persona] returns, which always denotes an object
    of the heap. *)
Definition create_custom_persona (name : string) (base_persona : option string)
    (attributes : Attributes) (st : State) : result Ref * State :=
  let scratch st :=
    store_custom name
      (scratch_persona (custom_stix_id name)
         ("C" +:+ format_04d (size (_custom_personas (library st))))
         name attributes) st in
  match base_persona with
  | Some b =>
      if bool_decide (b = "") then scratch st
      else
        match lookup_persona b st with
        | (Raise e, st1) => (Raise e, st1)
        | (Ok rb, st1) =>
            match heap st1 !! rb with
            | Some base =>
                store_custom name
                  (derived_persona (custom_stix_id name)
                     ("C" +:+ format_04d (size (_custom_personas (library st1))))
                     name base attributes) st1
            | None => (Raise (ValueError "dangling reference"), st1)
            end
        end
  | None => scratch st
  end.

Lemma get_persona_well_formed name st r st' :
  well_formed st → lookup_persona name st = (Ok r, st') →
  well_formed st' ∧ r < length (heap st') ∧
  (∃ more, heap st' = heap st ++ more) ∧
  _custom_personas (library st') = _custom_personas (library st).
Proof.
  intros [Hcache Hcustom]. unfold lookup_persona, get_persona.
  destruct (cache_lookup (library st) name) as [r0|] eqn:Hlook.
  { intros [= <- <-]. repeat split; eauto. exists []. by rewrite app_nil_r. }
  destruct (_custom_personas (library st) !! name) as [r0|] eqn:Hc.
  { intros [= <- <-]. repeat split; eauto. exists []. by rewrite app_nil_r. }
  destruct (build_persona _ _ (library st) name) as [persona|e]; [|done].
  intros [= <- <-]. unfold well_formed. cbn [heap library].
  rewrite length_app. cbn [length].
  split; [split|].
  - intros n r. rewrite cache_lookup_store.
    destruct (_personas_cache (library st)) as [cache|] eqn:Hpc; [|done].
    destruct (decide (name = n)) as [->|Hne]; [intros [= <-]; lia|].
    intros Hn. specialize (Hcache n r). unfold cache_lookup in Hcache.
    rewrite Hpc in Hcache. specialize (Hcache Hn). lia.
  - intros n r Hn. specialize (Hcustom n r Hn). lia.
  - split; [lia|]. split; [by eexists|done].
Qed.

Lemma store_custom_spec name persona st r st' :
  well_formed st → store_custom name persona st = (Ok r, st') →
  well_formed st' ∧ r = length (heap st) ∧ heap st' = heap st ++ [persona] ∧
  _custom_personas (library st') !! name = Some r ∧
  (∀ n, cache_lookup (library st') n = cache_lookup (library st) n).
Proof.
  intros [Hcache Hcustom]. unfold store_custom. intros [= <- <-].
  unfold well_formed. cbn [heap library _custom_personas].
  rewrite length_app. cbn [length]. split; [split|].
  - intros n r Hn. specialize (Hcache n r Hn). lia.
  - intros n r. destruct (decide (name = n)) as [->|Hne].
    + rewrite lookup_insert_eq. intros [= <-]. lia.
    + rewrite lookup_insert_ne by done. intros Hn.
      specialize (Hcustom n r Hn). lia.
  - repeat split; try done. by rewrite lookup_insert_eq.
Qed.

Lemma create_custom_persona_spec name base attributes st r st' :
  well_formed st →
  create_custom_persona name base attributes st = (Ok r, st') →
  ∃ st1 persona,
    well_formed st1 ∧ store_custom name persona st1 = (Ok r, st') ∧
    (∀ n, cache_lookup (library st) n = None →
          n ∉ (match base with Some b => [b] | None => [] end) →
          cache_lookup (library st1) n = None) ∧
    (cache_enabled st → ∀ b, base = Some b → b ≠ "" →
       _custom_personas (library st) !! b = None →
       is_Some (cache_lookup (library st1) b)) ∧
    (∀ b, base = Some b → b ≠ "" →
       ∃ rb base_persona,
         lookup_persona b st = (Ok rb, st1) ∧
         heap st1 !! rb = Some base_persona ∧
         persona = derived_persona (custom_stix_id name)
                     ("C" +:+ format_04d (size (_custom_personas (library st1))))
                     name base_persona attributes).
Proof.
  intros Hwf. unfold create_custom_persona.
  assert (Hscratch : ∀ persona,
    store_custom name persona st = (Ok r, st') →
    (∀ b, base = Some b → b = "") →
    ∃ st1 persona,
      well_formed st1 ∧ store_custom name persona st1 = (Ok r, st') ∧
      (∀ n, cache_lookup (library st) n = None →
            n ∉ (match base with Some b => [b] | None => [] end) →
            cache_lookup (library st1) n = None) ∧
      (cache_enabled st → ∀ b, base = Some b → b ≠ "" →
         _custom_personas (library st) !! b = None →
         is_Some (cache_lookup (library st1) b)) ∧
      (∀ b, base = Some b → b ≠ "" →
         ∃ rb base_persona,
           lookup_persona b st = (Ok rb, st1) ∧
           heap st1 !! rb = Some base_persona ∧
           persona = derived_persona (custom_stix_id name)
                       ("C" +:+ format_04d
                                  (size (_custom_personas (library st1))))
                       name base_persona attributes)).
  { intros persona Hstore Hb. exists st, persona.
    split; [done|]. split; [done|]. split; [done|].
    split; intros; exfalso; eauto. }
  destruct base as [b|]; [|intros H; by eapply Hscratch].
  case_bool_decide as Hempty; [intros H; eapply Hscratch; [done|]; congruence|].
  destruct (lookup_persona b st) as [[rb|e] st1] eqn:Hget; [|done].
  destruct (get_persona_well_formed b st rb st1 Hwf Hget)
    as (Hwf1 & Hrb & _ & _).
  destruct (heap st1 !! rb) as [base_persona|] eqn:Hderef; [|done].
  intros Hstore. eexists st1, _. split; [done|]. split; [exact Hstore|].
  split; [|split].
  - intros n Hn Hnb. assert (Hne : b ≠ n) by (intros ->; apply Hnb; left).
    revert Hget. unfold lookup_persona, get_persona.
    destruct (cache_lookup (library st) b); [by intros [= _ <-]|].
    destruct (_custom_personas (library st) !! b); [by intros [= _ <-]|].
    destruct (build_persona _ _ (library st) b); [|done].
    intros [= _ <-]. cbn [library]. rewrite cache_lookup_store.
    unfold cache_lookup in Hn.
    destruct (_personas_cache (library st)); [|done].
    by rewrite decide_False.
  - intros Hen b' [= <-] _ Hcustom.
    revert Hget. unfold lookup_persona, get_persona. rewrite Hcustom.
    destruct (cache_lookup (library st) b) as [r0|] eqn:Hl;
      [intros [= _ <-]; by rewrite Hl|].
    destruct (build_persona _ _ (library st) b); [|done].
    intros [= _ <-]. cbn [library]. rewrite cache_lookup_store.
    destruct Hen as [cache ->]. by rewrite decide_True.
  - intros b' [= <-] _. by exists rb, base_persona.
Qed.

(** X23. [create_custom_persona] allocates a new persona object and
    registers it under its name. A later [get_persona] for that name
    returns it only if the cache does not hold the name: a cached persona
    of the same name (for instance the base persona, when the custom
    persona is named like its base) shadows it until [clear_cache], after
    which the custom persona is returned. *)
Theorem custom_persona_shadowed_by_cache
    (name : string) (base : option string) (attributes : Attributes)
    (st st' : State) (r : Ref) :
  well_formed st →
  create_custom_persona name base attributes st = (Ok r, st') →
  well_formed st' ∧ S r = length (heap st') ∧
  _custom_personas (library st') !! name = Some r ∧
  (cache_lookup (library st') name = None →
   lookup_persona name st' = (Ok r, st')) ∧
  (∀ cached, cache_lookup (library st') name = Some cached →
     cached ≠ r ∧ lookup_persona name st' = (Ok cached, st')) ∧
  (cache_enabled st → base = Some name → name ≠ "" →
   _custom_personas (library st) !! name = None →
   is_Some (cache_lookup (library st') name)) ∧
  lookup_persona name (clear_cache st') = (Ok r, clear_cache st').
Proof.
  intros Hwf Hcreate.
  destruct (create_custom_persona_spec _ _ _ _ _ _ Hwf Hcreate)
    as (st1 & persona & Hwf1 & Hstore & _ & Hself & _).
  destruct (store_custom_spec _ _ _ _ _ Hwf1 Hstore)
    as (Hwf' & Hr & Hheap & Hcustom & Hcache).
  split; [done|]. split; [rewrite Hheap, length_app; cbn; lia|].
  split; [done|]. split; [|split; [|split]].
  - intros Hnone. unfold lookup_persona, get_persona.
    by rewrite Hnone, Hcustom.
  - intros cached Hc. split.
    + rewrite Hcache in Hc. destruct Hwf1 as [Hlt _].
      specialize (Hlt _ _ Hc). lia.
    + unfold lookup_persona, get_persona. by rewrite Hc.
  - intros Hen -> Hne Hno. rewrite Hcache. by apply Hself.
  - unfold lookup_persona, get_persona, cache_lookup.
    cbn [clear_cache library _personas_cache _custom_personas].
    rewrite Hcustom.
    by destruct (_personas_cache (library st')); [rewrite lookup_empty|].
Qed.

(** X24. A custom persona created from a base persona shares the base's
    aliases, tactics, techniques and software, takes its description and
    behavioural attributes from the keyword arguments or else from the
    base, and gets the data-class defaults for the technique cap, the
    success rate and the three priorities: those of the base persona and
    of the keyword arguments are not used. *)
Theorem custom_persona_inherits
    (name b : string) (attributes : Attributes) (st st' : State) (r : Ref) :
  well_formed st → b ≠ "" →
  create_custom_persona name (Some b) attributes st = (Ok r, st') →
  ∃ rb base persona,
    heap st' !! rb = Some base ∧ heap st' !! r = Some persona ∧ rb ≠ r ∧
    (lookup_persona b st).1 = Ok rb ∧
    Persona.name persona = name ∧ stix_id persona = custom_stix_id name ∧
    aliases persona = aliases base ∧ tactics persona = tactics base ∧
    techniques persona = techniques base ∧ software persona = software base ∧
    description persona
      = get_or (at_description attributes) (description base) ∧
    sophistication_level persona
      = get_or (at_sophistication_level attributes) (sophistication_level base) ∧
    max_techniques_per_phase persona = 3%Z ∧
    technique_success_rate persona = 0.7%float ∧
    detection_sensitivity persona = 0.5%float ∧
    persistence_priority persona = 0.8%float ∧
    data_exfiltration_priority persona = 0.6%float.
Proof.
  intros Hwf Hb Hcreate.
  destruct (create_custom_persona_spec _ _ _ _ _ _ Hwf Hcreate)
    as (st1 & persona & Hwf1 & Hstore & _ & _ & Hbase).
  destruct (Hbase b eq_refl Hb) as (rb & base & Hget & Hderef & ->).
  destruct (store_custom_spec _ _ _ _ _ Hwf1 Hstore)
    as (_ & Hr & Hheap & _ & _).
  apply lookup_lt_Some in Hderef as Hlt.
  eexists rb, base, _. rewrite Hheap.
  split; [by rewrite lookup_app_l|].
  split; [by rewrite Hr, list_lookup_middle|].
  split; [lia|]. split; [by rewrite Hget|]. done.
Qed.

(** X25. [clear_cache] empties the cache and nothing else: the heap and
    the custom personas are kept, so a custom persona is returned by the
    next [get_persona] whatever the cache held before, and the next
    successful [get_persona] for any other name constructs a new
    object. *)
Theorem clear_cache_keeps_custom_personas (st : State) :
  (∀ name, cache_lookup (library (clear_cache st)) name = None) ∧
  heap (clear_cache st) = heap st ∧
  _custom_personas (library (clear_cache st)) = _custom_personas (library st) ∧
  (∀ name r, _custom_personas (library st) !! name = Some r →
     lookup_persona name (clear_cache st) = (Ok r, clear_cache st)) ∧
  (∀ name r st', _custom_personas (library st) !! name = None →
     lookup_persona name (clear_cache st) = (Ok r, st') →
     r = length (heap st) ∧ length (heap st') = S (length (heap st))).
Proof.
  assert (Hnone : ∀ name, cache_lookup (library (clear_cache st)) name = None).
  { intros name. unfold cache_lookup. cbn.
    by destruct (_personas_cache (library st)); [rewrite lookup_empty|]. }
  split; [done|]. split; [done|]. split; [done|]. split.
  - intros name r Hc. unfold lookup_persona, get_persona.
    rewrite Hnone. cbn [clear_cache library _custom_personas]. by rewrite Hc.
  - intros name r st' Hc. unfold lookup_persona, get_persona.
    rewrite Hnone. cbn [clear_cache library _custom_personas] in *.
    rewrite Hc. destruct (build_persona _ _ _ name); [|done].
    intros [= <- <-]. cbn. rewrite length_app. cbn. lia.
Qed.

End Custom.

(** *** Comparing two personas *)

Record PersonaSummary := {
  ps_name : string;
  ps_sophistication : string;
  ps_technique_count : nat;
  ps_unique_techniques : nat
}.

Record Comparison := {
  cmp_persona1 : PersonaSummary;
  cmp_persona2 : PersonaSummary;
  cmp_common_techniques : nat;
  cmp_common_tactics : list string
}.

(** [set(t.get('external_id', '') for t in p.techniques)]. *)
Definition technique_ids (p : AttackerPersona) : gset (option string) :=
  list_to_set (map (fun t => get_or (o_external_id t) (Some ""))
                   (techniques p)).

(** The dictionary that [compare_personas] builds from the two persona
    objects; [common_tactics] lists a set, in the order of [elements]. *)
Definition comparison (p1 p2 : AttackerPersona) : Comparison :=
  let p1_tech_ids := technique_ids p1 in
  let p2_tech_ids := technique_ids p2 in
  {| cmp_persona1 :=
       {| ps_name := name p1;
          ps_sophistication := sophistication_value (sophistication_level p1);
          ps_technique_count := length (techniques p1);
          ps_unique_techniques := size (p1_tech_ids ∖ p2_tech_ids) |};
     cmp_persona2 :=
       {| ps_name := name p2;
          ps_sophistication := sophistication_value (sophistication_level p2);
          ps_technique_count := length (techniques p2);
          ps_unique_techniques := size (p2_tech_ids ∖ p1_tech_ids) |};
     cmp_common_techniques := size (p1_tech_ids ∩ p2_tech_ids);
     cmp_common_tactics :=
       elements ((list_to_set (tactics p1) : gset string)
                 ∩ list_to_set (tactics p2)) |}.

Section Compare.

Variable from_mitre_data :
  MITREStixClient -> string -> option PersonaConfig -> result AttackerPersona.
Variable generate_persona_config : MITREStixClient -> StixObject -> PersonaConfig.

Definition compare_personas (persona1 persona2 : string) (st : State)
    : result Comparison * State :=
  match lookup_persona from_mitre_data generate_persona_config persona1 st with
  | (Raise e, st1) => (Raise e, st1)
  | (Ok r1, st1) =>
      match lookup_persona from_mitre_data generate_persona_config
              persona2 st1 with
      | (Raise e, st2) => (Raise e, st2)
      | (Ok r2, st2) =>
          match heap st2 !! r1, heap st2 !! r2 with
          | Some p1, Some p2 => (Ok (comparison p1 p2), st2)
          | _, _ => (Raise (ValueError "dangling reference"), st2)
          end
      end
  end.

Lemma size_list_to_set_le `{Countable A} (l : list A) :
  (size (list_to_set l : gset A) ≤ length l)%nat.
Proof.
  induction l as [|x l IH]; [done|]. rewrite list_to_set_cons, size_union_alt.
  rewrite size_singleton. cbn [length].
  pose proof (subseteq_size (list_to_set l ∖ {[x]}) (list_to_set l : gset A)
                ltac:(set_solver)).
  lia.
Qed.

Lemma comparison_counts p1 p2 :
  let cmp := comparison p1 p2 in
  (ps_unique_techniques (cmp_persona1 cmp) + cmp_common_techniques cmp
    ≤ ps_technique_count (cmp_persona1 cmp))%nat ∧
  (ps_unique_techniques (cmp_persona2 cmp) + cmp_common_techniques cmp
    ≤ ps_technique_count (cmp_persona2 cmp))%nat ∧
  NoDup (cmp_common_tactics cmp) ∧
  (∀ t, t ∈ cmp_common_tactics cmp ↔ t ∈ tactics p1 ∧ t ∈ tactics p2).
Proof.
  cbn. unfold technique_ids.
  set (X := list_to_set _ : gset (option string)).
  set (Y := list_to_set _ : gset (option string)).
  assert (Hx : (size (X ∖ Y) + size (X ∩ Y) = size X)%nat).
  { rewrite <- size_union by set_solver.
    by rewrite difference_union_intersection_L. }
  assert (Hy : (size (Y ∖ X) + size (X ∩ Y) = size Y)%nat).
  { rewrite (comm_L (∩) X Y), <- size_union by set_solver.
    by rewrite difference_union_intersection_L. }
  pose proof (size_list_to_set_le
                (map (fun t => get_or (o_external_id t) (Some ""))
                     (techniques p1))).
  pose proof (size_list_to_set_le
                (map (fun t => get_or (o_external_id t) (Some ""))
                     (techniques p2))).
  rewrite length_map in *.
  match goal with H1 : (size _ ≤ _)%nat, H2 : (size _ ≤ _)%nat |- _ =>
    fold X Y in H1, H2
  end.
  split; [lia|]. split; [lia|]. split; [apply NoDup_elements|].
  intros t.
  by rewrite elem_of_elements, elem_of_intersection, !elem_of_list_to_set.
Qed.

Lemma get_persona_twice name st r1 st1 r2 st2 p1 p2 :
  lookup_persona from_mitre_data generate_persona_config name st = (Ok r1, st1) →
  lookup_persona from_mitre_data generate_persona_config name st1 = (Ok r2, st2) →
  heap st2 !! r1 = Some p1 → heap st2 !! r2 = Some p2 → p1 = p2.
Proof.
  unfold lookup_persona, get_persona.
  destruct (cache_lookup (library st) name) as [r|] eqn:Hl.
  { intros [= <- <-]. rewrite Hl. intros [= <- <-]. congruence. }
  destruct (_custom_personas (library st) !! name) as [r|] eqn:Hc.
  { intros [= <- <-]. rewrite Hl, Hc. intros [= <- <-]. congruence. }
  destruct (build_persona _ _ (library st) name) as [persona|e] eqn:Hb;
    [|done].
  intros [= <- <-]. cbn [library heap]. rewrite cache_lookup_store.
  destruct (_personas_cache (library st)) as [cache|] eqn:Hpc.
  { rewrite decide_True by done. intros [= <- <-]. cbn. congruence. }
  cbn [cache_store _custom_personas]. rewrite Hc.
  rewrite (build_persona_ext _ _ _ (library st)), Hb by done.
  intros [= <- <-]. cbn [heap]. rewrite length_app. cbn [length].
  rewrite lookup_app_l by (rewrite length_app; cbn; lia).
  rewrite list_lookup_middle by done. intros [= <-].
  replace (length (heap st) + 1)%nat with (length (heap st ++ [persona]))
    by (rewrite length_app; cbn; lia).
  rewrite list_lookup_middle by done. by intros [= <-].
Qed.

(** X26. [compare_personas]: the techniques unique to a persona and the
    techniques common to both are counted as distinct external ids, so
    their sum never exceeds the persona's technique count; the common
    tactics are listed without duplicates; and comparing a persona with
    itself finds no unique technique and gives two equal summaries, with
    or without the cache. *)
Theorem compare_personas_counts
    (persona1 persona2 : string) (st st' : State) (cmp : Comparison) :
  compare_personas persona1 persona2 st = (Ok cmp, st') →
  (ps_unique_techniques (cmp_persona1 cmp) + cmp_common_techniques cmp
    ≤ ps_technique_count (cmp_persona1 cmp))%nat ∧
  (ps_unique_techniques (cmp_persona2 cmp) + cmp_common_techniques cmp
    ≤ ps_technique_count (cmp_persona2 cmp))%nat ∧
  NoDup (cmp_common_tactics cmp) ∧
  (persona1 = persona2 →
   ps_unique_techniques (cmp_persona1 cmp) = 0%nat ∧
   ps_unique_techniques (cmp_persona2 cmp) = 0%nat ∧
   cmp_persona1 cmp = cmp_persona2 cmp).
Proof.
  unfold compare_personas.
  destruct (lookup_persona _ _ persona1 st) as [[r1|e] st1] eqn:H1; [|done].
  destruct (lookup_persona _ _ persona2 st1) as [[r2|e] st2] eqn:H2; [|done].
  destruct (heap st2 !! r1) as [p1|] eqn:Hp1; [|done].
  destruct (heap st2 !! r2) as [p2|] eqn:Hp2; [|done].
  intros [= <- <-].
  destruct (comparison_counts p1 p2) as (Hu1 & Hu2 & Hnd & _).
  split; [done|]. split; [done|]. split; [done|].
  intros <-. assert (p1 = p2) as <-.
  { exact (get_persona_twice persona1 st r1 st1 r2 st2 p1 p2 H1 H2 Hp1 Hp2). }
  cbn. by rewrite difference_diag_L, size_empty.
Qed.

End Compare.

(** The library of the test-suite. *)
Definition sample_create (name : string) (base : option string)
    : result Ref * State :=
  create_custom_persona sample_from_mitre_data sample_generate_persona_config
    name base no_attributes sample_state.

Lemma sample_state_well_formed : well_formed sample_state.
Proof. split; intros n r H; by vm_compute in H. Qed.

Lemma custom_persona_shadowed_by_cache_witness :
  well_formed sample_state ∧
  (sample_create "APT29" (Some "APT29")).1 = Ok 1 ∧
  (lookup_persona sample_from_mitre_data sample_generate_persona_config
     "APT29" (sample_create "APT29" (Some "APT29")).2).1 = Ok 0 ∧
  (lookup_persona sample_from_mitre_data sample_generate_persona_config
     "APT29" (clear_cache (sample_create "APT29" (Some "APT29")).2)).1 = Ok 1.
Proof.
  assert (Hwf : well_formed sample_state)
    by (split; intros n r H; by vm_compute in H).
  assert (Hcreate : sample_create "APT29" (Some "APT29")
                    = (Ok 1, (sample_create "APT29" (Some "APT29")).2)).
  { by vm_compute. }
  destruct (custom_persona_shadowed_by_cache sample_from_mitre_data
              sample_generate_persona_config "APT29" (Some "APT29")
              no_attributes sample_state _ 1 Hwf Hcreate)
    as (_ & _ & _ & _ & Hshadow & _ & Hclear).
  split; [exact Hwf|]. split; [by rewrite Hcreate|].
  split; [|by rewrite Hclear].
  destruct (Hshadow 0) as [_ ->]; [by vm_compute|done].
Defined.

Lemma custom_persona_inherits_witness :
  well_formed sample_state ∧
  ∃ rb base persona,
    heap (sample_create "My APT" (Some "APT29")).2 !! rb = Some base ∧
    heap (sample_create "My APT" (Some "APT29")).2 !! 1 = Some persona ∧
    techniques persona = techniques base ∧
    stix_id persona = "custom--my-apt".
Proof.
  assert (Hwf : well_formed sample_state)
    by (split; intros n r H; by vm_compute in H).
  assert (Hcreate : sample_create "My APT" (Some "APT29")
                    = (Ok 1, (sample_create "My APT" (Some "APT29")).2)).
  { by vm_compute. }
  destruct (custom_persona_inherits sample_from_mitre_data
              sample_generate_persona_config "My APT" "APT29"
              no_attributes sample_state _ 1 Hwf ltac:(discriminate) Hcreate)
    as (rb & base & persona & H1 & H2 & _ & _ & _ & Hid & _ & _ & Ht & _).
  split; [exact Hwf|]. exists rb, base, persona.
  split; [exact H1|]. split; [exact H2|]. split; [exact Ht|].
  rewrite Hid. reflexivity.
Defined.

Lemma compare_personas_counts_witness :
  ∃ cmp,
    (compare_personas sample_from_mitre_data sample_generate_persona_config
       "APT29" "APT29" sample_state).1 = Ok cmp ∧
    ps_unique_techniques (cmp_persona1 cmp) = 0%nat ∧
    ps_name (cmp_persona1 cmp) = "APT29".
Proof.
  assert (Hrun : ∃ cmp,
    compare_personas sample_from_mitre_data sample_generate_persona_config
      "APT29" "APT29" sample_state
    = (Ok cmp, (compare_personas sample_from_mitre_data
                  sample_generate_persona_config "APT29" "APT29"
                  sample_state).2) ∧
    ps_name (cmp_persona1 cmp) = "APT29").
  { eexists. split; by vm_compute. }
  destruct Hrun as (cmp & Hrun & Hname). exists cmp.
  destruct (compare_personas_counts sample_from_mitre_data
              sample_generate_persona_config "APT29" "APT29" sample_state _
              cmp Hrun) as (_ & _ & _ & Hself).
  destruct (Hself eq_refl) as (Hu & _ & _).
  split; [by rewrite Hrun|]. split; [exact Hu|exact Hname].
Defined.

End LibraryQueries.

(** ** attacker_personas/persona.py: building a persona from MITRE data *)
Module PersonaData.
Import Py.
Import PyFloat.
Import PyMore.
Import Persona.
Import Library.

(** *** Techniques by tactic *)

(** The inner loop of [_categorize_techniques_by_tactic] over the phases
    of one technique; [phase['phase_name']] raises when the key is
    missing. *)
Fixpoint categorize_phases (tech : Technique) (phases : list KillChainPhase)
    (categorized : gmap string (list Technique))
    : outcome (gmap string (list Technique)) :=
  match phases with
  | [] => Return categorized
  | phase :: rest =>
      if bool_decide (kill_chain_name phase = Some "mitre-attack") then
        tactic ← item "phase_name" (phase_name phase);
        categorize_phases tech rest
          (<[tactic := get_or (categorized !! tactic) [] ++ [tech]]> categorized)
      else categorize_phases tech rest categorized
  end.

Fixpoint categorize (techniques : list Technique)
    (categorized : gmap string (list Technique))
    : outcome (gmap string (list Technique)) :=
  match techniques with
  | [] => Return categorized
  | tech :: rest =>
      categorized ←
        categorize_phases tech (get_or (o_kill_chain_phases tech) []) categorized;
      categorize rest categorized
  end.

Definition _categorize_techniques_by_tactic (techniques : list Technique)
    : outcome (gmap string (list Technique)) :=
  categorize techniques ∅.

(** The technique has a ["mitre-attack"] phase without [phase_name]. *)
Definition unnamed_phase (tech : Technique) : Prop :=
  ∃ phase, phase ∈ get_or (o_kill_chain_phases tech) [] ∧
           kill_chain_name phase = Some "mitre-attack" ∧ phase_name phase = None.

(** How often the technique is listed under the tactic. *)
Definition listings (tactic : string) (tech : Technique) : nat :=
  length (List.filter (phase_matches tactic)
                      (get_or (o_kill_chain_phases tech) [])).

(** The bucket of a tactic: each technique once per phase of the tactic,
    in order. *)
Definition bucket (tactic : string) (techniques : list Technique)
    : list Technique :=
  flat_map (fun tech => replicate (listings tactic tech) tech) techniques.

Lemma categorize_phases_spec tech phases categorized :
  match categorize_phases tech phases categorized with
  | Return result =>
      (∀ phase, phase ∈ phases →
         kill_chain_name phase = Some "mitre-attack" →
         is_Some (phase_name phase)) ∧
      ∀ tactic,
        get_or (result !! tactic) []
        = get_or (categorized !! tactic) []
          ++ replicate (length (List.filter (phase_matches tactic) phases)) tech
  | Throw e =>
      e = KeyError "phase_name" ∧
      ∃ phase, phase ∈ phases ∧
        kill_chain_name phase = Some "mitre-attack" ∧ phase_name phase = None
  end.
Proof.
  revert categorized. induction phases as [|ph phases IH]; intros categorized.
  { cbn. split; [by intros ph Hph%elem_of_nil|].
    intros tactic. by rewrite app_nil_r. }
  cbn [categorize_phases]. case_bool_decide as Hk.
  - destruct (phase_name ph) as [tactic|] eqn:Hn; cbn [item mbind outcome_bind].
    + specialize (IH (<[tactic := get_or (categorized !! tactic) [] ++ [tech]]>
                        categorized)).
      destruct (categorize_phases _ _ _) as [result|e].
      * destruct IH as [Hnamed Hb]. split.
        { intros phase [->|Hin]%elem_of_cons Hka; [by rewrite Hn|by apply Hnamed]. }
        intros t. rewrite Hb. cbn [List.filter]. unfold phase_matches at 2.
        rewrite Hk, Hn, bool_decide_true by done. cbn [andb].
        destruct (decide (tactic = t)) as [->|Hne].
        -- rewrite lookup_insert_eq, bool_decide_true by done. cbn.
           by rewrite <- app_assoc.
        -- rewrite lookup_insert_ne, bool_decide_false by congruence. done.
      * destruct IH as [-> (phase & Hin & Hka & Hna)]. split; [done|].
        exists phase. split; [by right|done].
    + split; [done|]. exists ph. split; [left|done].
  - specialize (IH categorized).
    destruct (categorize_phases _ _ _) as [result|e].
    + destruct IH as [Hnamed Hb]. split.
      { intros phase [->|Hin]%elem_of_cons Hka; [done|by apply Hnamed]. }
      intros t. rewrite Hb. cbn [List.filter]. unfold phase_matches at 2.
      by rewrite bool_decide_false by done.
    + destruct IH as [-> (phase & Hin & Hka & Hna)]. split; [done|].
      exists phase. split; [by right|done].
Qed.

Lemma categorize_spec techniques categorized :
  match categorize techniques categorized with
  | Return result =>
      (∀ tech, tech ∈ techniques → ¬ unnamed_phase tech) ∧
      ∀ tactic,
        get_or (result !! tactic) []
        = get_or (categorized !! tactic) [] ++ bucket tactic techniques
  | Throw e =>
      e = KeyError "phase_name" ∧ ∃ tech, tech ∈ techniques ∧ unnamed_phase tech
  end.
Proof.
  revert categorized. induction techniques as [|tech techniques IH];
    intros categorized.
  { cbn. split; [by intros t Ht%elem_of_nil|].
    intros tactic. by rewrite app_nil_r. }
  cbn [categorize].
  pose proof (categorize_phases_spec tech
                (get_or (o_kill_chain_phases tech) []) categorized) as Hp.
  destruct (categorize_phases _ _ _) as [c1|e]; cbn [mbind outcome_bind].
  - destruct Hp as [Hnamed Hb1]. specialize (IH c1).
    destruct (categorize techniques c1) as [result|e].
    + destruct IH as [Hall Hb]. split.
      * intros t [->|Hin]%elem_of_cons; [|by apply Hall].
        intros (phase & Hin & Hka & Hna).
        destruct (Hnamed phase Hin Hka) as [? ?]. congruence.
      * intros tactic. rewrite Hb, Hb1. unfold bucket at 2. cbn [flat_map].
        by rewrite <- app_assoc.
    + destruct IH as [-> (t & Hin & Hu)]. split; [done|].
      exists t. split; [by right|done].
  - destruct Hp as [-> Hu]. split; [done|]. exists tech. split; [left|done].
Qed.

Lemma categorize_phases_keys tech phases categorized :
  (∀ tactic, categorized !! tactic ≠ Some []) →
  ∀ result, categorize_phases tech phases categorized = Return result →
  ∀ tactic, result !! tactic ≠ Some [].
Proof.
  revert categorized. induction phases as [|ph phases IH];
    intros categorized Hinv result.
  { cbn. by intros [= <-]. }
  cbn [categorize_phases]. case_bool_decide as Hk; [|by apply IH].
  destruct (phase_name ph) as [tactic|]; cbn [item mbind outcome_bind]; [|done].
  apply IH. intros t. destruct (decide (tactic = t)) as [->|Hne].
  - rewrite lookup_insert_eq. intros [= Hnil]. by apply app_nil in Hnil as [_ ?].
  - by rewrite lookup_insert_ne.
Qed.

Lemma categorize_keys techniques categorized :
  (∀ tactic, categorized !! tactic ≠ Some []) →
  ∀ result, categorize techniques categorized = Return result →
  ∀ tactic, result !! tactic ≠ Some [].
Proof.
  revert categorized. induction techniques as [|tech techniques IH];
    intros categorized Hinv result.
  { cbn. by intros [= <-]. }
  cbn [categorize].
  destruct (categorize_phases _ _ _) as [c1|e] eqn:Hc1;
    cbn [mbind outcome_bind]; [|done].
  apply IH. by eapply categorize_phases_keys.
Qed.

Lemma filter_phase_matches_nonempty tactic tech :
  (0 < listings tactic tech)%nat ↔ classified_under tactic tech.
Proof.
  unfold listings, classified_under.
  generalize (get_or (o_kill_chain_phases tech) []). intros phases.
  induction phases as [|ph phases IH].
  { cbn. split; [lia|]. by intros (ph & Hin%elem_of_nil & _). }
  cbn [List.filter]. destruct (phase_matches tactic ph) eqn:Hm.
  - cbn [length]. split; [|lia]. intros _. exists ph. split; [left|].
    by apply phase_matches_spec.
  - rewrite IH. split.
    + intros (ph' & Hin & Hk). exists ph'. split; [by right|done].
    + intros (ph' & [->|Hin]%elem_of_cons & Hk).
      * apply phase_matches_spec in Hk. congruence.
      * by exists ph'.
Qed.

Lemma elem_of_bucket tactic techniques tech :
  tech ∈ bucket tactic techniques ↔
  tech ∈ techniques ∧ classified_under tactic tech.
Proof.
  unfold bucket. rewrite list_elem_of_In, in_flat_map. split.
  - intros (t & Hin%list_elem_of_In & Hrep%list_elem_of_In).
    apply elem_of_replicate in Hrep as [-> Hpos]. split; [done|].
    apply filter_phase_matches_nonempty. lia.
  - intros [Hin Hc]. exists tech. split; [by apply list_elem_of_In|].
    apply list_elem_of_In, elem_of_replicate. split; [done|].
    apply filter_phase_matches_nonempty in Hc. lia.
Qed.

Lemma categorize_techniques_returns techniques result :
  _categorize_techniques_by_tactic techniques = Return result →
  ∀ tactic,
    result !! tactic
    = match bucket tactic techniques with
      | [] => None
      | listed => Some listed
      end.
Proof.
  intros Hret tactic. unfold _categorize_techniques_by_tactic in Hret.
  pose proof (categorize_spec techniques ∅) as Hspec. rewrite Hret in Hspec.
  destruct Hspec as [_ Hb]. specialize (Hb tactic).
  rewrite lookup_empty in Hb. cbn [get_or app] in Hb.
  pose proof (categorize_keys techniques ∅ ltac:(by intros t; rewrite lookup_empty)
                result Hret tactic) as Hkey.
  destruct (result !! tactic) as [l|]; cbn [get_or] in Hb.
  - rewrite <- Hb. destruct l; [done|done].
  - by rewrite <- Hb.
Qed.

(** *** The preferred techniques *)

Definition tactic_to_attr : list (string * string) :=
  [ ("initial-access", "preferred_initial_access");
    ("persistence", "preferred_persistence");
    ("privilege-escalation", "preferred_privilege_escalation");
    ("defense-evasion", "preferred_defense_evasion");
    ("credential-access", "preferred_credential_access");
    ("discovery", "preferred_discovery");
    ("lateral-movement", "preferred_lateral_movement");
    ("collection", "preferred_collection");
    ("command-and-control", "preferred_command_control");
    ("exfiltration", "preferred_exfiltration");
    ("impact", "preferred_impact") ].

(** [t.get('external_id', t['name'])]: the default is evaluated before the
    lookup, so a technique without a name raises even when it has an id. *)
Definition technique_label (t : Technique) : outcome (option string) :=
  name ← item "name" (o_name t);
  Return (get_or (o_external_id t) (Some name)).

(** A list comprehension whose element expression may raise. *)
Fixpoint comprehension {A B} (f : A → outcome B) (l : list A)
    : outcome (list B) :=
  match l with
  | [] => Return []
  | x :: rest =>
      y ← f x;
      ys ← comprehension f rest;
      Return (y :: ys)
  end.

(** The loop of [_set_preferred_techniques]; the result lists the
    attributes that were set, with their values, in the order of the
    assignments. *)
Fixpoint set_preferred (table : list (string * string))
    (techniques_by_tactic : gmap string (list Technique))
    : outcome (list (string * list (option string))) :=
  match table with
  | [] => Return []
  | (tactic, attr_name) :: rest =>
      match techniques_by_tactic !! tactic with
      | Some listed =>
          technique_ids ← comprehension technique_label (take 5 listed);
          others ← set_preferred rest techniques_by_tactic;
          Return ((attr_name, technique_ids) :: others)
      | None => set_preferred rest techniques_by_tactic
      end
  end.

Definition _set_preferred_techniques
    (techniques_by_tactic : gmap string (list Technique))
    : outcome (list (string * list (option string))) :=
  set_preferred tactic_to_attr techniques_by_tactic.

(** *** from_mitre_data *)

(** The loop that extracts the ATT&CK id of the group. *)
Fixpoint extract_mitre_id (refs : list ExternalReference) : string :=
  match refs with
  | [] => ""
  | ref :: rest =>
      if bool_decide (source_name ref = Some "mitre-attack")
      then get_or (ref_external_id ref) ""
      else extract_mitre_id rest
  end.

(** The elements added to the set [tactics], in the order of the calls of
    [add]. *)
Fixpoint add_phases (phases : list KillChainPhase) (added : list string)
    : outcome (list string) :=
  match phases with
  | [] => Return added
  | phase :: rest =>
      if bool_decide (kill_chain_name phase = Some "mitre-attack") then
        tactic ← item "phase_name" (phase_name phase);
        add_phases rest (added ++ [tactic])
      else add_phases rest added
  end.

Fixpoint add_tactics (techniques : list Technique) (added : list string)
    : outcome (list string) :=
  match techniques with
  | [] => Return added
  | tech :: rest =>
      added ← add_phases (get_or (o_kill_chain_phases tech) []) added;
      add_tactics rest added
  end.

(** The data class built from the group, with the keyword arguments. *)
Definition construct (stix_id mitre_id name : string) (aliases : list string)
    (description : string) (tactics : list string)
    (techniques software : list Technique) (kwargs : option PersonaConfig)
    : AttackerPersona :=
  let default := new_persona stix_id mitre_id name in
  let arg {A} (key : PersonaConfig → A) (field : AttackerPersona → A) : A :=
    match kwargs with
    | Some cfg => key cfg
    | None => field default
    end in
  {| stix_id := stix_id; mitre_id := mitre_id; name := name;
     aliases := aliases; description := description; tactics := tactics;
     techniques := techniques; software := software;
     sophistication_level := arg cfg_sophistication_level sophistication_level;
     stealth_preference := arg cfg_stealth_preference stealth_preference;
     attack_speed := arg cfg_attack_speed attack_speed;
     target_industries := arg cfg_target_industries target_industries;
     target_regions := arg cfg_target_regions target_regions;
     motivations := arg cfg_motivations motivations;
     preferred_tools := arg cfg_preferred_tools preferred_tools;
     max_techniques_per_phase :=
       arg cfg_max_techniques_per_phase max_techniques_per_phase;
     technique_success_rate :=
       match kwargs with
       | Some cfg =>
           get_or (cfg_technique_success_rate cfg)
                  (technique_success_rate default)
       | None => technique_success_rate default
       end;
     detection_sensitivity := arg cfg_detection_sensitivity detection_sensitivity;
     persistence_priority := arg cfg_persistence_priority persistence_priority;
     data_exfiltration_priority :=
       arg cfg_data_exfiltration_priority data_exfiltration_priority |}.

(** [persona.preferred_tools = v]. *)
Definition set_preferred_tools (v : list string) (p : AttackerPersona)
    : AttackerPersona :=
  {| stix_id := stix_id p; mitre_id := mitre_id p; name := name p;
     aliases := aliases p; description := description p; tactics := tactics p;
     techniques := techniques p; software := software p;
     sophistication_level := sophistication_level p;
     stealth_preference := stealth_preference p;
     attack_speed := attack_speed p;
     target_industries := target_industries p;
     target_regions := target_regions p; motivations := motivations p;
     preferred_tools := v;
     max_techniques_per_phase := max_techniques_per_phase p;
     technique_success_rate := technique_success_rate p;
     detection_sensitivity := detection_sensitivity p;
     persistence_priority := persistence_priority p;
     data_exfiltration_priority := data_exfiltration_priority p |}.

Definition group_not_found (group_name : string) : Error :=
  Builtin (ValueError ("Group '" +:+ group_name +:+ "' not found in MITRE data")).

(** [AttackerPersona.from_mitre_data(mitre_client, group_name, **kwargs)].
    The persona is returned with the [preferred_<tactic>] attributes that
    [_set_preferred_techniques] assigned. *)
Definition from_mitre_data (mitre_client : MITREStixClient) (group_name : string)
    (kwargs : option PersonaConfig)
    : outcome (AttackerPersona * list (string * list (option string))) :=
  match get_group_by_name mitre_client group_name with
  | None => Throw (group_not_found group_name)
  | Some group =>
      if negb (truthy group) then Throw (group_not_found group_name)
      else
        group_id ← item "id" (o_id group);
        let techniques := get_techniques_for_group mitre_client group_id in
        let software := get_software_for_group mitre_client group_id in
        let mitre_id :=
          extract_mitre_id (get_or (o_external_references group) []) in
        added ← add_tactics techniques [];
        techniques_by_tactic ← _categorize_techniques_by_tactic techniques;
        name ← item "name" (o_name group);
        let persona :=
          construct group_id mitre_id name
            (get_or (o_aliases group) []) (get_or (o_description group) "")
            (sorted (remove_dups added)) techniques software kwargs in
        preferred ← _set_preferred_techniques techniques_by_tactic;
        tools ← comprehension (fun s => item "name" (o_name s)) (take 5 software);
        Return (set_preferred_tools tools persona, preferred)
  end.

(** *** Properties *)

Lemma add_phases_spec phases added result :
  add_phases phases added = Return result →
  ∀ tactic, tactic ∈ result ↔
    tactic ∈ added ∨ ∃ phase, phase ∈ phases ∧ phase_matches tactic phase = true.
Proof.
  revert added. induction phases as [|ph phases IH]; intros added.
  { cbn. intros [= <-] tactic. split; [by left|].
    by intros [?|(ph & Hin%elem_of_nil & _)]. }
  cbn [add_phases]. case_bool_decide as Hk.
  - destruct (phase_name ph) as [t|] eqn:Hn; cbn [item mbind outcome_bind];
      [|done].
    intros Hret tactic. rewrite (IH _ Hret), elem_of_app, list_elem_of_singleton.
    split.
    + intros [[Hin| ->]|(ph' & Hin & Hm)]; [by left| |].
      * right. exists ph. split; [left|]. by apply phase_matches_spec.
      * right. exists ph'. split; [by right|done].
    + intros [Hin|(ph' & [->|Hin]%elem_of_cons & Hm)]; [by left; left| |].
      * apply phase_matches_spec in Hm as [_ Hm]. left. right. congruence.
      * right. by exists ph'.
  - intros Hret tactic. rewrite (IH _ Hret). split.
    + intros [Hin|(ph' & Hin & Hm)]; [by left|].
      right. exists ph'. split; [by right|done].
    + intros [Hin|(ph' & [->|Hin]%elem_of_cons & Hm)]; [by left| |].
      * apply phase_matches_spec in Hm as [Hm _]. done.
      * right. by exists ph'.
Qed.

Lemma add_tactics_spec techniques added result :
  add_tactics techniques added = Return result →
  ∀ tactic, tactic ∈ result ↔
    tactic ∈ added ∨ ∃ t, t ∈ techniques ∧ classified_under tactic t.
Proof.
  revert added. induction techniques as [|tech techniques IH]; intros added.
  { cbn. intros [= <-] tactic. split; [by left|].
    by intros [?|(t & Hin%elem_of_nil & _)]. }
  cbn [add_tactics].
  destruct (add_phases _ added) as [added1|e] eqn:Hadd;
    cbn [mbind outcome_bind]; [|done].
  intros Hret tactic. rewrite (IH _ Hret), (add_phases_spec _ _ _ Hadd).
  assert (Hc : (∃ phase, phase ∈ get_or (o_kill_chain_phases tech) [] ∧
                  phase_matches tactic phase = true)
               ↔ classified_under tactic tech).
  { unfold classified_under. split; intros (ph & Hin & Hm); exists ph;
      (split; [done|]); by apply phase_matches_spec. }
  rewrite Hc. split.
  - intros [[Hin|Hcl]|(t & Hin & Hcl)]; [by left| |].
    + right. exists tech. split; [left|done].
    + right. exists t. split; [by right|done].
  - intros [Hin|(t & [->|Hin]%elem_of_cons & Hcl)]; [by left; left| |].
    + left. by right.
    + right. by exists t.
Qed.

Lemma comprehension_length {A B} (f : A → outcome B) l ys :
  comprehension f l = Return ys → length ys = length l.
Proof.
  revert ys. induction l as [|x l IH]; intros ys; cbn [comprehension].
  { by intros [= <-]. }
  destruct (f x) as [y|e]; cbn [mbind outcome_bind]; [|done].
  destruct (comprehension f l) as [ys'|e]; cbn [mbind outcome_bind]; [|done].
  intros [= <-]. cbn. f_equal. by apply IH.
Qed.

Lemma comprehension_names l ys :
  comprehension (fun s : Technique => item "name" (o_name s)) l = Return ys →
  map Some ys = map o_name l.
Proof.
  revert ys. induction l as [|x l IH]; intros ys; cbn [comprehension].
  { by intros [= <-]. }
  destruct (o_name x) as [n|] eqn:Hn; cbn [item mbind outcome_bind]; [|done].
  destruct (comprehension _ l) as [ys'|e]; cbn [mbind outcome_bind]; [|done].
  intros [= <-]. cbn. rewrite Hn. f_equal. by apply IH.
Qed.

Lemma set_preferred_spec table techniques_by_tactic preferred :
  set_preferred table techniques_by_tactic = Return preferred →
  Forall (fun entry =>
            ∃ tactic, (tactic, entry.1) ∈ table ∧
                      is_Some (techniques_by_tactic !! tactic) ∧
                      (length entry.2 <= 5)%nat) preferred.
Proof.
  revert preferred. induction table as [|[tactic attr] table IH];
    intros preferred; cbn [set_preferred].
  { intros [= <-]. constructor. }
  assert (Hmono : ∀ l, Forall (fun entry : string * list (option string) =>
            ∃ tactic, (tactic, entry.1) ∈ table ∧
                      is_Some (techniques_by_tactic !! tactic) ∧
                      (length entry.2 <= 5)%nat) l →
          Forall (fun entry : string * list (option string) =>
            ∃ tactic0, (tactic0, entry.1) ∈ (tactic, attr) :: table ∧
                      is_Some (techniques_by_tactic !! tactic0) ∧
                      (length entry.2 <= 5)%nat) l).
  { intros l Hl. eapply Forall_impl; [exact Hl|].
    intros entry (t & Hin & Hsome & Hlen).
    exists t. split; [by right|done]. }
  destruct (techniques_by_tactic !! tactic) as [listed|] eqn:Hl.
  - destruct (comprehension technique_label (take 5 listed)) as [ids|e] eqn:Hids;
      cbn [mbind outcome_bind]; [|done].
    destruct (set_preferred table techniques_by_tactic) as [others|e];
      cbn [mbind outcome_bind]; [|done].
    intros [= <-]. constructor; [|by apply Hmono, IH].
    exists tactic. split; [left|]. split; [by rewrite Hl|]. cbn [snd].
    rewrite (comprehension_length _ _ _ Hids), length_take. lia.
  - intros Hret. by apply Hmono, IH.
Qed.

Lemma add_phases_throws phases added e :
  add_phases phases added = Throw e → e = KeyError "phase_name".
Proof.
  revert added. induction phases as [|ph phases IH]; intros added;
    cbn [add_phases]; [done|].
  case_bool_decide; [|apply IH].
  destruct (phase_name ph); cbn [item mbind outcome_bind]; [apply IH|].
  by intros [= <-].
Qed.

Lemma add_tactics_throws techniques added e :
  add_tactics techniques added = Throw e → e = KeyError "phase_name".
Proof.
  revert added. induction techniques as [|tech techniques IH]; intros added;
    cbn [add_tactics]; [done|].
  destruct (add_phases _ added) as [added1|e1] eqn:Hadd;
    cbn [mbind outcome_bind]; [apply IH|].
  intros [= <-]. by eapply add_phases_throws.
Qed.

Lemma comprehension_throws {A B} (f : A → outcome B) key l e :
  (∀ x e, f x = Throw e → e = KeyError key) →
  comprehension f l = Throw e → e = KeyError key.
Proof.
  intros Hf. induction l as [|x l IH]; cbn [comprehension]; [done|].
  destruct (f x) as [y|e1] eqn:Hx; cbn [mbind outcome_bind].
  - destruct (comprehension f l) as [ys|e2]; cbn [mbind outcome_bind]; [done|].
    intros [= <-]. by apply IH.
  - intros [= <-]. by eapply Hf.
Qed.

Lemma set_preferred_throws table techniques_by_tactic e :
  set_preferred table techniques_by_tactic = Throw e → e = KeyError "name".
Proof.
  induction table as [|[tactic attr] table IH]; cbn [set_preferred]; [done|].
  destruct (techniques_by_tactic !! tactic) as [listed|]; [|done].
  destruct (comprehension technique_label (take 5 listed)) as [ids|e1] eqn:Hids;
    cbn [mbind outcome_bind].
  - destruct (set_preferred table techniques_by_tactic) as [others|e2];
      cbn [mbind outcome_bind]; [done|].
    intros [= <-]. by apply IH.
  - intros [= <-]. eapply comprehension_throws; [|exact Hids].
    intros x e. unfold technique_label.
    destruct (o_name x); cbn [item mbind outcome_bind]; [done|].
    by intros [= <-].
Qed.

Lemma filter_str_in_all (l l' : list string) :
  (∀ x, x ∈ l → x ∈ l') →
  List.filter (fun tactic => str_in tactic l') l = l.
Proof.
  induction l as [|x l IH]; intros Hsub; cbn [List.filter]; [done|].
  unfold str_in at 1. rewrite bool_decide_true by (apply Hsub; left).
  f_equal. apply IH. intros y Hy. apply Hsub. by right.
Qed.

(** A persona has a technique for each of its tactics. *)
Definition equipped (self : AttackerPersona) : Prop :=
  ∀ tactic, tactic ∈ tactics self →
    ∃ t, t ∈ techniques self ∧ classified_under tactic t.

Lemma select_technique_equipped self tactic rng :
  (∃ t, t ∈ techniques self ∧ classified_under tactic t) →
  ∃ t rng', select_technique_for_tactic self tactic None rng = (Some t, rng') ∧
            truthy t = true.
Proof.
  intros (t0 & Hin0 & Hc0). unfold select_technique_for_tactic. cbn [get_or].
  pose proof (collect_matching_spec (techniques self) tactic [] []) as Hspec.
  destruct (collect_matching (techniques self) tactic [] [])
    as [|first others] eqn:Hm.
  { exfalso. eapply elem_of_nil, Hspec. right. split; [exact Hin0|].
    split; [exact Hc0|]. apply not_elem_of_nil. }
  assert (Hall : ∀ t, t ∈ first :: others → truthy t = true).
  { intros t Ht. apply Hspec in Ht as [Ht%elem_of_nil|(_ & Hc & _)]; [done|].
    by eapply classified_truthy. }
  destruct (sophistication_level self).
  1-3: exists first, rng; split; [done|apply Hall; left].
  pose proof (choice_elem first others rng) as Hch.
  destruct (choice first others rng) as [t rng']. cbn [fst] in Hch.
  exists t, rng'. split; [done|by apply Hall].
Qed.

Lemma build_chain_equipped self order chain rng :
  equipped self →
  map ce_tactic (build_chain self order chain rng).1
  = map ce_tactic chain
    ++ List.filter (fun tactic => str_in tactic (tactics self)) order.
Proof.
  intros Heq. revert chain rng.
  induction order as [|tactic rest IH]; intros chain rng;
    cbn [build_chain List.filter].
  { by rewrite app_nil_r. }
  destruct (str_in tactic (tactics self)) eqn:Hin; cbn [negb]; [|apply IH].
  apply bool_decide_eq_true in Hin.
  destruct (select_technique_equipped self tactic rng (Heq tactic Hin))
    as (t & rng' & -> & ->).
  rewrite IH, map_app. cbn [map chain_entry ce_tactic].
  by rewrite <- app_assoc.
Qed.

Lemma from_mitre_data_returns client group_name kwargs persona preferred :
  from_mitre_data client group_name kwargs = Return (persona, preferred) →
  ∃ group added tools,
    get_group_by_name client group_name = Some group ∧
    o_id group = Some (stix_id persona) ∧
    add_tactics (get_techniques_for_group client (stix_id persona)) []
      = Return added ∧
    persona
    = set_preferred_tools tools
        (construct (stix_id persona)
           (extract_mitre_id (get_or (o_external_references group) []))
           (name persona) (get_or (o_aliases group) [])
           (get_or (o_description group) "") (sorted (remove_dups added))
           (get_techniques_for_group client (stix_id persona))
           (get_software_for_group client (stix_id persona)) kwargs) ∧
    o_name group = Some (name persona) ∧
    map Some tools
    = map o_name (take 5 (get_software_for_group client (stix_id persona))) ∧
    ∃ techniques_by_tactic,
      _categorize_techniques_by_tactic
        (get_techniques_for_group client (stix_id persona))
        = Return techniques_by_tactic ∧
      _set_preferred_techniques techniques_by_tactic = Return preferred.
Proof.
  unfold from_mitre_data.
  destruct (get_group_by_name client group_name) as [group|]; [|done].
  destruct (truthy group); cbn [negb]; [|done].
  destruct (o_id group) as [group_id|] eqn:Hid; cbn [item mbind outcome_bind];
    [|done].
  destruct (add_tactics _ []) as [added|e] eqn:Hadd; cbn [mbind outcome_bind];
    [|done].
  destruct (_categorize_techniques_by_tactic _) as [tbt|e] eqn:Hcat;
    cbn [mbind outcome_bind]; [|done].
  destruct (o_name group) as [label|] eqn:Hname; cbn [item mbind outcome_bind];
    [|done].
  destruct (_set_preferred_techniques tbt) as [pref|e] eqn:Hpref;
    cbn [mbind outcome_bind]; [|done].
  destruct (comprehension _ (take 5 _)) as [tools|e] eqn:Htools;
    cbn [mbind outcome_bind]; [|done].
  intros [= <- <-]. cbn [stix_id name set_preferred_tools construct].
  exists group, added, tools. split; [done|]. split; [done|].
  split; [done|]. split; [done|]. split; [done|].
  split; [by apply comprehension_names|]. by exists tbt.
Qed.

Lemma from_mitre_data_equipped client group_name kwargs persona preferred :
  from_mitre_data client group_name kwargs = Return (persona, preferred) →
  ∀ tactic, tactic ∈ tactics persona ↔
    ∃ t, t ∈ techniques persona ∧ classified_under tactic t.
Proof.
  intros Hret tactic.
  destruct (from_mitre_data_returns _ _ _ _ _ Hret)
    as (group & added & tools & _ & _ & Hadd & -> & _).
  cbn [tactics techniques set_preferred_tools construct].
  rewrite (sorted_perm (remove_dups added)), elem_of_remove_dups.
  rewrite (add_tactics_spec _ _ _ Hadd). split; [|by right].
  by intros [?%elem_of_nil|?].
Qed.

(** X28. [_categorize_techniques_by_tactic] raises [KeyError: phase_name]
    exactly when a technique has a phase of the ATT&CK kill chain without a
    phase name. Otherwise a tactic is a key of the result exactly when a
    technique is classified under it, and its list holds those techniques in
    input order, a technique once for every phase that names the tactic. *)
Theorem categorize_techniques_by_tactic_buckets (techniques : list Technique) :
  match _categorize_techniques_by_tactic techniques with
  | Return result =>
      (∀ tech, tech ∈ techniques → ¬ unnamed_phase tech) ∧
      (∀ tactic,
         result !! tactic
         = match bucket tactic techniques with
           | [] => None
           | listed => Some listed
           end) ∧
      (∀ tactic tech,
         tech ∈ get_or (result !! tactic) [] ↔
         tech ∈ techniques ∧ classified_under tactic tech)
  | Throw e =>
      e = KeyError "phase_name" ∧ ∃ tech, tech ∈ techniques ∧ unnamed_phase tech
  end.
Proof.
  pose proof (categorize_spec techniques ∅) as Hspec.
  pose proof (categorize_techniques_returns techniques) as Hret.
  unfold _categorize_techniques_by_tactic in *.
  destruct (categorize techniques ∅) as [result|e]; [|done].
  destruct Hspec as [Hnamed Hb]. split; [done|]. split; [by apply Hret|].
  intros tactic tech. rewrite Hb, lookup_empty. cbn [get_or app].
  apply elem_of_bucket.
Qed.

(** X29. A persona returned by [from_mitre_data] carries the id and name of
    the group found by name, the techniques and software the client returns
    for that id, and the tactics of its techniques as a strictly sorted list:
    a tactic is listed exactly when one of the techniques is classified
    under it. Its preferred tools are the names of the first five software
    entries, whatever the keyword arguments say, and every preferred list
    set for a tactic has at most five entries. The call raises [ValueError]
    exactly when no group of that name is found; any other failure is a
    [KeyError] for a missing [id], [phase_name] or [name]. *)
Theorem from_mitre_data_persona
    (client : MITREStixClient) (group_name : string)
    (kwargs : option PersonaConfig) :
  match from_mitre_data client group_name kwargs with
  | Return (persona, preferred) =>
      ∃ group,
        get_group_by_name client group_name = Some group ∧
        o_id group = Some (stix_id persona) ∧
        o_name group = Some (name persona) ∧
        techniques persona = get_techniques_for_group client (stix_id persona) ∧
        software persona = get_software_for_group client (stix_id persona) ∧
        is_sorted (tactics persona) = true ∧ NoDup (tactics persona) ∧
        (∀ tactic, tactic ∈ tactics persona ↔
           ∃ t, t ∈ techniques persona ∧ classified_under tactic t) ∧
        map Some (preferred_tools persona)
        = map o_name (take 5 (software persona)) ∧
        Forall (fun entry =>
                  entry.1 ∈ tactic_to_attr.*2 ∧ (length entry.2 <= 5)%nat)
               preferred
  | Throw e =>
      match get_group_by_name client group_name with
      | None => e = group_not_found group_name
      | Some group =>
          if truthy group
          then ∃ key, e = KeyError key ∧ key ∈ ["id"; "phase_name"; "name"]
          else e = group_not_found group_name
      end
  end.
Proof.
  destruct (from_mitre_data client group_name kwargs) as [[persona preferred]|e]
    eqn:Hret.
  - pose proof (from_mitre_data_equipped _ _ _ _ _ Hret) as Hequipped.
    destruct (from_mitre_data_returns _ _ _ _ _ Hret)
      as (group & added & tools & Hgroup & Hid & Hadd & Hpersona & Hname
          & Htools & tbt & Hcat & Hpref).
    exists group. split; [done|]. split; [done|]. split; [done|].
    split; [by rewrite Hpersona at 1|]. split; [by rewrite Hpersona at 1|].
    split; [rewrite Hpersona; apply sorted_is_sorted|].
    split.
    { rewrite Hpersona. cbn [tactics set_preferred_tools construct].
      rewrite (sorted_perm (remove_dups added)). apply NoDup_remove_dups. }
    split; [done|].
    split.
    { rewrite Hpersona at 1. cbn [preferred_tools set_preferred_tools].
      rewrite Htools. by rewrite Hpersona at 2. }
    apply set_preferred_spec in Hpref. eapply Forall_impl; [exact Hpref|].
    intros [attr ids] (tactic & Hin & _ & Hlen). split; [|done].
    apply list_elem_of_fmap. by exists (tactic, attr).
  - revert Hret. unfold from_mitre_data.
    destruct (get_group_by_name client group_name) as [group|];
      [|by intros [= <-]].
    destruct (truthy group); cbn [negb]; [|by intros [= <-]].
    destruct (o_id group) as [group_id|]; cbn [item mbind outcome_bind].
    2:{ intros [= <-]. exists "id". split; [done|left]. }
    destruct (add_tactics _ []) as [added|e1] eqn:Hadd;
      cbn [mbind outcome_bind].
    2:{ intros [= <-]. exists "phase_name".
        split; [by eapply add_tactics_throws|right; left]. }
    pose proof (categorize_spec (get_techniques_for_group client group_id) ∅)
      as Hspec.
    unfold _categorize_techniques_by_tactic.
    destruct (categorize _ ∅) as [tbt|e1]; cbn [mbind outcome_bind].
    2:{ intros [= <-]. exists "phase_name". split; [apply Hspec|right; left]. }
    destruct (o_name group) as [label|]; cbn [item mbind outcome_bind].
    2:{ intros [= <-]. exists "name". split; [done|do 2 right; left]. }
    unfold _set_preferred_techniques.
    destruct (set_preferred tactic_to_attr tbt) as [pref|e1] eqn:Hpref;
      cbn [mbind outcome_bind].
    2:{ intros [= <-]. exists "name".
        split; [by eapply set_preferred_throws|do 2 right; left]. }
    destruct (comprehension _ (take 5 _)) as [tools|e1] eqn:Htools;
      cbn [mbind outcome_bind]; [done|].
    intros [= <-]. exists "name". split; [|do 2 right; left].
    eapply comprehension_throws; [|exact Htools].
    intros x e0. cbn beta. destruct (o_name x); cbn [item]; [done|].
    by intros [= <-].
Qed.

(** X30. The attack chain of a persona built by [from_mitre_data] has
    exactly one entry, in order, for every tactic of the scenario's order
    that the persona has: no tactic of such a persona is skipped for want
    of a technique. For a scenario other than the three named ones the
    chain follows the persona's sorted tactics. *)
Theorem mitre_persona_chain_covers_tactics
    (client : MITREStixClient) (group_name : string)
    (kwargs : option PersonaConfig) (persona : AttackerPersona)
    (preferred : list (string * list (option string))) (scenario : string)
    (rng : Rng) :
  from_mitre_data client group_name kwargs = Return (persona, preferred) →
  map ce_tactic (get_attack_chain persona scenario rng).1
  = List.filter (fun tactic => str_in tactic (tactics persona))
      (tactic_order persona scenario) ∧
  (scenario ∉ ["full_chain"; "ransomware"; "data_theft"] →
   map ce_tactic (get_attack_chain persona scenario rng).1 = tactics persona).
Proof.
  intros Hret.
  assert (Hchain : map ce_tactic (get_attack_chain persona scenario rng).1
                   = List.filter (fun tactic => str_in tactic (tactics persona))
                       (tactic_order persona scenario)).
  { unfold get_attack_chain. rewrite build_chain_equipped; [done|].
    intros tactic Hin. by apply (from_mitre_data_equipped _ _ _ _ _ Hret). }
  split; [exact Hchain|]. intros Hcustom. rewrite Hchain.
  unfold tactic_order.
  rewrite bool_decide_false by (intros ->; apply Hcustom; left).
  rewrite bool_decide_false by (intros ->; apply Hcustom; right; left).
  rewrite bool_decide_false by (intros ->; apply Hcustom; do 2 right; left).
  apply filter_str_in_all. by intros x Hx.
Qed.

(** The persona of the sample bundle of the client's tests. *)
Definition sample_build
    : outcome (AttackerPersona * list (string * list (option string))) :=
  from_mitre_data (parse_stix_data SAMPLE_STIX_DATA) "APT29" None.

Example test_from_mitre_data :
  match sample_build with
  | Return (persona, preferred) =>
      (stix_id persona, mitre_id persona, name persona, tactics persona,
       map o_name (techniques persona), preferred_tools persona, preferred)
      = ("intrusion-set--899ce53f", "G0016", "APT29", ["initial-access"],
         [Some "Spearphishing Link"], ["Cobalt Strike"],
         [("preferred_initial_access", [Some "T1566.002"])])
  | Throw _ => False
  end.
Proof. by vm_compute. Qed.

(** The persona of the group whose technique has a reference without id,
    on which an executed campaign raises, is the one [from_mitre_data]
    builds from the bundle. *)
Example test_from_mitre_data_unnumbered :
  from_mitre_data (parse_stix_data Agent.unnumbered_bundle) "Unnumbered" None
  = Return (Agent.unnumbered_persona, [("preferred_initial_access", [None])]).
Proof. by vm_compute. Qed.

Lemma mitre_persona_chain_covers_tactics_witness :
  ∃ persona preferred,
    sample_build = Return (persona, preferred) ∧
    map ce_tactic (get_attack_chain persona "custom" (constant_rng 0)).1
    = tactics persona.
Proof.
  assert (Hret : ∃ persona preferred, sample_build = Return (persona, preferred)).
  { vm_compute. eauto. }
  destruct Hret as (persona & preferred & Hret). exists persona, preferred.
  split; [exact Hret|].
  apply (mitre_persona_chain_covers_tactics _ _ _ persona preferred "custom"
           (constant_rng 0) Hret).
  intros Hin. repeat (apply elem_of_cons in Hin as [Hin|Hin]; [discriminate|]).
  by apply elem_of_nil in Hin.
Defined.

End PersonaData.
